(** * telegram_phone_checker: the rate-limited multi-account dispatch core

    A shallow embedding of [telegram_phone_checker.py]: the quota store
    ([load_account_limits], [get_account_limit], [increment_account_limit]),
    the account rotator ([get_next_account]), the per-batch checker
    ([get_names], [validate_users]), the CSV writer
    ([write_header_if_needed], [parse_and_save_results]), the dispatch
    loop of [main], and the reader of the input file
    ([read_phone_numbers]) with the window [main] takes of its batches.

    Python objects are modelled as follows.
    - [str] is [string]; an [ascii] stands for one code point below 256.
    - [int] is [Z]; positions and lengths are [nat].
    - [self.account_limits] (a dict of dicts) is a [gmap string (gmap string Z)].
    - The result dict of [validate_users] keeps insertion order, which is the
      order of the rows written: it is an association list.
    - Everything the program obtains from outside (the clock, the Telegram
      replies, whether a file operation succeeds) is an oracle in [World];
      an oracle sees the events that happened so far.
    - A function that has effects is a state-and-exception computation
      [M A]: it returns a value or raises, and always returns the state it
      reached. *)

From Stdlib Require Import ZArith Ascii String List Lia.
From stdpp Require Import gmap strings list fin_maps.

Local Open Scope Z_scope.
Local Open Scope string_scope.

(** ** Exceptions *)

(** The exception classes the program tells apart.  [BaseError] stands for
    the classes outside [Exception] ([KeyboardInterrupt],
    [asyncio.CancelledError]): no [except Exception] clause catches them. *)
Inductive exception : Type :=
| ZeroDivisionError
| IndexError
| TypeError (msg : string)
| OtherError (msg : string)
| BaseError (msg : string).

(** [isinstance(e, Exception)] *)
Definition is_Exception (e : exception) : bool :=
  match e with
  | BaseError _ => false
  | _ => true
  end.

(** [isinstance(e, TypeError)] *)
Definition is_TypeError (e : exception) : bool :=
  match e with
  | TypeError _ => true
  | _ => false
  end.

(** [str(e)] *)
Definition exception_text (e : exception) : string :=
  match e with
  | ZeroDivisionError => "integer division or modulo by zero"
  | IndexError => "list index out of range"
  | TypeError msg => msg
  | OtherError msg => msg
  | BaseError msg => msg
  end.

Inductive result (A : Type) : Type :=
| Ok (a : A)
| Raise (e : exception).
Arguments Ok {A} a.
Arguments Raise {A} e.

(** ** Data model *)

(** An entry of [config['accounts']]; the credentials are not read by the
    code modelled here.  The pause fields are the optional per-account keys
    [request_pause_min] and [request_pause_max]. *)
Record account : Type := mkAccount {
  phone_number : string;
  request_pause_min : option Z;
  request_pause_max : option Z
}.

(** A Python value as it ends up in a CSV cell. *)
Inductive pyval : Type :=
| PyNone
| PyBool (b : bool)
| PyInt (z : Z)
| PyStr (s : string).

(** The texts [get_names] stores under the key ["error"]:
    - [MsgNotFound]: the number is not on Telegram or adding it was refused;
    - [MsgSeveralAccounts]: several accounts are registered on the number;
    - [MsgTypeError e phone]: ["TypeError: e. ..."], the contact [phone]
      may not have been deleted;
    - [MsgUnexpected e]: the text for any other [Exception] [e]. *)
Inductive message : Type :=
| MsgNotFound
| MsgSeveralAccounts
| MsgTypeError (e : string) (phone : string)
| MsgUnexpected (e : string).

(** [types.TypeUserStatus] *)
Inductive user_status : Type :=
| UserStatusOnline
| UserStatusOffline (was_online : string)
| UserStatusRecently
| UserStatusLastWeek
| UserStatusLastMonth
| UserStatusOther.

(** A [types.User] as returned by [DeleteContactsRequest].  An element of
    [usernames] is [Some s] for a dict whose ["username"] is [s] and [None]
    for an object that is not a dict. *)
Record user : Type := mkUser {
  u_id : pyval;
  u_username : pyval;
  u_usernames : list (option string);
  u_first_name : pyval;
  u_last_name : pyval;
  u_fake : pyval;
  u_verified : pyval;
  u_premium : pyval;
  u_mutual_contact : pyval;
  u_bot : pyval;
  u_bot_chat_history : pyval;
  u_restricted : pyval;
  u_restriction_reason : pyval;
  u_status : user_status;
  u_phone : pyval
}.

(** The dict built by [get_names]: either the profile keys or the single key
    ["error"].  [get_names] never returns an empty dict. *)
Inductive user_data : Type :=
| Profile (u : user) (user_was_online : string)
| Failed (error : message).

(** A CSV cell before [csv.writer] renders it. *)
Inductive cell : Type :=
| CVal (v : pyval)
| CStrOf (v : pyval)
| CJson (l : list string)
| CMsg (m : message).

Definition row : Type := list cell.

(** What happened, in order: one [EvLookup] per call of [get_names], one
    [EvRequestPause] per [asyncio.sleep(random.uniform(pause_min, pause_max))],
    one [EvBatchPause] per [asyncio.sleep(batch_pause)], [EvBatchStart] for
    the line logged when the loop of [main] enters a batch. *)
Inductive event : Type :=
| EvBatchStart (i total : nat)
| EvLogin (account_phone : string)
| EvLookup (account_phone phone : string)
| EvRequestPause (pause_min pause_max : Z)
| EvBatchPause (seconds : Z)
| EvDisconnect (account_phone : string).

(** [account_limits.json]: absent, not loadable, or holding a dict. *)
Inductive limits_file : Type :=
| NoFile
| Unreadable
| Stored (data : gmap string (gmap string Z)).

(** [AccountManager]; [clients] holds the keys of [self.clients]. *)
Record AccountManager : Type := mkAccountManager {
  accounts : list account;
  current_account_index : nat;
  clients : gset string;
  batch_pause : Z;
  account_limits : gmap string (gmap string Z)
}.

(** The manager, the two files the program writes and the events so far.
    [output_csv] is [None] while the file does not exist. *)
Record state : Type := mkState {
  am : AccountManager;
  output_csv : option (list row);
  limits_json : limits_file;
  trace : list event
}.

(** The environment of one run; the run stays within one calendar day. *)
Record World : Type := mkWorld {
  (** [datetime.date.today().isoformat()] *)
  today : string;
  (** [client(ImportContactsRequest([contact]))]: the ids of
      [contacts.to_dict()["users"]], or the exception raised *)
  import_contacts : list event -> string -> string -> result (list pyval);
  (** [client(DeleteContactsRequest(id=[id]))]: [updates_response.users] *)
  delete_contacts : list event -> string -> pyval -> result (list user);
  (** [client.is_connected()] for a cached client *)
  is_connected : list event -> string -> bool;
  (** the exception [login_account] raises, if any *)
  login_error : list event -> string -> option exception;
  (** whether opening the output file with mode ['w'] and writing succeed *)
  header_write_ok : list event -> bool;
  (** [None]: the append goes through; [Some k]: an exception is raised
      after [k] rows ([k = 0]: the [open] itself fails) *)
  append_error : list event -> option nat;
  (** whether [save_account_limits] manages to write the file *)
  limits_write_ok : list event -> bool
}.

(** ** The state-and-exception monad *)

Definition M (A : Type) : Type := state -> result A * state.

Definition ret {A} (a : A) : M A := fun st => (Ok a, st).

Definition bind {A B} (m : M A) (f : A -> M B) : M B :=
  fun st =>
    match m st with
    | (Ok a, st') => f a st'
    | (Raise e, st') => (Raise e, st')
    end.

Definition raise {A} (e : exception) : M A := fun st => (Raise e, st).

Definition get_state : M state := fun st => (Ok st, st).

Definition put_state (st : state) : M unit := fun _ => (Ok tt, st).

Declare Scope m_scope.
Delimit Scope m_scope with M.
Notation "x <- m ;; k" := (bind m (fun x => k))
  (at level 100, m at next level, right associativity) : m_scope.
Notation "m ;;; k" := (bind m (fun _ => k))
  (at level 100, right associativity) : m_scope.
Local Open Scope m_scope.

Definition set_am (a : AccountManager) (st : state) : state :=
  mkState a (output_csv st) (limits_json st) (trace st).

Definition set_output_csv (f : option (list row)) (st : state) : state :=
  mkState (am st) f (limits_json st) (trace st).

Definition set_limits_json (f : limits_file) (st : state) : state :=
  mkState (am st) (output_csv st) f (trace st).

Definition emit (ev : event) : M unit :=
  fun st => (Ok tt, mkState (am st) (output_csv st) (limits_json st) (trace st ++ [ev])%list).

(** ** Quota store *)

Definition ACCOUNT_DAILY_LIMIT : Z := 50.

(** [load_account_limits]: a record that lacks today's date is replaced by
    [{today: 0}]; a missing or unloadable file gives the empty dict. *)
Definition load_account_limits (today : string) (f : limits_file)
  : gmap string (gmap string Z) :=
  match f with
  | Stored data =>
      (fun rec : gmap string Z =>
         if decide (is_Some (rec !! today)) then rec else {[ today := 0 ]}) <$> data
  | NoFile | Unreadable => ∅
  end.

(** [save_account_limits]: an I/O error is logged and swallowed. *)
Definition save_account_limits (w : World) (limits : gmap string (gmap string Z)) : M unit :=
  st <- get_state ;;
  if limits_write_ok w (trace st)
  then put_state (set_limits_json (Stored limits) st)
  else ret tt.

(** [dict.get(phone, {}).get(today, 0)] *)
Definition used_on (limits : gmap string (gmap string Z)) (phone date : string) : Z :=
  default 0 (default ∅ (limits !! phone) !! date).

(** [AccountManager.get_account_limit] *)
Definition get_account_limit (w : World) (phone : string) : M Z :=
  st <- get_state ;;
  ret (used_on (account_limits (am st)) phone (today w)).

Definition set_account_limits (l : gmap string (gmap string Z)) (a : AccountManager)
  : AccountManager :=
  mkAccountManager (accounts a) (current_account_index a) (clients a) (batch_pause a) l.

Definition set_current_account_index (i : nat) (a : AccountManager) : AccountManager :=
  mkAccountManager (accounts a) i (clients a) (batch_pause a) (account_limits a).

Definition set_clients (c : gset string) (a : AccountManager) : AccountManager :=
  mkAccountManager (accounts a) (current_account_index a) c (batch_pause a) (account_limits a).

(** The three assignments of [increment_account_limit] on the dict. *)
Definition incremented (limits : gmap string (gmap string Z)) (phone date : string)
  (count : Z) : gmap string (gmap string Z) :=
  let limits1 :=
    if decide (is_Some (limits !! phone)) then limits else <[ phone := ∅ ]> limits in
  let rec1 := default ∅ (limits1 !! phone) in
  let rec2 :=
    if decide (is_Some (rec1 !! date)) then rec1 else <[ date := 0 ]> rec1 in
  let rec3 := <[ date := default 0 (rec2 !! date) + count ]> rec2 in
  <[ phone := rec3 ]> limits1.

(** [AccountManager.increment_account_limit] *)
Definition increment_account_limit (w : World) (phone : string) (count : Z) : M unit :=
  st <- get_state ;;
  let limits := incremented (account_limits (am st)) phone (today w) count in
  put_state (set_am (set_account_limits limits (am st)) st) ;;;
  save_account_limits w limits.

(** ** Account rotator *)

(** [a % n] on non-negative ints *)
Definition py_mod (a n : nat) : M nat :=
  if (n =? 0)%nat then raise ZeroDivisionError else ret (a mod n)%nat.

(** [l[i]] *)
Definition py_index {A} (l : list A) (i : nat) : M A :=
  match l !! i with
  | Some x => ret x
  | None => raise IndexError
  end.

(** The [for offset in range(n)] loop of [get_next_account]. *)
Fixpoint scan_accounts (w : World) (batch_size : Z) (n : nat) (offsets : list nat)
  : M (option account) :=
  match offsets with
  | [] => ret None
  | offset :: rest =>
      st <- get_state ;;
      idx <- py_mod (current_account_index (am st) + offset) n ;;
      account <- py_index (accounts (am st)) idx ;;
      let phone := phone_number account in
      let used := default 0 (default ∅ (account_limits (am st) !! phone) !! today w) in
      if decide (used + batch_size <= ACCOUNT_DAILY_LIMIT) then
        next <- py_mod (idx + 1) n ;;
        put_state (set_am (set_current_account_index next (am st)) st) ;;;
        ret (Some account)
      else scan_accounts w batch_size n rest
  end.

(** [AccountManager.get_next_account] *)
Definition get_next_account (w : World) (batch_size : Z) : M (option account) :=
  st <- get_state ;;
  let n := length (accounts (am st)) in
  scan_accounts w batch_size n (seq 0 n).

(** The YAML document read by [load_config]: the value of ['accounts'] if the
    key is there, and, if the key ['settings'] is there, the value of its
    ['batch_pause_seconds'] if any. *)
Record yaml_config : Type := mkYaml {
  cfg_accounts : option (list account);
  cfg_settings : option (option Z)
}.

(** [AccountManager.__init__] followed by the YAML branch of [load_config]. *)
Definition new_AccountManager (w : World) (cfg : yaml_config) (f : limits_file)
  : AccountManager :=
  let accounts0 : list account := [] in
  let batch_pause0 := 120 in
  let accounts1 :=
    match cfg_accounts cfg with
    | Some (a :: l) => a :: l
    | Some [] | None => accounts0
    end in
  let batch_pause1 :=
    match cfg_settings cfg with
    | Some s => default 120 s
    | None => batch_pause0
    end in
  mkAccountManager accounts1 0 ∅ batch_pause1 (load_account_limits (today w) f).

(** ** Exception handling *)

(** [try: body / except: handler] where the handler sees every exception and
    re-raises those its clauses do not name. *)
Definition try_except {A} (body : M A) (handler : exception -> M A) : M A :=
  fun st =>
    match body st with
    | (Ok a, st') => (Ok a, st')
    | (Raise e, st') => handler e st'
    end.

(** [try: body / finally: cleanup] *)
Definition try_finally {A} (body : M A) (cleanup : M unit) : M A :=
  fun st =>
    match body st with
    | (Ok a, st') => (cleanup ;;; ret a) st'
    | (Raise e, st') => (cleanup ;;; raise e) st'
    end.

(** The answer of a remote call. *)
Definition remote {A} (r : result A) : M A :=
  match r with
  | Ok a => ret a
  | Raise e => raise e
  end.

(** ** Sessions *)

(** [AccountManager.login_account]; its two fixed sleeps belong to the login. *)
Definition login_account (w : World) (account : account) : M string :=
  emit (EvLogin (phone_number account)) ;;;
  st <- get_state ;;
  match login_error w (trace st) (phone_number account) with
  | Some e => raise e
  | None => ret (phone_number account)
  end.

(** [AccountManager.get_client]; a client is named by its account's phone. *)
Definition get_client (w : World) (account : account) : M string :=
  let phone := phone_number account in
  st <- get_state ;;
  if bool_decide (phone ∈ clients (am st)) && is_connected w (trace st) phone
  then ret phone
  else
    client <- login_account w account ;;
    st <- get_state ;;
    put_state (set_am (set_clients ({[ phone ]} ∪ clients (am st)) (am st)) st) ;;;
    ret client.

Fixpoint disconnect_each (w : World) (phones : list string) : M unit :=
  match phones with
  | [] => ret tt
  | phone :: rest =>
      st <- get_state ;;
      (if is_connected w (trace st) phone then emit (EvDisconnect phone) else ret tt) ;;;
      disconnect_each w rest
  end.

(** [AccountManager.disconnect_all] *)
Definition disconnect_all (w : World) : M unit :=
  st <- get_state ;;
  disconnect_each w (elements (clients (am st))).

(** ** Lookup of one number *)

(** [get_human_readable_user_status] *)
Definition get_human_readable_user_status (status : user_status) : string :=
  match status with
  | UserStatusOnline => "Currently online"
  | UserStatusOffline was_online => was_online
  | UserStatusRecently => "Last seen recently"
  | UserStatusLastWeek => "Last seen last week"
  | UserStatusLastMonth => "Last seen last month"
  | UserStatusOther => "Unknown"
  end.

(** ['+' + phone_number if not phone_number.startswith('+') else phone_number] *)
Definition with_plus (phone_number : string) : string :=
  match phone_number with
  | String "+"%char _ => phone_number
  | _ => "+" ++ phone_number
  end.

(** [get_names]: the two [except] clauses turn every [Exception] into an
    error dict; anything else propagates. *)
Definition get_names (w : World) (client : string) (phone_number : string) : M user_data :=
  let phone_number := with_plus phone_number in
  emit (EvLookup client phone_number) ;;;
  try_except
    (st <- get_state ;;
     users <- remote (import_contacts w (trace st) client phone_number) ;;
     match users with
     | [] => ret (Failed MsgNotFound)
     | [u] =>
         updates_users <- remote (delete_contacts w (trace st) client u) ;;
         user <- py_index updates_users 0 ;;
         ret (Profile user (get_human_readable_user_status (u_status user)))
     | _ :: _ :: _ => ret (Failed MsgSeveralAccounts)
     end)
    (fun e =>
       if is_TypeError e then ret (Failed (MsgTypeError (exception_text e) phone_number))
       else if is_Exception e then ret (Failed (MsgUnexpected (exception_text e)))
       else raise e).

(** ** A batch *)

(** What [\s] matches with [re.UNICODE], among the code points below 256. *)
Definition py_isspace (c : ascii) : bool :=
  let n := nat_of_ascii c in
  ((9 <=? n) && (n <=? 13) || (28 <=? n) && (n <=? 32) || (n =? 133) || (n =? 160))%nat.

(** [re.sub(r"\s+", "", phone, flags=re.UNICODE)] *)
Fixpoint strip_whitespace (phone : string) : string :=
  match phone with
  | EmptyString => EmptyString
  | String c rest =>
      if py_isspace c then strip_whitespace rest else String c (strip_whitespace rest)
  end.

(** [key in d] for an insertion-ordered dict *)
Definition dict_has {V} (key : string) (d : list (string * V)) : bool :=
  existsb (fun kv => String.eqb (fst kv) key) d.

(** [d[key] = v]: a present key keeps its place, a new key goes last. *)
Fixpoint dict_set {V} (d : list (string * V)) (key : string) (v : V) : list (string * V) :=
  match d with
  | [] => [(key, v)]
  | (k, x) :: rest =>
      if String.eqb k key then (k, v) :: rest else (k, x) :: dict_set rest key v
  end.

(** The loop of [validate_users]; [i] is the position given by
    [enumerate(phone_numbers, 1)] and [len] is [len(phone_numbers)]. *)
Fixpoint validate_loop (w : World) (client : string) (pause_min pause_max : Z)
  (len i : nat) (phone_numbers : list string) (result : list (string * user_data))
  : M (list (string * user_data)) :=
  match phone_numbers with
  | [] => ret result
  | phone :: rest =>
      let clean_phone := strip_whitespace phone in
      if negb (String.eqb clean_phone "") && negb (dict_has clean_phone result) then
        data <- get_names w client clean_phone ;;
        let result := dict_set result clean_phone data in
        (if (i <? len)%nat then emit (EvRequestPause pause_min pause_max) else ret tt) ;;;
        validate_loop w client pause_min pause_max len (S i) rest result
      else validate_loop w client pause_min pause_max len (S i) rest result
  end.

(** [validate_users] *)
Definition validate_users (w : World) (client : string) (phone_numbers : list string)
  (pause_min pause_max : Z) : M (list (string * user_data)) :=
  validate_loop w client pause_min pause_max (length phone_numbers) 1 phone_numbers [].

(** ** The output file *)

Definition HEADER : row :=
  map (fun s => CVal (PyStr s))
    ["phone_number"; "found"; "id"; "username"; "usernames";
     "first_name"; "last_name"; "fake"; "verified"; "premium";
     "mutual_contact"; "bot"; "bot_chat_history"; "restricted";
     "restriction_reason"; "user_was_online"; "phone"; "error";
     "checked_by_account"].

(** The rows of a file; a file that does not exist has none. *)
Definition content (f : option (list row)) : list row := default [] f.

(** [write_header_if_needed]: the header goes to a file that is missing or
    has size 0; an [IOError] or [OSError] is logged and swallowed. *)
Definition write_header_if_needed (w : World) : M unit :=
  st <- get_state ;;
  let file_exists := bool_decide (is_Some (output_csv st)) in
  let is_empty :=
    if file_exists then (length (content (output_csv st)) =? 0)%nat else true in
  if negb file_exists || is_empty then
    if header_write_ok w (trace st)
    then put_state (set_output_csv (Some [HEADER]) st)
    else ret tt
  else ret tt.

(** The row [parse_and_save_results] builds for one item of the dict. *)
Definition result_row (checked_by : string) (item : string * user_data) : row :=
  let '(phone, user_data) := item in
  let empty := CVal (PyStr "") in
  match user_data with
  | Profile u user_was_online =>
      let usernames_str :=
        match u_usernames u with
        | [] => empty
        | _ :: _ => CJson (omap id (u_usernames u))
        end in
      [CVal (PyStr phone); CVal (PyStr "Yes"); CVal (u_id u); CVal (u_username u);
       usernames_str; CVal (u_first_name u); CVal (u_last_name u);
       CVal (u_fake u); CVal (u_verified u); CVal (u_premium u);
       CVal (u_mutual_contact u); CVal (u_bot u);
       CVal (u_bot_chat_history u); CVal (u_restricted u);
       CStrOf (u_restriction_reason u); CVal (PyStr user_was_online);
       CVal (u_phone u); empty; CVal (PyStr checked_by)]
  | Failed error_msg =>
      [CVal (PyStr phone); CVal (PyStr "No"); empty; empty; empty; empty; empty;
       empty; empty; empty; empty; empty; empty; empty; empty; empty; empty;
       CMsg error_msg; CVal (PyStr checked_by)]
  end.

(** Opening the file with mode ['a'] and writing [rows]: the file is created
    if missing; an error after [k] rows leaves those [k] rows written. *)
Definition append_rows (w : World) (rows : list row) : M unit :=
  st <- get_state ;;
  match append_error w (trace st) with
  | None => put_state (set_output_csv (Some (content (output_csv st) ++ rows)%list) st)
  | Some 0%nat => raise (OtherError "open failed")
  | Some k =>
      put_state (set_output_csv (Some (content (output_csv st) ++ firstn k rows)%list) st) ;;;
      raise (OtherError "write failed")
  end.

(** [parse_and_save_results]: any exception of the append is logged and
    swallowed; the function returns nothing. *)
Definition parse_and_save_results (w : World) (results_data : list (string * user_data))
  (checked_by : string) : M unit :=
  write_header_if_needed w ;;;
  try_except
    (append_rows w (map (result_row checked_by) results_data))
    (fun e => if is_Exception e then ret tt else raise e).

(** ** The dispatch loop *)

(** The per-account pause bounds [main] looks up before a batch. *)
Definition pause_bounds (accounts : list account) (account : account) : Z * Z :=
  match find (fun acc => String.eqb (phone_number acc) (phone_number account)) accounts with
  | Some acc => (default 120 (request_pause_min acc), default 180 (request_pause_max acc))
  | None => (120, 180)
  end.

(** The [if result_data:] block of the loop body: the rows are written, then
    [processed_count] and the quota of the account grow by [len(batch)];
    with an empty [result_data] only an error is logged. *)
Definition commit_results (w : World) (account : account) (batch : list string)
  (result_data : list (string * user_data)) (processed_count : nat) : M nat :=
  match result_data with
  | _ :: _ =>
      parse_and_save_results w result_data (phone_number account) ;;;
      increment_account_limit w (phone_number account) (Z.of_nat (length batch)) ;;;
      ret (processed_count + length batch)%nat
  | [] => ret processed_count
  end.

(** The body of the [for i, batch in enumerate(batches, 1)] loop of [main];
    [total] is [len(batches)]; the value is the new [processed_count], or
    [None] for [break]. *)
Definition process_batch (w : World) (total i : nat) (batch : list string)
  (processed_count : nat) : M (option nat) :=
  emit (EvBatchStart i total) ;;;
  account <- get_next_account w (Z.of_nat (length batch)) ;;
  match account with
  | None => ret None
  | Some account =>
      client <- get_client w account ;;
      st <- get_state ;;
      let '(pause_min, pause_max) := pause_bounds (accounts (am st)) account in
      result_data <- validate_users w client batch pause_min pause_max ;;
      processed_count <- commit_results w account batch result_data processed_count ;;
      (if (i <? total)%nat
       then st <- get_state ;; emit (EvBatchPause (batch_pause (am st)))
       else ret tt) ;;;
      ret (Some processed_count)
  end.

(** The loop of [main]; the value is [processed_count]. *)
Fixpoint main_loop (w : World) (total i : nat) (batches : list (list string))
  (processed_count : nat) : M nat :=
  match batches with
  | [] => ret processed_count
  | batch :: rest =>
      r <- process_batch w total i batch processed_count ;;
      match r with
      | None => ret processed_count
      | Some processed_count => main_loop w total (S i) rest processed_count
      end
  end.

(** [main] from the point where the batches are known: nothing happens for
    an empty list; otherwise the loop runs, an [Exception] is logged, and the
    sessions are closed in every case. *)
Definition main (w : World) (batches : list (list string)) : M unit :=
  match batches with
  | [] => ret tt
  | _ :: _ =>
      try_finally
        (try_except
           (main_loop w (length batches) 1 batches 0 ;;; ret tt)
           (fun e => if is_Exception e then ret tt else raise e))
        (disconnect_all w)
  end.

(** The state a run starts from. *)
Definition start_state (w : World) (cfg : yaml_config) (out : option (list row))
  (lim : limits_file) : state :=
  mkState (new_AccountManager w cfg lim) out lim [].

(** A run of the program: a fresh manager built from the configuration and
    the stored limits, then [main]. *)
Definition run (w : World) (cfg : yaml_config) (batches : list (list string))
  (out : option (list row)) (lim : limits_file) : result unit * state :=
  main w batches (start_state w cfg out lim).

(** * Notions used in the statements *)

(** The account would stay within the daily limit after [batch_size] more
    requests today. *)
Definition eligible (w : World) (batch_size : Z) (st : state) (a : account) : Prop :=
  used_on (account_limits (am st)) (phone_number a) (today w) + batch_size
  <= ACCOUNT_DAILY_LIMIT.

#[global] Instance eligible_dec w batch_size st a : Decision (eligible w batch_size st a).
Proof. unfold eligible. apply _. Defined.

(** The account examined at a given offset of the scan. *)
Definition candidate (st : state) (offset : nat) : option account :=
  accounts (am st) !!
    ((current_account_index (am st) + offset) mod length (accounts (am st)))%nat.

(** The state after the account at [offset] was selected: the rotation index
    is one past its position. *)
Definition selected (st : state) (offset : nat) : state :=
  let n := length (accounts (am st)) in
  let idx := ((current_account_index (am st) + offset) mod n)%nat in
  set_am (set_current_account_index ((idx + 1) mod n)%nat (am st)) st.

(** Successive calls of [increment_account_limit], each with its account and
    its delta. *)
Fixpoint increment_calls (w : World) (calls : list (string * Z)) : M unit :=
  match calls with
  | [] => ret tt
  | (phone, count) :: rest =>
      increment_account_limit w phone count ;;; increment_calls w rest
  end.

(** The sum of the deltas of the calls that name [phone]. *)
Fixpoint sum_for (phone : string) (calls : list (string * Z)) : Z :=
  match calls with
  | [] => 0
  | (p, count) :: rest =>
      (if decide (p = phone) then count else 0) + sum_for phone rest
  end.

(** ISO 8601 dates are ordered as their strings are. *)
Definition later_date (d1 d2 : string) : string :=
  if String.leb d1 d2 then d2 else d1.

(** The latest date a record has a count for. *)
Definition last_recorded_date (rec : gmap string Z) : option string :=
  foldr (fun d acc => Some (match acc with None => d | Some m => later_date d m end))
    None (elements (dom rec)).

(** A computation is stable for a relation when the state it reaches is
    related to the state it starts from, whether it returns or raises. *)
Definition stable {A} (R : relation state) (m : M A) : Prop :=
  forall st, R st (snd (m st)).

(** The configuration, the quota store and both files are as before; the
    trace grew by events that satisfy [P]. *)
Record quiet (P : event -> Prop) (st st' : state) : Prop := mkQuiet {
  quiet_accounts : accounts (am st') = accounts (am st);
  quiet_batch_pause : batch_pause (am st') = batch_pause (am st);
  quiet_account_limits : account_limits (am st') = account_limits (am st);
  quiet_output_csv : output_csv st' = output_csv st;
  quiet_limits_json : limits_json st' = limits_json st;
  quiet_trace : exists evs, trace st' = (trace st ++ evs)%list /\ Forall P evs
}.

(** The events of [trace st'] that came after [trace st]. *)
Definition events_since (st st' : state) : list event :=
  drop (length (trace st)) (trace st').

Definition is_lookup (ev : event) : bool :=
  match ev with
  | EvLookup _ _ => true
  | _ => false
  end.

(** The events that can happen inside one batch. *)
Definition inner (ev : event) : Prop :=
  match ev with
  | EvLogin _ | EvLookup _ _ | EvRequestPause _ _ => True
  | _ => False
  end.

(** [sep] between every two neighbours of [l], and nowhere else. *)
Fixpoint interleave {A} (sep : A) (l : list A) : list A :=
  match l with
  | [] => []
  | [x] => [x]
  | x :: rest => x :: sep :: interleave sep rest
  end.

(** The events of the loop of [main] from batch [i] on: each batch starts,
    has its inner events, and is followed by one pause of [bp] seconds
    exactly when the start of a next batch follows. *)
Inductive batch_events (bp : Z) (total : nat) : nat -> list event -> Prop :=
| batch_events_none i : batch_events bp total i []
| batch_events_last i body :
    Forall inner body ->
    batch_events bp total i (EvBatchStart i total :: body)
| batch_events_more i body rest :
    Forall inner body ->
    batch_events bp total (S i) (EvBatchStart (S i) total :: rest) ->
    batch_events bp total i
      (EvBatchStart i total :: body ++ EvBatchPause bp :: EvBatchStart (S i) total :: rest).

(** Lookups, each directly followed by at most one request pause with the
    given bounds. *)
Inductive lookups_paused (pause_min pause_max : Z) : list event -> Prop :=
| lookups_paused_nil : lookups_paused pause_min pause_max []
| lookups_paused_lookup c p rest :
    lookups_paused pause_min pause_max rest ->
    lookups_paused pause_min pause_max (EvLookup c p :: rest)
| lookups_paused_pause c p rest :
    lookups_paused pause_min pause_max rest ->
    lookups_paused pause_min pause_max
      (EvLookup c p :: EvRequestPause pause_min pause_max :: rest).

(** The events the entry at position [j] (counted from 0) of a batch
    gives rise to: none if its normalized form is blank or is that of an
    earlier entry; otherwise its lookup, followed by a request pause unless
    the entry is the last one of the batch. *)
Definition entry_events (client : string) (pause_min pause_max : Z)
  (phones : list string) (j : nat) : list event :=
  match phones !! j with
  | Some phone =>
      if decide (strip_whitespace phone <> ""
                 /\ strip_whitespace phone ∉ map strip_whitespace (take j phones))
      then EvLookup client (with_plus (strip_whitespace phone))
             :: (if (S j <? length phones)%nat
                 then [EvRequestPause pause_min pause_max] else [])
      else []
  | None => []
  end.

Definition is_batch_pause (ev : event) : bool :=
  match ev with
  | EvBatchPause _ => true
  | _ => false
  end.

Definition is_batch_start (ev : event) : bool :=
  match ev with
  | EvBatchStart _ _ => true
  | _ => false
  end.

Definition is_disconnect (ev : event) : Prop :=
  match ev with
  | EvDisconnect _ => True
  | _ => False
  end.

(** A row written for some item of some batch. *)
Definition is_result_row (r : row) : Prop :=
  exists checked_by item, r = result_row checked_by item.

(** The file [f'] holds what [f] held, followed by the header if [f] had no
    row and the header was written, followed by result rows. *)
Definition output_grows (f f' : option (list row)) : Prop :=
  exists hdr rows,
    content f' = (content f ++ hdr ++ rows)%list
    /\ (hdr = [] \/ (hdr = [HEADER] /\ content f = []))
    /\ Forall is_result_row rows.

(** The configuration is as before and the output file grew. *)
Record committing (st st' : state) : Prop := mkCommitting {
  committing_accounts : accounts (am st') = accounts (am st);
  committing_batch_pause : batch_pause (am st') = batch_pause (am st);
  committing_output : output_grows (output_csv st) (output_csv st')
}.

#[global] Instance pyval_eq_dec : EqDecision pyval.
Proof. solve_decision. Defined.
#[global] Instance message_eq_dec : EqDecision message.
Proof. solve_decision. Defined.
#[global] Instance cell_eq_dec : EqDecision cell.
Proof. solve_decision. Defined.

(** How many times the header row occurs in a file. *)
Definition header_count (f : option (list row)) : nat :=
  length (filter (fun r => r = HEADER) (content f)).

(** The quota of [phone] differs between [st] and [st'] only if the output
    file differs too. *)
Definition incremented_only_if_persisted (w : World) (phone : string) (st st' : state)
  : Prop :=
  used_on (account_limits (am st')) phone (today w)
  <> used_on (account_limits (am st)) phone (today w) ->
  content (output_csv st') <> content (output_csv st).

(** After a batch that was cut short, the output file has [n] rows more
    and the quota of [phone] is [n] higher. *)
Definition partial_batch_committed (w : World) (phone : string) (n : nat)
  (st st' : state) : Prop :=
  (exists hdr rows,
     content (output_csv st') = (content (output_csv st) ++ hdr ++ rows)%list
     /\ (hdr = [] \/ hdr = [HEADER]) /\ length rows = n)
  /\ used_on (account_limits (am st')) phone (today w)
     = used_on (account_limits (am st)) phone (today w) + Z.of_nat n.

(** The events of a batch are its lookups with one request pause before
    every lookup except the first, and nothing else. *)
Definition paused_before_all_but_first (pause_min pause_max : Z) (evs : list event)
  : Prop :=
  evs = interleave (EvRequestPause pause_min pause_max)
          (filter (fun ev => is_lookup ev = true) evs).

(** * Notions used in the further properties *)

(** Today's count of every account did not go down, and went up at most to
    the daily limit. *)
Definition within_limit (w : World) (st st' : state) : Prop :=
  forall phone,
    used_on (account_limits (am st)) phone (today w)
    <= used_on (account_limits (am st')) phone (today w)
    /\ used_on (account_limits (am st')) phone (today w)
       <= Z.max ACCOUNT_DAILY_LIMIT (used_on (account_limits (am st)) phone (today w)).

(** A lookup made through the client of the account [phone]. *)
Definition is_lookup_by (phone : string) (ev : event) : bool :=
  match ev with
  | EvLookup client _ => String.eqb client phone
  | _ => false
  end.

(** How many lookups the account [phone] made among [evs]. *)
Definition lookups_by (phone : string) (evs : list event) : nat :=
  length (filter (fun ev => is_lookup_by phone ev = true) evs).

(** The computation returned, or raised an [Exception]. *)
Definition contained {A} (r : result A) : Prop :=
  match r with
  | Ok _ => True
  | Raise e => is_Exception e = true
  end.

(** What the file of limits would give, if loaded now, is what the manager
    holds. *)
Definition synced (w : World) (st : state) : Prop :=
  load_account_limits (today w) (limits_json st) = account_limits (am st).

(** A state that is synced stays so. *)
Definition keeps_synced (w : World) (st st' : state) : Prop :=
  synced w st -> synced w st'.

(** Every record of the dict has an entry for [date]. *)
Definition dated (date : string) (limits : gmap string (gmap string Z)) : Prop :=
  forall phone rec, limits !! phone = Some rec -> is_Some (rec !! date).

(** Between the two states every lookup made through an account was charged
    to that account's count for today. *)
Definition charged (w : World) (st st' : state) : Prop :=
  exists evs,
    trace st' = (trace st ++ evs)%list
    /\ forall phone,
         Z.of_nat (lookups_by phone evs)
         <= used_on (account_limits (am st')) phone (today w)
            - used_on (account_limits (am st)) phone (today w).


(** [m] successive calls of [get_next_account], with what they return. *)
Fixpoint next_accounts (w : World) (batch_size : Z) (m : nat) : M (list (option account)) :=
  match m with
  | O => ret []
  | S m =>
      a <- get_next_account w batch_size ;;
      rest <- next_accounts w batch_size m ;;
      ret (a :: rest)
  end.

(** The state with the rotation index moved [m] places on. *)
Definition rotated (m : nat) (st : state) : state :=
  match m with
  | O => st
  | S _ =>
      set_am
        (set_current_account_index
           ((current_account_index (am st) + m) mod length (accounts (am st)))%nat
           (am st))
        st
  end.

(** The file has the 19 columns of the header in every row. *)
Definition rectangular (f : option (list row)) : Prop :=
  Forall (fun r : row => length r = length HEADER) (content f).

(** The account whose login an event records. *)
Definition login_of (ev : event) : option string :=
  match ev with
  | EvLogin phone => Some phone
  | _ => None
  end.

(** The accounts that logged in, in the order of their logins. *)
Definition logins (evs : list event) : list string := omap login_of evs.

(** No login happened and the cached sessions are the same. *)
Definition sessions_kept (st st' : state) : Prop :=
  clients (am st') = clients (am st)
  /\ exists evs, trace st' = (trace st ++ evs)%list /\ logins evs = [].

(** Every login between the two states was of an account without a cached
    session, and no account logged in twice. *)
Definition logins_fresh (st st' : state) : Prop :=
  exists evs,
    trace st' = (trace st ++ evs)%list
    /\ NoDup (logins evs)
    /\ forall phone, phone ∈ logins evs -> phone ∉ clients (am st).

(** The same, and every account that logged in has its session cached. *)
Definition logins_cached (st st' : state) : Prop :=
  (clients (am st) ⊆ clients (am st'))
  /\ exists evs,
       trace st' = (trace st ++ evs)%list
       /\ NoDup (logins evs)
       /\ forall phone, phone ∈ logins evs ->
            (phone ∉ clients (am st)) /\ (phone ∈ clients (am st')).

(** * The input file *)

(** What [csv.reader] gives for the input file: the file is missing
    ([FileNotFoundError] on opening it), opening or reading it raises some
    other [Exception], or it is read as rows of cells, a blank line being a
    row without cells. *)
Inductive csv_file : Type :=
  | CsvMissing
  | CsvUnreadable
  | CsvRows (rows : list (list string)).

(** [sys.exit(1)] raises [SystemExit(1)], which is not an [Exception]. *)
Definition SystemExit_1 : exception := BaseError "1".

(** [str.lstrip()] *)
Fixpoint py_lstrip (s : string) : string :=
  match s with
  | EmptyString => EmptyString
  | String c rest => if py_isspace c then py_lstrip rest else s
  end.

(** [str.rstrip()] *)
Fixpoint py_rstrip (s : string) : string :=
  match s with
  | EmptyString => EmptyString
  | String c rest =>
      match py_rstrip rest with
      | EmptyString => if py_isspace c then EmptyString else String c EmptyString
      | String c' rest' => String c (String c' rest')
      end
  end.

(** [str.strip()]: the whitespace of [str.isspace] is that of [\s]. *)
Definition py_strip (s : string) : string := py_rstrip (py_lstrip s).

(** [s.replace("+", "")] *)
Fixpoint remove_plus (s : string) : string :=
  match s with
  | EmptyString => EmptyString
  | String c rest =>
      if Ascii.eqb c "+"%char then remove_plus rest else String c (remove_plus rest)
  end.

(** The characters below 256 that [str.isdigit] accepts: the ten digits and
    the superscripts two, three and one. *)
Definition py_isdigit_char (c : ascii) : bool :=
  let n := nat_of_ascii c in
  ((48 <=? n) && (n <=? 57) || (n =? 178) || (n =? 179) || (n =? 185))%nat.

Fixpoint all_digits (s : string) : bool :=
  match s with
  | EmptyString => true
  | String c rest => py_isdigit_char c && all_digits rest
  end.

(** [str.isdigit()]: every character is a digit and there is at least one. *)
Definition py_isdigit (s : string) : bool :=
  negb (String.eqb s "") && all_digits s.

(** The [for row in reader] loop of [read_phone_numbers] and the [if] after
    it. *)
Fixpoint read_rows (batch_size : Z) (rows : list (list string))
  (current_batch : list string) (batches : list (list string)) : list (list string) :=
  match rows with
  | [] =>
      match current_batch with
      | [] => batches
      | _ :: _ => (batches ++ [current_batch])%list
      end
  | row :: rest =>
      match row with
      | cell :: _ =>
          if negb (String.eqb (py_strip cell) "") then
            let phone_number := py_strip cell in
            let current_batch := (current_batch ++ [phone_number])%list in
            if (batch_size <=? Z.of_nat (length current_batch))%Z
            then read_rows batch_size rest [] (batches ++ [current_batch])%list
            else read_rows batch_size rest current_batch batches
          else read_rows batch_size rest current_batch batches
      | [] => read_rows batch_size rest current_batch batches
      end
  end.

(** [read_phone_numbers] *)
Definition read_phone_numbers (file : csv_file) (batch_size : Z)
  : result (list (list string)) :=
  match file with
  | CsvMissing => Raise SystemExit_1
  | CsvUnreadable => Raise SystemExit_1
  | CsvRows [] => Ok []
  | CsvRows ([] :: _) => Ok []
  | CsvRows ((cell :: _) :: rest) =>
      let current_batch :=
        if py_isdigit (remove_plus (py_strip cell)) then [py_strip cell] else [] in
      Ok (read_rows batch_size rest current_batch [])
  end.

(** [l[start:stop]], where [stop] may be [None]. *)
Definition py_slice {A} (l : list A) (start : Z) (stop : option Z) : list A :=
  let n := Z.of_nat (length l) in
  let clamp (i : Z) := if (i <? 0)%Z then Z.max (i + n) 0 else Z.min i n in
  let s := clamp start in
  let e := match stop with Some stop => clamp stop | None => n end in
  take (Z.to_nat (e - s)) (drop (Z.to_nat s) l).

(** The numbers [read_phone_numbers] takes from the rows: the first cell of
    the first row if it is a number, and the first cell of every later row
    that has one that is not blank, all of them stripped; none if the first
    row has no cell. *)
Definition numbers_of (rows : list (list string)) : list string :=
  match rows with
  | [] | [] :: _ => []
  | (cell :: _) :: rest =>
      ((if py_isdigit (remove_plus (py_strip cell)) then [py_strip cell] else [])
       ++ flat_map
            (fun row =>
               match row with
               | cell :: _ =>
                   if String.eqb (py_strip cell) "" then [] else [py_strip cell]
               | [] => []
               end)
            rest)%list
  end.

(** A lookup is allowed when it is made through one of the accounts and is
    of one of the numbers, without its whitespace and with a plus sign;
    every other event is. *)
Definition lookup_allowed (accounts : list account) (numbers : list string) (ev : event)
  : Prop :=
  match ev with
  | EvLookup client phone =>
      client ∈ map phone_number accounts
      /\ exists number,
           number ∈ numbers /\ phone = with_plus (strip_whitespace number)
  | _ => True
  end.

(** The accounts are the same and the events that came between the two
    states satisfy [P]. *)
Definition traced (P : event -> Prop) (st st' : state) : Prop :=
  accounts (am st') = accounts (am st)
  /\ exists evs, trace st' = (trace st ++ evs)%list /\ Forall P evs.

(** Lines 478 and 479 of [main]: the batches of the file, and the window of
    them that is processed. *)
Definition batches_to_process (file : csv_file) (batch_size batch_start : Z)
  (batch_end : option Z) : result (list (list string)) :=
  match read_phone_numbers file batch_size with
  | Ok batches => Ok (py_slice batches batch_start batch_end)
  | Raise e => Raise e
  end.

(** * Sample inputs *)

Definition sample_user : user :=
  mkUser (PyInt 7) (PyStr "bob") [] (PyStr "Bob") PyNone (PyBool false) (PyBool false)
    (PyBool false) (PyBool false) (PyBool false) PyNone (PyBool false) PyNone
    UserStatusRecently (PyStr "1555000111").

(** A world where every number is registered once and nothing fails. *)
Definition calm : World :=
  mkWorld "2026-11-03"
    (fun _ _ _ => Ok [PyInt 7])
    (fun _ _ _ => Ok [sample_user])
    (fun _ _ => true)
    (fun _ _ => None)
    (fun _ => true)
    (fun _ => None)
    (fun _ => true).

Definition acc_A : account := mkAccount "+7000000001" None None.
Definition acc_B : account := mkAccount "+7000000002" None None.
Definition acc_C : account := mkAccount "+7000000003" None None.

Definition three_accounts : yaml_config := mkYaml (Some [acc_A; acc_B; acc_C]) None.

(** Three accounts that each made [used] requests today. *)
Definition limits_all (used : Z) : gmap string (gmap string Z) :=
  <[ "+7000000001" := {[ "2026-11-03" := used ]} ]>
    (<[ "+7000000002" := {[ "2026-11-03" := used ]} ]>
       (<[ "+7000000003" := {[ "2026-11-03" := used ]} ]> ∅)).

Definition one_account : yaml_config := mkYaml (Some [acc_A]) None.

Definition five_numbers : list string :=
  ["+1555000101"; "+1555000102"; "+1555000103"; "+1555000104"; "+1555000105"].

(** The output file cannot be written. *)
Definition failing_disk : World :=
  mkWorld "2026-11-03"
    (fun _ _ _ => Ok [PyInt 7])
    (fun _ _ _ => Ok [sample_user])
    (fun _ _ => true)
    (fun _ _ => None)
    (fun _ => false)
    (fun _ => Some 0%nat)
    (fun _ => true).

(** The lookup of [phone] raises [e]; every other number is registered. *)
Definition raising_at (phone : string) (e : exception) : World :=
  mkWorld "2026-11-03"
    (fun _ _ p => if String.eqb p phone then Raise e else Ok [PyInt 7])
    (fun _ _ _ => Ok [sample_user])
    (fun _ _ => true)
    (fun _ _ => None)
    (fun _ => true)
    (fun _ => None)
    (fun _ => true).

(** * Properties *)

(** ** The monad *)

Lemma bind_ok {A B} (m : M A) (f : A -> M B) st a st' :
  m st = (Ok a, st') -> bind m f st = f a st'.
Proof. intros H. unfold bind. by rewrite H. Qed.

Lemma bind_raise {A B} (m : M A) (f : A -> M B) st e st' :
  m st = (Raise e, st') -> bind m f st = (Raise e, st').
Proof. intros H. unfold bind. by rewrite H. Qed.

(** ** Quota store *)

Section QuotaStore.
Implicit Types (limits data : gmap string (gmap string Z)) (rec : gmap string Z).
Implicit Types (phone date : string).

Lemma used_on_absent_account limits phone date :
  limits !! phone = None -> used_on limits phone date = 0.
Proof. intros H. unfold used_on. by rewrite H. Qed.

Lemma used_on_absent_date limits phone date rec :
  limits !! phone = Some rec -> rec !! date = None -> used_on limits phone date = 0.
Proof. intros H1 H2. unfold used_on. rewrite H1. simpl. by rewrite H2. Qed.

Lemma used_on_present limits phone date rec n :
  limits !! phone = Some rec -> rec !! date = Some n -> used_on limits phone date = n.
Proof. intros H1 H2. unfold used_on. rewrite H1. simpl. by rewrite H2. Qed.

Lemma load_lookup_stale date data phone rec :
  data !! phone = Some rec -> rec !! date = None ->
  load_account_limits date (Stored data) !! phone = Some {[ date := 0 ]}.
Proof.
  intros H1 H2. unfold load_account_limits. rewrite lookup_fmap, H1. simpl.
  destruct (decide (is_Some (rec !! date))) as [[x Hx]|_]; [congruence | done].
Qed.

(** The three assignments amount to one insertion in the record of
    [phone], itself inserted in the dict. *)
Lemma incremented_eq limits phone date count :
  incremented limits phone date count =
  <[ phone := <[ date := default 0 (default ∅ (limits !! phone) !! date) + count ]>
                (default ∅ (limits !! phone)) ]> limits.
Proof.
  unfold incremented.
  destruct (decide (is_Some (limits !! phone))) as [[rec Hrec]|Hnone].
  - rewrite Hrec. simpl.
    destruct (decide (is_Some (rec !! date))) as [[n Hn]|Hnone].
    + by rewrite Hn.
    + apply eq_None_not_Some in Hnone.
      rewrite lookup_insert_eq, Hnone. simpl. by rewrite insert_insert_eq.
  - apply eq_None_not_Some in Hnone.
    rewrite lookup_insert_eq, Hnone. simpl.
    destruct (decide (is_Some ((∅ : gmap string Z) !! date))) as [[n Hn]|_].
    + by rewrite lookup_empty in Hn.
    + rewrite lookup_insert_eq, lookup_empty. simpl. by rewrite !insert_insert_eq.
Qed.

(** An increment adds [count] at its own (account, date) and leaves every
    other count as it was. *)
Lemma used_on_incremented limits phone date count phone' date' :
  used_on (incremented limits phone date count) phone' date' =
  used_on limits phone' date' +
  (if decide (phone = phone' /\ date = date') then count else 0).
Proof.
  rewrite incremented_eq. unfold used_on.
  destruct (decide (phone = phone')) as [<-|Hp].
  - rewrite lookup_insert_eq. simpl.
    destruct (decide (date = date')) as [<-|Hd].
    + rewrite lookup_insert_eq. simpl. by rewrite decide_True.
    + rewrite lookup_insert_ne by done.
      rewrite decide_False by (intros [? ?]; congruence). lia.
  - rewrite lookup_insert_ne by done.
    rewrite decide_False by (intros [? ?]; congruence). lia.
Qed.

(** An increment on an absent entry first creates it with the value 0. *)
Lemma incremented_creates limits phone date count :
  default ∅ (limits !! phone) !! date = None ->
  default ∅ (incremented limits phone date count !! phone) !! date = Some (0 + count).
Proof.
  intros H. rewrite incremented_eq, lookup_insert_eq. simpl.
  by rewrite lookup_insert_eq, H.
Qed.
End QuotaStore.

Lemma increment_account_limit_eq w phone count st :
  exists f,
    increment_account_limit w phone count st =
    (Ok tt,
     mkState
       (set_account_limits (incremented (account_limits (am st)) phone (today w) count) (am st))
       (output_csv st) f (trace st)).
Proof.
  unfold increment_account_limit, save_account_limits, bind, get_state, put_state, ret.
  simpl. destruct (limits_write_ok w (trace st)); eauto.
Qed.

(** ** Account rotator *)

Lemma candidate_is_Some st offset :
  (0 < length (accounts (am st)))%nat -> is_Some (candidate st offset).
Proof.
  intros Hn. unfold candidate. apply lookup_lt_is_Some.
  apply Nat.mod_upper_bound. lia.
Qed.

(** The scan over the offsets [s, s + len): either no candidate is eligible
    and nothing changes, or the first eligible one is selected. *)
Lemma scan_accounts_seq w batch_size st len : forall s,
  (0 < length (accounts (am st)))%nat ->
  (scan_accounts w batch_size (length (accounts (am st))) (seq s len) st = (Ok None, st)
   /\ forall j a, (s <= j < s + len)%nat -> candidate st j = Some a ->
       ~ eligible w batch_size st a)
  \/ (exists k a,
       (s <= k < s + len)%nat /\ candidate st k = Some a /\ eligible w batch_size st a
       /\ (forall j b, (s <= j < k)%nat -> candidate st j = Some b ->
           ~ eligible w batch_size st b)
       /\ scan_accounts w batch_size (length (accounts (am st))) (seq s len) st
          = (Ok (Some a), selected st k)).
Proof.
  induction len as [|len IH]; intros s Hn.
  - left. split; [reflexivity | intros; lia].
  - destruct (candidate_is_Some st s Hn) as [a Ha].
    assert (Hstep :
      scan_accounts w batch_size (length (accounts (am st))) (seq s (S len)) st =
      if decide (eligible w batch_size st a) then (Ok (Some a), selected st s)
      else scan_accounts w batch_size (length (accounts (am st))) (seq (S s) len) st).
    { cbn [seq scan_accounts]. unfold bind at 1, get_state at 1.
      unfold bind at 1, py_mod at 1.
      destruct (Nat.eqb_spec (length (accounts (am st))) 0) as [H0|_]; [lia|].
      unfold ret at 1. unfold bind at 1, py_index at 1.
      unfold candidate in Ha. rewrite Ha. unfold ret at 1.
      unfold eligible, used_on.
      destruct (decide (_ <= ACCOUNT_DAILY_LIMIT)); [|reflexivity].
      unfold bind, py_mod.
      destruct (Nat.eqb_spec (length (accounts (am st))) 0) as [H0|_]; [lia|].
      reflexivity. }
    rewrite Hstep.
    destruct (decide (eligible w batch_size st a)) as [He|He].
    + right. exists s, a. repeat split; try done; try lia.
    + destruct (IH (S s) Hn) as [[Hnone Hall]|(k & b & Hk & Hb & Heb & Hmin & Hres)].
      * left. split; [done|]. intros j c Hj Hc.
        destruct (decide (j = s)) as [->|Hne]; [by simplify_eq|].
        apply (Hall j c); [lia | done].
      * right. exists k, b. repeat split; try done; try lia.
        intros j c Hj Hc. destruct (decide (j = s)) as [->|Hne]; [by simplify_eq|].
        apply (Hmin j c); [lia | done].
Qed.

Lemma rotate_back cur i n :
  (i < n)%nat -> ((cur + (i + n - cur mod n) mod n) mod n = i)%nat.
Proof.
  intros Hi.
  rewrite Nat.Div0.add_mod_idemp_r.
  pose proof (Nat.div_mod_eq cur n) as Hdm.
  pose proof (Nat.mod_upper_bound cur n ltac:(lia)) as Hlt.
  replace (cur + (i + n - cur mod n))%nat with (i + (1 + cur / n) * n)%nat by nia.
  rewrite Nat.Div0.mod_add. apply Nat.mod_small. lia.
Qed.

(** What [get_next_account] does: nothing if no account is eligible;
    otherwise it selects the candidate at the least offset [k < n] from the
    rotation index that is eligible. *)
Lemma get_next_account_spec w batch_size st :
  (get_next_account w batch_size st = (Ok None, st)
   /\ forall a, a ∈ accounts (am st) -> ~ eligible w batch_size st a)
  \/ (exists k a,
       (k < length (accounts (am st)))%nat
       /\ candidate st k = Some a /\ eligible w batch_size st a
       /\ (forall j b, (j < k)%nat -> candidate st j = Some b ->
           ~ eligible w batch_size st b)
       /\ get_next_account w batch_size st = (Ok (Some a), selected st k)).
Proof.
  unfold get_next_account, bind, get_state.
  destruct (Nat.eq_dec (length (accounts (am st))) 0%nat) as [H0|Hpos].
  - left. rewrite H0. split; [reflexivity|].
    apply nil_length_inv in H0. rewrite H0. intros a Ha. by apply elem_of_nil in Ha.
  - destruct (scan_accounts_seq w batch_size st (length (accounts (am st))) 0%nat
                ltac:(lia)) as [[Hnone Hall]|(k & a & Hk & Ha & He & Hmin & Hres)].
    + left. split; [done|]. intros a Ha.
      apply list_elem_of_lookup in Ha as [i Hi].
      pose proof (lookup_lt_Some _ _ _ Hi) as Hlt.
      apply (Hall ((i + length (accounts (am st))
                    - current_account_index (am st) mod length (accounts (am st)))
                   mod length (accounts (am st)))%nat).
      * split; [lia|]. simpl. apply Nat.mod_upper_bound. lia.
      * unfold candidate. by rewrite rotate_back.
    + right. exists k, a. repeat split; try done; try lia.
      intros j b Hj. apply Hmin. lia.
Qed.

(** When the account at the rotation index is eligible, it is the one
    returned. *)
Lemma get_next_account_at_index w batch_size st a :
  candidate st 0%nat = Some a -> eligible w batch_size st a ->
  get_next_account w batch_size st = (Ok (Some a), selected st 0%nat).
Proof.
  intros Ha He.
  destruct (get_next_account_spec w batch_size st)
    as [[_ Hall]|(k & b & Hk & Hb & Heb & Hmin & Hres)].
  - exfalso. apply (Hall a); [|done]. unfold candidate in Ha.
    by eapply list_elem_of_lookup_2.
  - destruct k as [|k].
    + by simplify_eq.
    + exfalso. apply (Hmin 0%nat a); [lia|done|done].
Qed.

(** C3. [get_next_account] never raises and returns [None] exactly when no
    account is eligible, that is when [used + batch_size] exceeds the daily
    limit of 50 for every account; the manager is then left as it was.  In
    particular it returns [None] for every [batch_size] above 50 (the counts
    of the store being counts, none is negative), and for three accounts at
    45 with a batch of 10. *)
Theorem C3_exhaustion_correctness (w : World) (batch_size : Z) (st : state) :
  (exists r st', get_next_account w batch_size st = (Ok r, st'))
  /\ (fst (get_next_account w batch_size st) = Ok None <->
      forall a, a ∈ accounts (am st) ->
        ACCOUNT_DAILY_LIMIT
        < used_on (account_limits (am st)) (phone_number a) (today w) + batch_size)
  /\ (fst (get_next_account w batch_size st) = Ok None ->
      snd (get_next_account w batch_size st) = st)
  /\ (50 < batch_size ->
      (forall a, a ∈ accounts (am st) ->
         0 <= used_on (account_limits (am st)) (phone_number a) (today w)) ->
      get_next_account w batch_size st = (Ok None, st))
  /\ (Forall
        (fun a =>
           used_on
             (account_limits
                (am (start_state calm three_accounts None (Stored (limits_all 45)))))
             (phone_number a) (today calm) = 45)
        [acc_A; acc_B; acc_C]
      /\ get_next_account calm 10
           (start_state calm three_accounts None (Stored (limits_all 45)))
         = (Ok None, start_state calm three_accounts None (Stored (limits_all 45)))).
Proof.
  assert (Hiff : (forall a, a ∈ accounts (am st) ->
                    ACCOUNT_DAILY_LIMIT
                    < used_on (account_limits (am st)) (phone_number a) (today w)
                      + batch_size) ->
                 get_next_account w batch_size st = (Ok None, st)).
  { intros Hall.
    destruct (get_next_account_spec w batch_size st)
      as [[Hnone _]|(k & a & Hk & Ha & He & _ & _)]; [done|].
    exfalso. unfold candidate in Ha. apply list_elem_of_lookup_2 in Ha.
    specialize (Hall a Ha). unfold eligible in He. lia. }
  split; [|split; [|split; [|split]]].
  - destruct (get_next_account_spec w batch_size st)
      as [[Hnone _]|(k & a & _ & _ & _ & _ & Hres)]; eauto.
  - split.
    + intros Hfst a Ha.
      destruct (get_next_account_spec w batch_size st)
        as [[_ Hall]|(k & b & _ & _ & _ & _ & Hres)].
      * specialize (Hall a Ha). unfold eligible in Hall. lia.
      * rewrite Hres in Hfst. discriminate.
    + intros Hall. by rewrite (Hiff Hall).
  - intros Hfst.
    destruct (get_next_account_spec w batch_size st)
      as [[Hnone _]|(k & b & _ & _ & _ & _ & Hres)].
    + by rewrite Hnone.
    + rewrite Hres in Hfst. discriminate.
  - intros Hbig Hpos. apply Hiff. intros a Ha. specialize (Hpos a Ha).
    unfold ACCOUNT_DAILY_LIMIT. lia.
  - split; [by repeat constructor | vm_compute; reflexivity].
Qed.

(** C4. Selection is round-robin with skip-on-select: the account returned
    is the first eligible candidate met from the rotation index on, within
    [n] steps, and the rotation index becomes one past its position.  For
    three accounts A, B, C that all have room for the batch, four calls on a
    fresh manager, with no increment in between, return A, B, C and A. *)
Theorem C4_round_robin (w : World) (batch_size : Z) :
  (forall st a st',
     get_next_account w batch_size st = (Ok (Some a), st') ->
     exists k,
       (k < length (accounts (am st)))%nat
       /\ candidate st k = Some a
       /\ eligible w batch_size st a
       /\ (forall j b, (j < k)%nat -> candidate st j = Some b ->
           ~ eligible w batch_size st b)
       /\ st' = selected st k
       /\ current_account_index (am st') =
          (((current_account_index (am st) + k) mod length (accounts (am st)) + 1)
             mod length (accounts (am st)))%nat)
  /\ (forall A B C st,
        accounts (am st) = [A; B; C] ->
        current_account_index (am st) = 0%nat ->
        eligible w batch_size st A ->
        eligible w batch_size st B ->
        eligible w batch_size st C ->
        exists st1 st2 st3 st4,
          get_next_account w batch_size st = (Ok (Some A), st1)
          /\ get_next_account w batch_size st1 = (Ok (Some B), st2)
          /\ get_next_account w batch_size st2 = (Ok (Some C), st3)
          /\ get_next_account w batch_size st3 = (Ok (Some A), st4)).
Proof.
  split.
  - intros st a st' Hres.
    destruct (get_next_account_spec w batch_size st)
      as [[Hnone _]|(k & b & Hk & Hb & Heb & Hmin & Hres')].
    + rewrite Hnone in Hres. discriminate.
    + rewrite Hres' in Hres. simplify_eq. exists k. repeat split; done.
  - intros A B C st Hacc Hidx HA HB HC.
    assert (Hsel : forall s i a,
              accounts (am s) = [A; B; C] ->
              account_limits (am s) = account_limits (am st) ->
              current_account_index (am s) = i -> (i < 3)%nat ->
              [A; B; C] !! i = Some a ->
              get_next_account w batch_size s = (Ok (Some a), selected s 0%nat)
              /\ accounts (am (selected s 0%nat)) = [A; B; C]
              /\ account_limits (am (selected s 0%nat)) = account_limits (am st)
              /\ current_account_index (am (selected s 0%nat)) = ((i + 1) mod 3)%nat).
    { intros s i a Hs Hl Hi Hlt Ha.
      assert (Hcand : candidate s 0%nat = Some a).
      { unfold candidate. rewrite Hs, Hi. simpl length.
        rewrite Nat.add_0_r, Nat.mod_small by done. done. }
      split.
      - apply get_next_account_at_index; [done|].
        unfold eligible in *. rewrite Hl.
        destruct i as [|[|[|i]]]; simplify_eq/=; done || lia.
      - unfold selected. simpl. rewrite Hs, Hi. simpl length.
        rewrite Nat.add_0_r, (Nat.mod_small i 3) by done. done. }
    destruct (Hsel st 0%nat A Hacc eq_refl Hidx ltac:(lia) eq_refl)
      as (H1 & Ha1 & Hl1 & Hi1).
    destruct (Hsel _ 1%nat B Ha1 Hl1 Hi1 ltac:(lia) eq_refl) as (H2 & Ha2 & Hl2 & Hi2).
    destruct (Hsel _ 2%nat C Ha2 Hl2 Hi2 ltac:(lia) eq_refl) as (H3 & Ha3 & Hl3 & Hi3).
    destruct (Hsel _ 0%nat A Ha3 Hl3 Hi3 ltac:(lia) eq_refl) as (H4 & _).
    eauto 10.
Qed.

(** C10. With no account loaded, as when the ['accounts'] entry of the YAML
    configuration is missing or empty, [get_next_account] returns [None] for
    every batch size and does not raise: the loop body, whose modulo would
    raise for [n = 0], is not run. *)
Theorem C10_no_accounts (w : World) (batch_size : Z) :
  (forall st, accounts (am st) = [] ->
     get_next_account w batch_size st = (Ok None, st))
  /\ (forall cfg out lim,
        cfg_accounts cfg = None \/ cfg_accounts cfg = Some [] ->
        accounts (am (start_state w cfg out lim)) = []
        /\ get_next_account w batch_size (start_state w cfg out lim)
           = (Ok None, start_state w cfg out lim))
  /\ (forall a st, py_mod a 0 st = (Raise ZeroDivisionError, st)).
Proof.
  assert (H : forall st, accounts (am st) = [] ->
                get_next_account w batch_size st = (Ok None, st)).
  { intros st Hacc. unfold get_next_account, bind, get_state. by rewrite Hacc. }
  split; [done|]. split; [|done].
  intros cfg out lim Hcfg.
  assert (Hacc : accounts (am (start_state w cfg out lim)) = []).
  { unfold start_state, new_AccountManager. simpl. by destruct Hcfg as [-> | ->]. }
  split; [done|]. by apply H.
Qed.

Lemma C3_exhaustion_correctness_witness :
  50 < 51
  /\ get_next_account calm 51
       (start_state calm three_accounts None (Stored (limits_all 45)))
     = (Ok None, start_state calm three_accounts None (Stored (limits_all 45)))
  /\ fst (get_next_account calm 10
            (start_state calm three_accounts None (Stored (limits_all 45))))
     = Ok None
  /\ snd (get_next_account calm 10
            (start_state calm three_accounts None (Stored (limits_all 45))))
     = start_state calm three_accounts None (Stored (limits_all 45)).
Proof.
  pose proof (C3_exhaustion_correctness calm 51
                (start_state calm three_accounts None (Stored (limits_all 45))))
    as (_ & _ & _ & Hbig & _).
  pose proof (C3_exhaustion_correctness calm 10
                (start_state calm three_accounts None (Stored (limits_all 45))))
    as (_ & [_ Hiff] & Hsame & _).
  assert (Hnone : fst (get_next_account calm 10
                         (start_state calm three_accounts None (Stored (limits_all 45))))
                  = Ok None).
  { apply Hiff.
    intros a Ha. vm_compute in Ha.
    repeat (apply elem_of_cons in Ha as [->|Ha]; [vm_compute; reflexivity|]).
    by apply elem_of_nil in Ha. }
  split; [lia|]. split; [|split; [exact Hnone | exact (Hsame Hnone)]].
  apply Hbig; [lia|].
  intros a Ha. vm_compute in Ha.
  repeat (apply elem_of_cons in Ha as [->|Ha]; [vm_compute; discriminate|]).
  by apply elem_of_nil in Ha.
Defined.

Lemma C4_round_robin_witness :
  exists st1 st2 st3 st4,
    get_next_account calm 10 (start_state calm three_accounts None NoFile)
    = (Ok (Some acc_A), st1)
    /\ get_next_account calm 10 st1 = (Ok (Some acc_B), st2)
    /\ get_next_account calm 10 st2 = (Ok (Some acc_C), st3)
    /\ get_next_account calm 10 st3 = (Ok (Some acc_A), st4)
    /\ current_account_index (am st4) = 1%nat.
Proof.
  destruct (C4_round_robin calm 10) as [Hsel Hfour].
  destruct (Hfour acc_A acc_B acc_C (start_state calm three_accounts None NoFile))
    as (st1 & st2 & st3 & st4 & H1 & H2 & H3 & H4);
    [reflexivity | reflexivity | vm_compute; discriminate ..|].
  exists st1, st2, st3, st4. repeat split; try done.
  vm_compute in H1. injection H1 as <-.
  vm_compute in H2. injection H2 as <-.
  vm_compute in H3. injection H3 as <-.
  destruct (Hsel _ _ _ H4) as (k & _ & _ & _ & _ & _ & Hidx).
  vm_compute in H4. injection H4 as <-. reflexivity.
Defined.

Lemma C10_no_accounts_witness :
  get_next_account calm 10 (start_state calm (mkYaml (Some []) None) None NoFile)
  = (Ok None, start_state calm (mkYaml (Some []) None) None NoFile)
  /\ get_next_account calm 10 (start_state calm (mkYaml None None) None NoFile)
     = (Ok None, start_state calm (mkYaml None None) None NoFile).
Proof.
  destruct (C10_no_accounts calm 10) as (Hst & Hcfg & _).
  split.
  - apply Hst. reflexivity.
  - apply (Hcfg (mkYaml None None) None NoFile). left. reflexivity.
Defined.

(** ** The latest recorded date *)

Lemma last_date_fold_elem (l : list string) m :
  foldr (fun d acc => Some (match acc with None => d | Some m => later_date d m end))
    None l = Some m -> m ∈ l.
Proof.
  revert m. induction l as [|d l IH]; intros m; simpl; [discriminate|].
  destruct (foldr _ None l) as [m'|] eqn:Hfold; intros [= <-].
  - unfold later_date. destruct (String.leb d m'); [|left].
    right. by apply IH.
  - left.
Qed.

Lemma last_date_fold_top (l : list string) t :
  t ∈ l -> (forall d, d ∈ l -> String.leb d t = true) ->
  foldr (fun d acc => Some (match acc with None => d | Some m => later_date d m end))
    None l = Some t.
Proof.
  induction l as [|d l IH]; intros Ht Hle; [by apply elem_of_nil in Ht|].
  simpl. destruct (decide (t ∈ l)) as [Hin|Hnotin].
  - rewrite IH; [|done|intros; apply Hle; by right].
    unfold later_date. rewrite (Hle d) by left. done.
  - apply elem_of_cons in Ht as [->|Ht]; [|done].
    destruct (foldr _ None l) as [m|] eqn:Hfold; [|done].
    apply last_date_fold_elem in Hfold.
    unfold later_date. destruct (String.leb d m) eqn:Hdm; [|done].
    f_equal. apply String.leb_antisym; [|done]. apply Hle. by right.
Qed.

(** If no recorded date is later than today and the latest one is not
    today, then today is not recorded. *)
Lemma last_recorded_date_not_today (rec : gmap string Z) (today : string) :
  last_recorded_date rec <> Some today ->
  (forall d, is_Some (rec !! d) -> String.leb d today = true) ->
  rec !! today = None.
Proof.
  intros Hlast Hle. apply eq_None_not_Some. intros Hsome. apply Hlast.
  unfold last_recorded_date. apply last_date_fold_top.
  - apply elem_of_elements. by apply elem_of_dom.
  - intros d Hd. apply Hle. apply elem_of_elements in Hd. by apply elem_of_dom in Hd.
Qed.

(** C5. Loading replaces every record that lacks today's date by
    [{today: 0}]; hence [get_account_limit] returns 0 on a fresh manager for
    every account whose stored record does not include today, which is the
    case whenever its last recorded date is not today (recorded dates are
    days on which the program ran, none is later than today); and it returns
    0 for an account with no record and for a date with no entry. *)
Theorem C5_daily_reset (w : World) :
  (forall data phone rec,
     data !! phone = Some rec -> rec !! today w = None ->
     load_account_limits (today w) (Stored data) !! phone = Some {[ today w := 0 ]})
  /\ (forall cfg out data phone rec,
        data !! phone = Some rec -> rec !! today w = None ->
        get_account_limit w phone (start_state w cfg out (Stored data))
        = (Ok 0, start_state w cfg out (Stored data)))
  /\ (forall cfg out data phone rec,
        data !! phone = Some rec ->
        last_recorded_date rec <> Some (today w) ->
        (forall d, is_Some (rec !! d) -> String.leb d (today w) = true) ->
        get_account_limit w phone (start_state w cfg out (Stored data))
        = (Ok 0, start_state w cfg out (Stored data)))
  /\ (forall st phone,
        account_limits (am st) !! phone = None ->
        get_account_limit w phone st = (Ok 0, st))
  /\ (forall st phone rec,
        account_limits (am st) !! phone = Some rec -> rec !! today w = None ->
        get_account_limit w phone st = (Ok 0, st)).
Proof.
  assert (Hfresh : forall cfg out data phone rec,
            data !! phone = Some rec -> rec !! today w = None ->
            get_account_limit w phone (start_state w cfg out (Stored data))
            = (Ok 0, start_state w cfg out (Stored data))).
  { intros cfg out data phone rec Hrec Hnone.
    unfold get_account_limit, bind, get_state, ret. f_equal. f_equal.
    eapply used_on_present; [by eapply load_lookup_stale|].
    apply lookup_singleton_eq. }
  split; [|split; [|split; [|split]]].
  - intros data phone rec. apply load_lookup_stale.
  - done.
  - intros cfg out data phone rec Hrec Hlast Hle.
    eapply Hfresh; [done|]. by apply last_recorded_date_not_today.
  - intros st phone Hnone.
    unfold get_account_limit, bind, get_state, ret.
    by rewrite used_on_absent_account.
  - intros st phone rec Hrec Hnone.
    unfold get_account_limit, bind, get_state, ret.
    by rewrite (used_on_absent_date _ _ _ rec).
Qed.

Lemma C5_daily_reset_witness :
  get_account_limit calm "+7000000001"
    (start_state calm three_accounts None
       (Stored {[ "+7000000001" := {[ "2026-11-02" := 37 ]} ]}))
  = (Ok 0,
     start_state calm three_accounts None
       (Stored {[ "+7000000001" := {[ "2026-11-02" := 37 ]} ]}))
  /\ get_account_limit calm "+7000000002"
       (start_state calm three_accounts None
          (Stored {[ "+7000000002" := {[ "2026-10-31" := 50 ]} ]}))
     = (Ok 0,
        start_state calm three_accounts None
          (Stored {[ "+7000000002" := {[ "2026-10-31" := 50 ]} ]}))
  /\ load_account_limits "2026-11-03"
       (Stored {[ "+7000000001" := {[ "2026-11-02" := 37 ]} ]}) !! "+7000000001"
     = Some {[ "2026-11-03" := 0 ]}
  /\ get_account_limit calm "+7000000009"
       (start_state calm three_accounts None (Stored (limits_all 45)))
     = (Ok 0, start_state calm three_accounts None (Stored (limits_all 45)))
  /\ get_account_limit calm "+7000000001"
       (mkState
          (mkAccountManager [acc_A] 0 ∅ 120 {[ "+7000000001" := {[ "2026-11-02" := 37 ]} ]})
          None NoFile [])
     = (Ok 0,
        mkState
          (mkAccountManager [acc_A] 0 ∅ 120 {[ "+7000000001" := {[ "2026-11-02" := 37 ]} ]})
          None NoFile []).
Proof.
  destruct (C5_daily_reset calm) as (Hload & Hfresh & Hlast & Habsent & Hdate).
  assert (Hrec : ({[ "+7000000001" := {[ "2026-11-02" := 37 ]} ]}
                  : gmap string (gmap string Z)) !! "+7000000001"
                 = Some {[ "2026-11-02" := 37 ]})
    by apply lookup_singleton_eq.
  assert (Hstale : ({[ "2026-11-02" := 37 ]} : gmap string Z) !! today calm = None)
    by (apply lookup_singleton_ne; discriminate).
  split; [|split; [|split; [|split]]].
  - apply (Hlast three_accounts None _ "+7000000001" {[ "2026-11-02" := 37 ]}).
    + exact Hrec.
    + vm_compute. discriminate.
    + intros d [n Hd]. apply lookup_singleton_Some in Hd as [<- _]. reflexivity.
  - apply (Hfresh three_accounts None _ "+7000000002" {[ "2026-10-31" := 50 ]}).
    + apply lookup_singleton_eq.
    + apply lookup_singleton_ne. discriminate.
  - exact (Hload _ _ _ Hrec Hstale).
  - apply Habsent. reflexivity.
  - apply (Hdate _ _ {[ "2026-11-02" := 37 ]}); [exact Hrec | exact Hstale].
Defined.

(** ** Sequences of increments *)

Lemma get_account_limit_eq w phone st :
  get_account_limit w phone st
  = (Ok (used_on (account_limits (am st)) phone (today w)), st).
Proof. reflexivity. Qed.

Lemma increment_calls_spec w phone calls : forall st,
  exists st',
    increment_calls w calls st = (Ok tt, st')
    /\ used_on (account_limits (am st')) phone (today w)
       = used_on (account_limits (am st)) phone (today w) + sum_for phone calls.
Proof.
  induction calls as [|[p count] calls IH]; intros st.
  - exists st. split; [reflexivity|]. simpl. lia.
  - destruct (increment_account_limit_eq w p count st) as [f Hinc].
    destruct (IH (mkState
                    (set_account_limits
                       (incremented (account_limits (am st)) p (today w) count) (am st))
                    (output_csv st) f (trace st))) as (st' & Hcalls & Hused).
    exists st'. split.
    + simpl. by rewrite (bind_ok _ _ _ _ _ Hinc).
    + rewrite Hused. simpl. rewrite used_on_incremented.
      destruct (decide (p = phone)) as [->|Hne].
      * rewrite decide_True by done. lia.
      * rewrite decide_False by (intros [? ?]; done). lia.
Qed.

Lemma sum_for_same phone deltas :
  sum_for phone (map (pair phone) deltas) = foldr Z.add 0 deltas.
Proof.
  induction deltas as [|d deltas IH]; [done|].
  simpl. rewrite decide_True by done. by rewrite IH.
Qed.

(** C6. After any sequence of increments, [get_account_limit] for an
    account is its value before the sequence plus the sum of the deltas of
    the calls on that account (the date being fixed); an increment on an
    absent entry creates it with 0 first, so from an absent entry the value
    is the sum of the deltas. *)
Theorem C6_quota_monotonicity (w : World) (phone : string) :
  (forall calls st,
     exists st',
       increment_calls w calls st = (Ok tt, st')
       /\ get_account_limit w phone st'
          = (Ok (used_on (account_limits (am st)) phone (today w)
                 + sum_for phone calls), st'))
  /\ (forall deltas st,
        exists st',
          increment_calls w (map (pair phone) deltas) st = (Ok tt, st')
          /\ get_account_limit w phone st'
             = (Ok (used_on (account_limits (am st)) phone (today w)
                    + foldr Z.add 0 deltas), st'))
  /\ (forall deltas st,
        default ∅ (account_limits (am st) !! phone) !! today w = None ->
        exists st',
          increment_calls w (map (pair phone) deltas) st = (Ok tt, st')
          /\ get_account_limit w phone st' = (Ok (foldr Z.add 0 deltas), st'))
  /\ (forall count st,
        default ∅ (account_limits (am st) !! phone) !! today w = None ->
        exists st',
          increment_account_limit w phone count st = (Ok tt, st')
          /\ default ∅ (account_limits (am st') !! phone) !! today w
             = Some (0 + count)).
Proof.
  split; [|split; [|split]].
  - intros calls st.
    destruct (increment_calls_spec w phone calls st) as (st' & Hcalls & Hused).
    exists st'. split; [done|]. by rewrite get_account_limit_eq, Hused.
  - intros deltas st.
    destruct (increment_calls_spec w phone (map (pair phone) deltas) st)
      as (st' & Hcalls & Hused).
    exists st'. split; [done|].
    by rewrite get_account_limit_eq, Hused, sum_for_same.
  - intros deltas st Habsent.
    destruct (increment_calls_spec w phone (map (pair phone) deltas) st)
      as (st' & Hcalls & Hused).
    exists st'. split; [done|].
    rewrite get_account_limit_eq, Hused, sum_for_same.
    unfold used_on. rewrite Habsent. simpl. done.
  - intros count st Habsent.
    destruct (increment_account_limit_eq w phone count st) as [f Hinc].
    eexists. split; [done|]. simpl. by apply incremented_creates.
Qed.

Lemma C6_quota_monotonicity_witness :
  (exists st',
     increment_calls calm (map (pair "+7000000001") [3; 4; 5])
       (start_state calm three_accounts None NoFile) = (Ok tt, st')
     /\ get_account_limit calm "+7000000001" st' = (Ok 12, st'))
  /\ (exists st',
        increment_account_limit calm "+7000000001" 3
          (start_state calm three_accounts None NoFile) = (Ok tt, st')
        /\ default ∅ (account_limits (am st') !! "+7000000001") !! "2026-11-03"
           = Some (0 + 3)).
Proof.
  destruct (C6_quota_monotonicity calm "+7000000001") as (_ & _ & Hsum & Hnew).
  split.
  - apply (Hsum [3; 4; 5] (start_state calm three_accounts None NoFile)). reflexivity.
  - apply (Hnew 3 (start_state calm three_accounts None NoFile)). reflexivity.
Defined.

(** ** Stability *)

Section Stable.
Context (R : relation state) `{!PreOrder R}.

Lemma stable_ret {A} (a : A) : stable R (ret a).
Proof. intros st. reflexivity. Qed.

Lemma stable_raise {A} e : stable R (@raise A e).
Proof. intros st. reflexivity. Qed.

Lemma stable_get_state : stable R get_state.
Proof. intros st. reflexivity. Qed.

Lemma stable_remote {A} (r : result A) : stable R (remote r).
Proof. destruct r; [apply stable_ret | apply stable_raise]. Qed.

Lemma stable_py_index {A} (l : list A) i : stable R (py_index l i).
Proof. unfold py_index. destruct (l !! i); [apply stable_ret | apply stable_raise]. Qed.

Lemma stable_bind {A B} (m : M A) (f : A -> M B) :
  stable R m -> (forall a, stable R (f a)) -> stable R (bind m f).
Proof.
  intros Hm Hf st. unfold bind. specialize (Hm st).
  destruct (m st) as [[a|e] st1]; simpl in *; [|done].
  etrans; [exact Hm | apply Hf].
Qed.

(** The continuation may use that its argument is the current state. *)
Lemma stable_bind_get_state {B} (f : state -> M B) :
  (forall st, R st (snd (f st st))) -> stable R (bind get_state f).
Proof. intros Hf st. apply Hf. Qed.

Lemma stable_try_except {A} (body : M A) handler :
  stable R body -> (forall e, stable R (handler e)) -> stable R (try_except body handler).
Proof.
  intros Hm Hh st. unfold try_except. specialize (Hm st).
  destruct (body st) as [[a|e] st1]; simpl in *; [done|].
  etrans; [exact Hm | apply Hh].
Qed.

Lemma stable_try_finally {A} (body : M A) cleanup :
  stable R body -> stable R cleanup -> stable R (try_finally body cleanup).
Proof.
  intros Hm Hc st. unfold try_finally. specialize (Hm st).
  destruct (body st) as [[a|e] st1]; simpl in *.
  - etrans; [exact Hm|].
    apply (stable_bind cleanup (fun _ => ret a)); [done|]. intros _. apply stable_ret.
  - etrans; [exact Hm|].
    apply (stable_bind cleanup (fun _ => raise e)); [done|]. intros _. apply stable_raise.
Qed.
End Stable.

Lemma stable_weaken {A} (R R' : relation state) (m : M A) :
  (forall st st', R st st' -> R' st st') -> stable R m -> stable R' m.
Proof. intros HR Hm st. apply HR, Hm. Qed.

#[global] Instance quiet_preorder P : PreOrder (quiet P).
Proof.
  split.
  - intros st. split; try done. exists []. by rewrite app_nil_r.
  - intros s1 s2 s3 [a1 b1 c1 d1 e1 (ev1 & t1 & f1)] [a2 b2 c2 d2 e2 (ev2 & t2 & f2)].
    split; try congruence.
    exists (ev1 ++ ev2)%list. split.
    + by rewrite t2, t1, app_assoc.
    + by apply Forall_app.
Qed.

Lemma quiet_weaken (P Q : event -> Prop) st st' :
  (forall ev, P ev -> Q ev) -> quiet P st st' -> quiet Q st st'.
Proof.
  intros HPQ [a b c d e (evs & t & f)]. split; try done.
  exists evs. split; [done|]. eapply Forall_impl; eauto.
Qed.

Lemma quiet_events_since P st st' :
  quiet P st st' ->
  trace st' = (trace st ++ events_since st st')%list /\ Forall P (events_since st st').
Proof.
  intros [_ _ _ _ _ (evs & t & f)]. unfold events_since.
  rewrite t, drop_app_length. done.
Qed.

(** ** What the quiet operations leave alone *)

Lemma emit_quiet (P : event -> Prop) ev : P ev -> stable (quiet P) (emit ev).
Proof.
  intros HP st. split; try done. exists [ev]. split; [done|]. by constructor.
Qed.

Lemma selected_quiet P st k : quiet P st (selected st k).
Proof. split; try done. exists []. by rewrite app_nil_r. Qed.

Lemma get_next_account_quiet P w batch_size :
  stable (quiet P) (get_next_account w batch_size).
Proof.
  intros st.
  destruct (get_next_account_spec w batch_size st)
    as [[-> _]|(k & a & _ & _ & _ & _ & ->)]; simpl.
  - reflexivity.
  - apply selected_quiet.
Qed.

Lemma login_account_quiet (P : event -> Prop) w account :
  P (EvLogin (phone_number account)) -> stable (quiet P) (login_account w account).
Proof.
  intros HP. unfold login_account.
  apply stable_bind; [apply _ | by apply emit_quiet | intros _].
  apply stable_bind; [apply _ | apply stable_get_state, _ | intros st].
  destruct (login_error w (trace st) (phone_number account));
    [apply stable_raise | apply stable_ret]; apply _.
Qed.

Lemma get_client_quiet (P : event -> Prop) w account :
  P (EvLogin (phone_number account)) -> stable (quiet P) (get_client w account).
Proof.
  intros HP. unfold get_client.
  apply stable_bind_get_state. intros st.
  destruct (bool_decide _ && is_connected w (trace st) (phone_number account));
    [reflexivity|].
  unfold bind at 1.
  pose proof (login_account_quiet P w account HP st) as Hlogin.
  destruct (login_account w account st) as [[client|e] st1]; simpl in *; [|done].
  destruct Hlogin as [a b c d e f]. split; done.
Qed.

Lemma disconnect_each_quiet (P : event -> Prop) w phones :
  (forall phone, P (EvDisconnect phone)) -> stable (quiet P) (disconnect_each w phones).
Proof.
  intros HP. induction phones as [|phone phones IH]; simpl.
  - apply stable_ret, _.
  - apply stable_bind; [apply _ | apply stable_get_state, _ | intros st].
    apply stable_bind; [apply _ | | intros _; apply IH].
    destruct (is_connected w (trace st) phone); [by apply emit_quiet | apply stable_ret, _].
Qed.

Lemma disconnect_all_quiet (P : event -> Prop) w :
  (forall phone, P (EvDisconnect phone)) -> stable (quiet P) (disconnect_all w).
Proof.
  intros HP. unfold disconnect_all.
  apply stable_bind; [apply _ | apply stable_get_state, _ | intros st].
  by apply disconnect_each_quiet.
Qed.

Lemma get_names_quiet (P : event -> Prop) w client phone :
  P (EvLookup client (with_plus phone)) -> stable (quiet P) (get_names w client phone).
Proof.
  intros HP. unfold get_names.
  apply stable_bind; [apply _ | by apply emit_quiet | intros _].
  apply stable_try_except; [apply _ | |].
  - apply stable_bind; [apply _ | apply stable_get_state, _ | intros st].
    apply stable_bind; [apply _ | apply stable_remote, _ | intros users].
    destruct users as [|u [|u' users]]; try (apply stable_ret, _).
    apply stable_bind; [apply _ | apply stable_remote, _ | intros us].
    apply stable_bind; [apply _ | apply stable_py_index, _ | intros user].
    apply stable_ret, _.
  - intros e. destruct (is_TypeError e); [apply stable_ret, _|].
    destruct (is_Exception e); [apply stable_ret | apply stable_raise]; apply _.
Qed.

Lemma validate_loop_quiet (P : event -> Prop) w client pause_min pause_max len phones :
  (forall phone, P (EvLookup client phone)) -> P (EvRequestPause pause_min pause_max) ->
  forall i result,
    stable (quiet P) (validate_loop w client pause_min pause_max len i phones result).
Proof.
  intros HL HP. induction phones as [|phone phones IH]; intros i result; simpl.
  - apply stable_ret, _.
  - destruct (_ && _); [|apply IH].
    apply stable_bind; [apply _ | by apply get_names_quiet | intros data].
    apply stable_bind; [apply _ | | intros _; apply IH].
    destruct (i <? len)%nat; [by apply emit_quiet | apply stable_ret, _].
Qed.

Lemma validate_users_quiet (P : event -> Prop) w client phones pause_min pause_max :
  (forall phone, P (EvLookup client phone)) -> P (EvRequestPause pause_min pause_max) ->
  stable (quiet P) (validate_users w client phones pause_min pause_max).
Proof. intros. by apply validate_loop_quiet. Qed.

(** ** How the output file grows *)

Lemma output_grows_refl f : output_grows f f.
Proof. exists [], []. rewrite !app_nil_r. auto. Qed.

Lemma output_grows_trans f1 f2 f3 :
  output_grows f1 f2 -> output_grows f2 f3 -> output_grows f1 f3.
Proof.
  intros (h1 & r1 & E1 & H1 & F1) (h2 & r2 & E2 & H2 & F2).
  destruct H2 as [->|[-> Hempty]].
  - exists h1, (r1 ++ r2)%list. split; [|split; [done|by apply Forall_app]].
    rewrite E2, E1. simpl. by rewrite <- !app_assoc.
  - rewrite E1 in Hempty.
    apply app_eq_nil in Hempty as [Hf1 Hrest].
    apply app_eq_nil in Hrest as [-> ->].
    exists [HEADER], r2. split; [|split; [right; done | done]].
    rewrite E2, E1, Hf1. done.
Qed.

#[global] Instance committing_preorder : PreOrder committing.
Proof.
  split.
  - intros st. split; try done. apply output_grows_refl.
  - intros s1 s2 s3 [a1 b1 c1] [a2 b2 c2]. split; try congruence.
    by eapply output_grows_trans.
Qed.

Lemma quiet_committing P st st' : quiet P st st' -> committing st st'.
Proof.
  intros [a b c d e f]. split; try done. rewrite d. apply output_grows_refl.
Qed.

Lemma set_output_csv_id st : set_output_csv (output_csv st) st = st.
Proof. by destruct st. Qed.

Lemma write_header_if_needed_spec w st :
  exists f,
    write_header_if_needed w st = (Ok tt, set_output_csv f st)
    /\ ((f = output_csv st)
        \/ (f = Some [HEADER] /\ content (output_csv st) = []
            /\ header_write_ok w (trace st) = true)).
Proof.
  unfold write_header_if_needed, bind, get_state, put_state, ret.
  destruct (output_csv st) as [[|r rows]|] eqn:Hout; simpl.
  - destruct (header_write_ok w (trace st)).
    + exists (Some [HEADER]). auto.
    + exists (Some []). split; [|by left]. by rewrite <- Hout, set_output_csv_id.
  - exists (Some (r :: rows)). split; [|by left]. by rewrite <- Hout, set_output_csv_id.
  - destruct (header_write_ok w (trace st)).
    + exists (Some [HEADER]). auto.
    + exists None. split; [|by left]. by rewrite <- Hout, set_output_csv_id.
Qed.

Lemma append_rows_spec w rows st :
  exists r f,
    append_rows w rows st = (r, set_output_csv f st)
    /\ content f
       = (content (output_csv st)
          ++ match append_error w (trace st) with
             | None => rows
             | Some k => firstn k rows
             end)%list
    /\ (append_error w (trace st) = None -> r = Ok tt)
    /\ (forall e, r = Raise e -> is_Exception e = true).
Proof.
  unfold append_rows, bind, get_state, put_state, raise.
  destruct (append_error w (trace st)) as [[|k]|] eqn:Herr.
  - exists (Raise (OtherError "open failed")), (output_csv st).
    rewrite set_output_csv_id. split; [done|]. split; [by rewrite app_nil_r|].
    split; [discriminate | by intros e [= <-]].
  - eexists (Raise (OtherError "write failed")), _. split; [reflexivity|].
    split; [done|]. split; [discriminate | by intros e [= <-]].
  - eexists (Ok tt), _. split; [reflexivity|]. done.
Qed.

Lemma result_row_is_result_row checked_by (results : list (string * user_data)) :
  Forall is_result_row (map (result_row checked_by) results).
Proof. apply Forall_forall. intros r Hr. apply list_elem_of_fmap in Hr as (item & -> & _).
  by exists checked_by, item. Qed.

(** A result row is never the header row: its second cell is ["Yes"] or
    ["No"], the header's is ["found"]. *)
Lemma result_row_not_header r : is_result_row r -> r <> HEADER.
Proof. intros (checked_by & [phone [u s|e]] & ->); discriminate. Qed.

(** What [parse_and_save_results] leaves in the file: the old rows, the
    header if there was no row and it could be written, and the rows that
    were written before an error, all of them without one. *)
Lemma parse_and_save_results_spec w results checked_by st :
  exists f,
    parse_and_save_results w results checked_by st = (Ok tt, set_output_csv f st)
    /\ content f
       = (content (output_csv st)
          ++ (if decide (content (output_csv st) = [])
              then (if header_write_ok w (trace st) then [HEADER] else [])
              else [])
          ++ match append_error w (trace st) with
             | None => map (result_row checked_by) results
             | Some k => firstn k (map (result_row checked_by) results)
             end)%list
    /\ (header_write_ok w (trace st) = false -> append_error w (trace st) = Some 0%nat ->
        f = output_csv st)
    /\ output_grows (output_csv st) f.
Proof.
  unfold parse_and_save_results.
  destruct (write_header_if_needed_spec w st) as (f1 & Hhdr & Hf1).
  rewrite (bind_ok _ _ _ _ _ Hhdr). unfold try_except. cbv beta.
  destruct (append_rows_spec w (map (result_row checked_by) results) (set_output_csv f1 st))
    as (r & f2 & Happ & Hf2 & Hok & Hexc).
  rewrite Happ. simpl in *.
  assert (Hcontent :
    content f1 = (content (output_csv st)
                  ++ (if decide (content (output_csv st) = [])
                      then (if header_write_ok w (trace st) then [HEADER] else [])
                      else []))%list).
  { destruct Hf1 as [->|(-> & Hempty & Hw)].
    - destruct (decide _) as [He|_]; [|by rewrite app_nil_r].
      rewrite He. destruct (header_write_ok w (trace st)) eqn:Hw; [|done].
      exfalso. revert Hhdr.
      unfold write_header_if_needed, bind, get_state, put_state, ret.
      destruct (output_csv st) as [[|? ?]|]; simpl in *; try done;
        rewrite Hw; intros [= Heq]; discriminate.
    - rewrite Hempty, decide_True, Hw by done. done. }
  assert (Hf :
    content f2
    = (content (output_csv st)
       ++ (if decide (content (output_csv st) = [])
           then (if header_write_ok w (trace st) then [HEADER] else [])
           else [])
       ++ match append_error w (trace st) with
          | None => map (result_row checked_by) results
          | Some k => firstn k (map (result_row checked_by) results)
          end)%list).
  { by rewrite Hf2, Hcontent, <- app_assoc. }
  exists f2. split; [|split; [|split]]; [| exact Hf | |].
  - destruct r as [[]|e]; [done|]. by rewrite (Hexc e eq_refl).
  - intros Hw Herr.
    destruct Hf1 as [->|(_ & _ & Hw')]; [|congruence].
    revert Happ. unfold append_rows, bind, get_state, raise. simpl. rewrite Herr.
    by intros [= _ Heq].
  - eexists _, _. split; [exact Hf|]. split.
    + destruct (decide _); [|by left].
      destruct (header_write_ok w (trace st)); [by right | by left].
    + pose proof (result_row_is_result_row checked_by results) as Hall.
      destruct (append_error w (trace st)); [|done]. by apply Forall_take.
Qed.

(** What the [if result_data:] block does to the state. *)
Lemma commit_results_spec w account batch results processed_count st :
  results <> [] ->
  exists out lim,
    commit_results w account batch results processed_count st
    = (Ok (processed_count + length batch)%nat,
       mkState
         (set_account_limits
            (incremented (account_limits (am st)) (phone_number account) (today w)
               (Z.of_nat (length batch))) (am st))
         out lim (trace st))
    /\ output_grows (output_csv st) out
    /\ (header_write_ok w (trace st) = false -> append_error w (trace st) = Some 0%nat ->
        out = output_csv st)
    /\ content out
       = (content (output_csv st)
          ++ (if decide (content (output_csv st) = [])
              then (if header_write_ok w (trace st) then [HEADER] else [])
              else [])
          ++ match append_error w (trace st) with
             | None => map (result_row (phone_number account)) results
             | Some k => firstn k (map (result_row (phone_number account)) results)
             end)%list.
Proof.
  intros Hne. destruct results as [|item results]; [done|].
  unfold commit_results.
  destruct (parse_and_save_results_spec w (item :: results) (phone_number account) st)
    as (f & Hsave & Hf & Hfail & Hgrows).
  rewrite (bind_ok _ _ _ _ _ Hsave).
  destruct (increment_account_limit_eq w (phone_number account)
              (Z.of_nat (length batch)) (set_output_csv f st)) as [lim Hinc].
  rewrite (bind_ok _ _ _ _ _ Hinc). simpl.
  exists f, lim. done.
Qed.

Lemma commit_results_committing w account batch results processed_count :
  stable committing (commit_results w account batch results processed_count).
Proof.
  intros st. destruct results as [|item results]; [reflexivity|].
  destruct (commit_results_spec w account batch (item :: results) processed_count st)
    as (out & lim & -> & Hgrows & _); [done|].
  simpl. by split.
Qed.

(** ** One batch *)

Lemma commit_results_ok w account batch results processed_count st :
  exists p' st', commit_results w account batch results processed_count st = (Ok p', st').
Proof.
  destruct results as [|item results]; [by eexists _, _|].
  destruct (commit_results_spec w account batch (item :: results) processed_count st)
    as (out & lim & -> & _); [done|]. by eexists _, _.
Qed.

(** The state after the pause that follows batch [i], if there is one. *)
Lemma batch_pause_step (i total : nat) (p' : nat) st :
  ((if (i <? total)%nat
    then bind get_state (fun st => emit (EvBatchPause (batch_pause (am st))))
    else ret tt) ;;; ret (Some p')) st
  = (Ok (Some p'),
     if (i <? total)%nat then snd (emit (EvBatchPause (batch_pause (am st))) st) else st).
Proof. unfold bind. by destruct (i <? total)%nat. Qed.

(** The course of one pass of the loop body: up to the state [st1] only
    inner events happen and nothing is stored; there the pass stops with
    [break] or with an exception, or the results are committed and the pause
    follows. *)
Lemma process_batch_spec w total i batch processed_count st :
  exists st1,
    quiet inner (snd (emit (EvBatchStart i total) st)) st1
    /\ (process_batch w total i batch processed_count st = (Ok None, st1)
        \/ (exists e, process_batch w total i batch processed_count st = (Raise e, st1))
        \/ (exists account results p' st2,
             fst (get_next_account w (Z.of_nat (length batch))
                    (snd (emit (EvBatchStart i total) st))) = Ok (Some account)
             /\ commit_results w account batch results processed_count st1 = (Ok p', st2)
             /\ process_batch w total i batch processed_count st
                = (Ok (Some p'),
                   if (i <? total)%nat
                   then snd (emit (EvBatchPause (batch_pause (am st2))) st2)
                   else st2))).
Proof.
  unfold process_batch.
  rewrite (bind_ok _ _ st tt (snd (emit (EvBatchStart i total) st))) by reflexivity.
  set (st0 := snd (emit (EvBatchStart i total) st)).
  pose proof (get_next_account_quiet inner w (Z.of_nat (length batch)) st0) as Hq0.
  destruct (get_next_account w (Z.of_nat (length batch)) st0) as [[[a|]|e] sa] eqn:Hg;
    simpl in Hq0.
  2: { exists sa. split; [done|]. left. by rewrite (bind_ok _ _ _ _ _ Hg). }
  2: { exists sa. split; [done|]. right. left. exists e.
       by rewrite (bind_raise _ _ _ _ _ Hg). }
  rewrite (bind_ok _ _ _ _ _ Hg).
  pose proof (get_client_quiet inner w a I sa) as Hq1.
  destruct (get_client w a sa) as [[c|e] sc] eqn:Hc; simpl in Hq1.
  2: { exists sc. split; [by etrans|]. right. left. exists e.
       by rewrite (bind_raise _ _ _ _ _ Hc). }
  rewrite (bind_ok _ _ _ _ _ Hc).
  rewrite (bind_ok _ _ sc sc sc) by reflexivity.
  destruct (pause_bounds (accounts (am sc)) a) as [pause_min pause_max].
  pose proof (validate_users_quiet inner w c batch pause_min pause_max
                (fun _ => I) I sc) as Hq2.
  destruct (validate_users w c batch pause_min pause_max sc) as [[results|e] sv] eqn:Hv;
    simpl in Hq2.
  2: { exists sv. split; [by etrans; [|etrans]|]. right. left. exists e.
       by rewrite (bind_raise _ _ _ _ _ Hv). }
  rewrite (bind_ok _ _ _ _ _ Hv).
  destruct (commit_results_ok w a batch results processed_count sv) as (p' & s2 & Hcm).
  rewrite (bind_ok _ _ _ _ _ Hcm).
  exists sv. split; [by etrans; [|etrans]|]. right. right.
  exists a, results, p', s2. split; [done|]. split; [done|].
  apply batch_pause_step.
Qed.

Lemma process_batch_committing w total i batch processed_count :
  stable committing (process_batch w total i batch processed_count).
Proof.
  intros st.
  destruct (process_batch_spec w total i batch processed_count st)
    as (st1 & Hq & Hcases).
  assert (H01 : committing st st1).
  { etrans; [|exact (quiet_committing _ _ _ Hq)].
    apply (quiet_committing (fun _ => True)), (emit_quiet _ _ I). }
  destruct Hcases as [->|[[e ->]|(a & results & p' & st2 & _ & Hcm & ->)]]; simpl;
    try done.
  pose proof (commit_results_committing w a batch results processed_count st1) as H12.
  rewrite Hcm in H12. simpl in H12.
  etrans; [exact H01|]. etrans; [exact H12|].
  destruct (i <? total)%nat; [|reflexivity].
  apply (quiet_committing (fun _ => True)), (emit_quiet _ _ I).
Qed.

Lemma main_loop_committing w total batches : forall i processed_count,
  stable committing (main_loop w total i batches processed_count).
Proof.
  induction batches as [|batch rest IH]; intros i processed_count; simpl.
  - apply stable_ret, _.
  - apply stable_bind; [apply _ | apply process_batch_committing | intros [p'|]].
    + apply IH.
    + apply stable_ret, _.
Qed.

Lemma main_committing w batches : stable committing (main w batches).
Proof.
  unfold main. destruct batches as [|batch rest]; [apply stable_ret, _|].
  apply stable_try_finally; [apply _ | |].
  - apply stable_try_except; [apply _ | |].
    + apply stable_bind; [apply _ | apply main_loop_committing | intros _].
      apply stable_ret, _.
    + intros e. destruct (is_Exception e); [apply stable_ret | apply stable_raise]; apply _.
  - apply (stable_weaken (quiet (fun _ => True))); [apply quiet_committing|].
    by apply disconnect_all_quiet.
Qed.

(** ** The numbers of a batch *)

Lemma get_names_state w client phone st :
  snd (get_names w client phone st) = snd (emit (EvLookup client (with_plus phone)) st).
Proof.
  unfold get_names, bind, emit, try_except, get_state, remote, py_index, ret, raise.
  simpl.
  destruct (import_contacts w _ client (with_plus phone)) as [[|u [|u' us]]|e]; simpl;
    try done.
  - destruct (delete_contacts w _ client u) as [[|x xs]|e]; simpl; try done.
    by destruct e.
  - by destruct e.
Qed.

(** [get_names] lets through only what is not an [Exception]. *)
Lemma get_names_raises w client phone st e st' :
  get_names w client phone st = (Raise e, st') -> is_Exception e = false.
Proof.
  unfold get_names, bind, emit, try_except, get_state, remote, py_index, ret, raise.
  simpl.
  destruct (import_contacts w _ client (with_plus phone)) as [[|u [|u' us]]|e0]; simpl;
    try discriminate.
  - destruct (delete_contacts w _ client u) as [[|x xs]|e0]; simpl; try discriminate.
    destruct e0; simpl; try discriminate. by intros [= <- _].
  - destruct e0; simpl; try discriminate. by intros [= <- _].
Qed.

Lemma dict_has_keys {V} key (d : list (string * V)) :
  dict_has key d = true <-> key ∈ map fst d.
Proof.
  unfold dict_has. induction d as [|[k v] d IH]; simpl.
  - split; [discriminate | intros H; by apply elem_of_nil in H].
  - rewrite orb_true_iff, IH, elem_of_cons, String.eqb_eq.
    split; (intros [?|?]; [left | right]); done.
Qed.

Lemma dict_set_new {V} key (v : V) (d : list (string * V)) :
  dict_has key d = false -> dict_set d key v = (d ++ [(key, v)])%list.
Proof.
  unfold dict_has. induction d as [|[k x] d IH]; simpl; [done|].
  intros [Hk Hd]%orb_false_iff. rewrite Hk. by rewrite IH.
Qed.

(** The keys added by the loop of [validate_users] are the normalized
    numbers that are not blank and not yet in the dict, each once, and they
    are the numbers looked up, one lookup each, in this order. *)
Lemma validate_loop_keys w client pause_min pause_max len phones :
  forall i result st results st',
    validate_loop w client pause_min pause_max len i phones result st = (Ok results, st') ->
    NoDup (map fst result) ->
    exists newkeys evs,
      map fst results = (map fst result ++ newkeys)%list
      /\ NoDup (map fst results)
      /\ (forall k, k ∈ newkeys <->
            k ∈ map strip_whitespace phones /\ k <> "" /\ k ∉ map fst result)
      /\ trace st' = (trace st ++ evs)%list
      /\ filter (fun ev => is_lookup ev = true) evs
         = map (fun k => EvLookup client (with_plus k)) newkeys.
Proof.
  induction phones as [|phone rest IH]; intros i result st results st' Hrun Hnd.
  - injection Hrun as <- <-. exists [], []. rewrite !app_nil_r.
    split; [done|]. split; [done|]. split; [|done].
    intros k. simpl. rewrite elem_of_nil. tauto.
  - simpl in Hrun.
    destruct (negb (strip_whitespace phone =? "")%string
              && negb (dict_has (strip_whitespace phone) result)) eqn:Hcond.
    + apply andb_true_iff in Hcond as [Hblank Hfresh].
      apply negb_true_iff in Hblank, Hfresh.
      apply String.eqb_neq in Hblank.
      pose proof (get_names_state w client (strip_whitespace phone) st) as Hst.
      unfold bind at 1 in Hrun.
      destruct (get_names w client (strip_whitespace phone) st) as [[data|e] s1];
        [|discriminate].
      simpl in Hst. subst s1. rewrite (dict_set_new _ _ _ Hfresh) in Hrun.
      set (s2 := if (i <? len)%nat
                 then snd (emit (EvRequestPause pause_min pause_max)
                             (snd (emit (EvLookup client
                                           (with_plus (strip_whitespace phone))) st)))
                 else snd (emit (EvLookup client (with_plus (strip_whitespace phone))) st)).
      assert (Hrun' :
        validate_loop w client pause_min pause_max len (S i) rest
          (result ++ [(strip_whitespace phone, data)]) s2 = (Ok results, st')).
      { rewrite <- Hrun. unfold bind, s2. by destruct (i <? len)%nat. }
      assert (Hfresh' : strip_whitespace phone ∉ map fst result).
      { intros Hin. apply dict_has_keys in Hin. congruence. }
      destruct (IH _ _ _ _ _ Hrun') as (newkeys & evs & Hkeys & Hnd' & Hmem & Htr & Hlk).
      { rewrite map_app. simpl. apply NoDup_app. split; [done|]. split.
        - intros k Hk Hk'. apply list_elem_of_singleton in Hk'. by subst.
        - apply NoDup_singleton. }
      exists (strip_whitespace phone :: newkeys),
        (EvLookup client (with_plus (strip_whitespace phone))
           :: (if (i <? len)%nat then [EvRequestPause pause_min pause_max] else [])
           ++ evs)%list.
      split; [|split; [|split; [|split]]].
      * rewrite Hkeys, map_app. simpl. by rewrite <- app_assoc.
      * done.
      * intros k. rewrite elem_of_cons, Hmem, map_app. simpl.
        rewrite elem_of_cons, elem_of_app, list_elem_of_singleton.
        destruct (decide (k = strip_whitespace phone)) as [->|Hne]; tauto.
      * rewrite Htr. unfold s2. destruct (i <? len)%nat; simpl;
          by rewrite <- ?app_assoc.
      * rewrite filter_cons_True by done. f_equal.
        rewrite filter_app, Hlk.
        by destruct (i <? len)%nat.
    + destruct (IH _ _ _ _ _ Hrun Hnd) as (newkeys & evs & Hkeys & Hnd' & Hmem & Htr & Hlk).
      exists newkeys, evs. split; [done|]. split; [done|]. split; [|done].
      intros k. rewrite Hmem. simpl. rewrite elem_of_cons.
      split; [tauto|]. intros ([->|Hin] & Hblank & Hfresh); [|done].
      exfalso. apply andb_false_iff in Hcond as [Hc|Hc]; apply negb_false_iff in Hc.
      * by apply String.eqb_eq in Hc.
      * by apply dict_has_keys in Hc.
Qed.

(** ** Pauses inside a batch *)

Lemma validate_loop_paused w client pause_min pause_max len phones :
  forall i result st,
    exists evs,
      trace (snd (validate_loop w client pause_min pause_max len i phones result st))
      = (trace st ++ evs)%list
      /\ lookups_paused pause_min pause_max evs.
Proof.
  induction phones as [|phone rest IH]; intros i result st; simpl.
  - exists []. split; [by rewrite app_nil_r | constructor].
  - destruct (_ && _); [|apply IH].
    pose proof (get_names_state w client (strip_whitespace phone) st) as Hst.
    unfold bind at 1.
    destruct (get_names w client (strip_whitespace phone) st) as [[data|e] s1];
      simpl in Hst; subst s1.
    + unfold bind at 1. destruct (i <? len)%nat; simpl.
      * edestruct IH as (evs & -> & Hevs). eexists. split.
        -- simpl. rewrite <- !app_assoc. reflexivity.
        -- simpl. by apply lookups_paused_pause.
      * edestruct IH as (evs & -> & Hevs). eexists. split.
        -- simpl. rewrite <- !app_assoc. reflexivity.
        -- simpl. by apply lookups_paused_lookup.
    + eexists. split; [reflexivity|]. apply lookups_paused_lookup. constructor.
Qed.

Lemma validate_loop_interleave w client pause_min pause_max len phones :
  forall i result st results st',
    validate_loop w client pause_min pause_max len i phones result st = (Ok results, st') ->
    (i + length phones = S len)%nat ->
    NoDup (map strip_whitespace phones) ->
    Forall (fun phone => strip_whitespace phone <> "") phones ->
    (forall phone, phone ∈ phones -> strip_whitespace phone ∉ map fst result) ->
    trace st'
    = (trace st
       ++ interleave (EvRequestPause pause_min pause_max)
            (map (fun phone => EvLookup client (with_plus (strip_whitespace phone)))
               phones))%list.
Proof.
  induction phones as [|phone rest IH];
    intros i result st results st' Hrun Hlen Hnd Hblank Hfresh.
  - injection Hrun as <- <-. by rewrite app_nil_r.
  - simpl in Hrun.
    apply NoDup_cons in Hnd as [Hnotin Hnd].
    apply Forall_cons in Hblank as [Hb Hblank].
    assert (Hcond : negb (strip_whitespace phone =? "")%string
                    && negb (dict_has (strip_whitespace phone) result) = true).
    { apply andb_true_iff. split; apply negb_true_iff.
      - by apply String.eqb_neq.
      - destruct (dict_has _ result) eqn:Hd; [|done].
        apply dict_has_keys in Hd. exfalso. by apply (Hfresh phone); [left|]. }
    rewrite Hcond in Hrun.
    pose proof (get_names_state w client (strip_whitespace phone) st) as Hst.
    unfold bind at 1 in Hrun.
    destruct (get_names w client (strip_whitespace phone) st) as [[data|e] s1];
      [|discriminate].
    simpl in Hst. subst s1.
    assert (Hd : dict_has (strip_whitespace phone) result = false).
    { apply andb_true_iff in Hcond as [_ Hc]. by apply negb_true_iff in Hc. }
    rewrite (dict_set_new _ _ _ Hd) in Hrun.
    unfold bind at 1 in Hrun.
    assert (Hfresh' : forall p, p ∈ rest ->
              strip_whitespace p ∉ map fst (result ++ [(strip_whitespace phone, data)])).
    { intros p Hp. rewrite map_app, elem_of_app. simpl.
      rewrite list_elem_of_singleton. intros [Hin|Heq].
      - by apply (Hfresh p); [right|].
      - apply Hnotin. rewrite <- Heq. by apply list_elem_of_fmap_2. }
    destruct rest as [|phone2 rest].
    + assert (Hi : (i <? len)%nat = false) by (apply Nat.ltb_ge; simpl in Hlen; lia).
      rewrite Hi in Hrun. simpl in Hrun. by injection Hrun as <- <-.
    + assert (Hi : (i <? len)%nat = true) by (apply Nat.ltb_lt; simpl in Hlen; lia).
      rewrite Hi in Hrun. cbn [emit] in Hrun.
      rewrite (IH _ _ _ _ _ Hrun); try done.
      * cbn [trace map interleave]. by rewrite <- !app_assoc.
      * simpl in *. lia.
Qed.

(** ** Pauses between batches *)

Lemma emit_am ev st : am (snd (emit ev st)) = am st.
Proof. reflexivity. Qed.

Lemma emit_trace ev st : trace (snd (emit ev st)) = (trace st ++ [ev])%list.
Proof. reflexivity. Qed.

Lemma commit_results_trace w account batch results processed_count st :
  trace (snd (commit_results w account batch results processed_count st)) = trace st
  /\ batch_pause (am (snd (commit_results w account batch results processed_count st)))
     = batch_pause (am st).
Proof.
  destruct results as [|item results]; [done|].
  destruct (commit_results_spec w account batch (item :: results) processed_count st)
    as (out & lim & -> & _); done.
Qed.

Lemma main_loop_trace w total batches : forall i processed_count st,
  S total = (i + length batches)%nat ->
  batch_pause (am (snd (main_loop w total i batches processed_count st)))
  = batch_pause (am st)
  /\ exists evs,
       trace (snd (main_loop w total i batches processed_count st))
       = (trace st ++ evs)%list
       /\ batch_events (batch_pause (am st)) total i evs
       /\ (batches <> [] -> exists tl, evs = EvBatchStart i total :: tl).
Proof.
  induction batches as [|batch rest IH]; intros i processed_count st Htotal.
  - simpl. split; [done|]. exists []. rewrite app_nil_r.
    split; [done|]. split; [constructor | done].
  - destruct (process_batch_spec w total i batch processed_count st)
      as (st1 & Hq & Hcases).
    destruct (quiet_events_since _ _ _ Hq) as [Htr Hinner].
    set (body := events_since (snd (emit (EvBatchStart i total) st)) st1) in *.
    pose proof (quiet_batch_pause _ _ _ Hq) as Hbp. simpl in Htr, Hbp.
    rewrite <- app_assoc in Htr. simpl in Htr.
    assert (Hstop : forall r,
              process_batch w total i batch processed_count st = (r, st1) ->
              snd (main_loop w total i (batch :: rest) processed_count st) = st1 \/
              exists p', r = Ok (Some p')).
    { intros r Hr. cbn [main_loop]. unfold bind. rewrite Hr.
      destruct r as [[p'|]|e]; eauto. }
    assert (Hlast :
      snd (main_loop w total i (batch :: rest) processed_count st) = st1 ->
      batch_pause (am (snd (main_loop w total i (batch :: rest) processed_count st)))
      = batch_pause (am st)
      /\ exists evs,
           trace (snd (main_loop w total i (batch :: rest) processed_count st))
           = (trace st ++ evs)%list
           /\ batch_events (batch_pause (am st)) total i evs
           /\ (batch :: rest <> [] -> exists tl, evs = EvBatchStart i total :: tl)).
    { intros ->. split; [done|]. exists (EvBatchStart i total :: body).
      split; [done|]. split; [by constructor | eauto]. }
    destruct Hcases as [Hr|[[e Hr]|(a & results & p' & st2 & _ & Hcm & Hr)]].
    + destruct (Hstop _ Hr) as [Hst|[p' Heq]]; [by apply Hlast | discriminate].
    + destruct (Hstop _ Hr) as [Hst|[p' Heq]]; [by apply Hlast | discriminate].
    + destruct (commit_results_trace w a batch results processed_count st1)
        as [Htr2 Hbp2].
      rewrite Hcm in Htr2, Hbp2. simpl in Htr2, Hbp2.
      assert (Hcont :
        main_loop w total i (batch :: rest) processed_count st
        = main_loop w total (S i) rest p'
            (if (i <? total)%nat
             then snd (emit (EvBatchPause (batch_pause (am st2))) st2)
             else st2)).
      { cbn [main_loop]. unfold bind at 1. by rewrite Hr. }
      destruct (i <? total)%nat eqn:Hi.
      * apply Nat.ltb_lt in Hi.
        destruct (IH (S i) p' (snd (emit (EvBatchPause (batch_pause (am st2))) st2))
                    ltac:(simpl in *; lia)) as (Hbp3 & evs & Htr3 & Hev & Hhd).
        destruct Hhd as [tl ->]; [destruct rest; simpl in *; [lia | done]|].
        rewrite emit_am in Hbp3, Hev. rewrite emit_trace in Htr3.
        rewrite Hcont. split; [congruence|].
        exists (EvBatchStart i total
                  :: body ++ EvBatchPause (batch_pause (am st))
                  :: EvBatchStart (S i) total :: tl)%list.
        split; [|split; [|eauto]].
        -- rewrite Htr3, Htr2, Htr, Hbp2, Hbp.
           rewrite <- !app_assoc. simpl. by rewrite <- ?app_assoc.
        -- apply batch_events_more; [done|].
           by rewrite Hbp2, Hbp in Hev.
      * apply Nat.ltb_ge in Hi.
        assert (rest = []) as -> by (destruct rest; simpl in *; [done | lia]).
        rewrite Hcont. simpl. split; [congruence|].
        exists (EvBatchStart i total :: body).
        split; [by rewrite Htr2 | split; [by constructor | eauto]].
Qed.

Lemma main_trace w batches st :
  exists evs discs,
    trace (snd (main w batches st)) = (trace st ++ evs ++ discs)%list
    /\ batch_events (batch_pause (am st)) (length batches) 1 evs
    /\ Forall is_disconnect discs.
Proof.
  unfold main. destruct batches as [|batch rest].
  - exists [], []. simpl. rewrite app_nil_r. split; [done|]. split; constructor.
  - destruct (main_loop_trace w (length (batch :: rest)) (batch :: rest) 1 0 st
                ltac:(simpl; lia)) as (_ & evs & Htr & Hev & _).
    set (loop := main_loop w (length (batch :: rest)) 1 (batch :: rest) 0) in *.
    assert (Hbody : exists r,
      try_except (loop ;;; ret tt)
        (fun e => if is_Exception e then ret tt else raise e) st = (r, snd (loop st))).
    { unfold try_except, bind. destruct (loop st) as [[n|e] s1]; simpl; eauto.
      destruct (is_Exception e); eauto. }
    destruct Hbody as [r Hbody].
    pose proof (disconnect_all_quiet is_disconnect w (fun _ => I) (snd (loop st)))
      as Hq.
    destruct (quiet_events_since _ _ _ Hq) as [Htr' Hdisc].
    exists evs, (events_since (snd (loop st)) (snd (disconnect_all w (snd (loop st))))).
    split; [|done].
    rewrite app_assoc, <- Htr, <- Htr'.
    unfold try_finally. rewrite Hbody. unfold bind.
    by destruct r; destruct (disconnect_all w (snd (loop st))) as [[[]|e'] s2].
Qed.

Lemma batch_events_durations bp total i evs :
  batch_events bp total i evs -> forall d, EvBatchPause d ∈ evs -> d = bp.
Proof.
  assert (Hbody : forall body d, Forall inner body -> EvBatchPause d ∉ body).
  { intros body d Hall Hin. eapply Forall_forall in Hall; [|exact Hin]. done. }
  induction 1 as [i|i body Hb|i body rest Hb Hrest IH]; intros d Hin.
  - by apply elem_of_nil in Hin.
  - apply elem_of_cons in Hin as [?|Hin]; [done|]. by apply Hbody in Hin.
  - apply elem_of_cons in Hin as [?|Hin]; [done|].
    apply elem_of_app in Hin as [Hin|Hin]; [by apply Hbody in Hin|].
    apply elem_of_cons in Hin as [[= ->]|Hin]; [done|]. by apply IH.
Qed.

Lemma filter_inner_nil (f : event -> bool) body :
  (forall ev, inner ev -> f ev = false) -> Forall inner body ->
  filter (fun ev => f ev = true) body = [].
Proof.
  intros Hf. induction 1 as [|ev body Hev _ IH]; [done|].
  rewrite filter_cons_False; [done|]. rewrite (Hf ev Hev). done.
Qed.

(** One pause less than batches started. *)
Lemma batch_events_count bp total i evs :
  batch_events bp total i evs ->
  length (filter (fun ev => is_batch_pause ev = true) evs)
  = pred (length (filter (fun ev => is_batch_start ev = true) evs)).
Proof.
  assert (Hp : forall ev, inner ev -> is_batch_pause ev = false) by (by intros []).
  assert (Hs : forall ev, inner ev -> is_batch_start ev = false) by (by intros []).
  induction 1 as [i|i body Hb|i body rest Hb Hrest IH].
  - done.
  - rewrite filter_cons_False by (simpl; discriminate).
    rewrite filter_cons_True by reflexivity.
    by rewrite !(filter_inner_nil _ body).
  - rewrite filter_cons_False by (simpl; discriminate).
    rewrite filter_cons_True by reflexivity.
    rewrite !filter_app, !(filter_inner_nil _ body) by done.
    rewrite filter_cons_True by reflexivity.
    rewrite (filter_cons_False _ (EvBatchPause bp)) by (simpl; discriminate).
    simpl. rewrite IH.
    rewrite filter_cons_True by reflexivity. done.
Qed.

(** ** Committing a batch *)

(** What a pass of the loop body that reaches its end did to the stores. *)
Lemma process_batch_quota w total i batch processed_count st p' st' :
  process_batch w total i batch processed_count st = (Ok (Some p'), st') ->
  (p' = processed_count
   /\ account_limits (am st') = account_limits (am st)
   /\ output_csv st' = output_csv st)
  \/ (exists account,
        fst (get_next_account w (Z.of_nat (length batch))
               (snd (emit (EvBatchStart i total) st))) = Ok (Some account)
        /\ p' = (processed_count + length batch)%nat
        /\ account_limits (am st')
           = incremented (account_limits (am st)) (phone_number account) (today w)
               (Z.of_nat (length batch))
        /\ output_grows (output_csv st) (output_csv st')
        /\ ((forall tr, header_write_ok w tr = false) ->
            (forall tr, append_error w tr = Some 0%nat) ->
            output_csv st' = output_csv st)).
Proof.
  intros Hrun.
  destruct (process_batch_spec w total i batch processed_count st)
    as (st1 & Hq & [Hr|[[e Hr]|(a & results & p'' & st2 & Hg & Hcm & Hr)]]);
    rewrite Hr in Hrun; try discriminate.
  injection Hrun as -> <-.
  pose proof (quiet_account_limits _ _ _ Hq) as Hl.
  pose proof (quiet_output_csv _ _ _ Hq) as Ho. simpl in Hl, Ho.
  match goal with
  | |- context [if (i <? total)%nat then ?x else ?y] =>
      set (s3 := if (i <? total)%nat then x else y)
  end.
  assert (Hend : am s3 = am st2 /\ output_csv s3 = output_csv st2)
    by (unfold s3; by destruct (i <? total)%nat).
  clearbody s3. destruct Hend as [-> ->].
  destruct results as [|item results].
  - left. injection Hcm as -> ->. done.
  - right. exists a.
    destruct (commit_results_spec w a batch (item :: results) processed_count st1)
      as (out & lim & Hcm' & Hgrows & Hfail & _); [done|].
    rewrite Hcm' in Hcm. injection Hcm as <- <-. simpl.
    split; [done|]. split; [done|]. split; [by rewrite Hl|].
    split; [by rewrite <- Ho|].
    intros Hw Ha. rewrite Hfail by done. done.
Qed.

(** C1 (as the code has it). A batch whose result set is not empty has the
    quota of its account incremented by the length of the batch whether or
    not its rows reached the output file: an error while writing is logged
    inside [parse_and_save_results] and the increment follows all the same,
    also when nothing at all could be written.  The increment is skipped
    only for an empty result set. *)
Theorem C1_quota_after_results (w : World) (account : account) (batch : list string)
  (processed_count : nat) (st : state) :
  (forall results,
     results <> [] ->
     exists st',
       commit_results w account batch results processed_count st
       = (Ok (processed_count + length batch)%nat, st')
       /\ used_on (account_limits (am st')) (phone_number account) (today w)
          = used_on (account_limits (am st)) (phone_number account) (today w)
            + Z.of_nat (length batch)
       /\ (header_write_ok w (trace st) = false ->
           append_error w (trace st) = Some 0%nat ->
           output_csv st' = output_csv st))
  /\ commit_results w account batch [] processed_count st = (Ok processed_count, st)
  /\ (forall total i p' st',
        process_batch w total i batch processed_count st = (Ok (Some p'), st') ->
        (p' = processed_count /\ account_limits (am st') = account_limits (am st)
         /\ output_csv st' = output_csv st)
        \/ (exists selected_account,
              fst (get_next_account w (Z.of_nat (length batch))
                     (snd (emit (EvBatchStart i total) st))) = Ok (Some selected_account)
              /\ p' = (processed_count + length batch)%nat
              /\ account_limits (am st')
                 = incremented (account_limits (am st)) (phone_number selected_account)
                     (today w) (Z.of_nat (length batch))
              /\ ((forall tr, header_write_ok w tr = false) ->
                  (forall tr, append_error w tr = Some 0%nat) ->
                  output_csv st' = output_csv st))).
Proof.
  split; [|split; [done|]].
  - intros results Hne.
    destruct (commit_results_spec w account batch results processed_count st Hne)
      as (out & lim & Hcm & _ & Hfail & _).
    eexists. split; [exact Hcm|]. simpl. split.
    + rewrite used_on_incremented, decide_True by done. done.
    + done.
  - intros total i p' st' Hrun.
    destruct (process_batch_quota _ _ _ _ _ _ _ _ Hrun)
      as [?|(a & ? & ? & ? & _ & ?)]; [by left|].
    right. by exists a.
Qed.

Lemma C1_quota_after_results_witness :
  (exists st',
     commit_results failing_disk acc_A ["+1555000111"]
       [("+1555000111", Failed MsgNotFound)] 0
       (start_state failing_disk one_account None NoFile)
     = (Ok 1%nat, st')
     /\ used_on (account_limits (am st')) "+7000000001" "2026-11-03" = 1
     /\ output_csv st' = None)
  /\ used_on
       (account_limits
          (am (snd (process_batch failing_disk 1 1 ["+1555000111"] 0
                      (start_state failing_disk one_account None NoFile)))))
       "+7000000001" "2026-11-03" = 1.
Proof.
  destruct (C1_quota_after_results failing_disk acc_A ["+1555000111"] 0
              (start_state failing_disk one_account None NoFile))
    as (Hcommit & _ & Hbatch).
  split.
  - destruct (Hcommit [("+1555000111", Failed MsgNotFound)])
      as (st' & Hrun & Hused & Hout); [discriminate|].
    exists st'. split; [exact Hrun|]. split; [exact Hused|].
    apply Hout; reflexivity.
  - destruct (Hbatch 1%nat 1%nat 1%nat
                (snd (process_batch failing_disk 1 1 ["+1555000111"] 0
                        (start_state failing_disk one_account None NoFile))))
      as [(Hp & _)|(a & Ha & _ & -> & _)].
    + vm_compute. reflexivity.
    + discriminate.
    + vm_compute in Ha. injection Ha as <-. vm_compute. reflexivity.
Defined.

(** With an output file that cannot be written, the run persists nothing
    and the quota of the account is incremented all the same. *)
Lemma C1_counterexample :
  fst (run failing_disk one_account [["+1555000111"]] None NoFile) = Ok tt
  /\ output_csv (snd (run failing_disk one_account [["+1555000111"]] None NoFile)) = None
  /\ used_on (account_limits (am (start_state failing_disk one_account None NoFile)))
       "+7000000001" "2026-11-03" = 0
  /\ used_on
       (account_limits
          (am (snd (run failing_disk one_account [["+1555000111"]] None NoFile))))
       "+7000000001" "2026-11-03" = 1
  /\ ~ incremented_only_if_persisted failing_disk "+7000000001"
        (start_state failing_disk one_account None NoFile)
        (snd (run failing_disk one_account [["+1555000111"]] None NoFile)).
Proof.
  split; [|split; [|split; [|split]]]; try (vm_compute; reflexivity).
  intros H. apply H; vm_compute; [discriminate | reflexivity].
Qed.

(** ** An exception in the middle of a batch *)

Lemma process_batch_raise w total i batch processed_count st e st' :
  process_batch w total i batch processed_count st = (Raise e, st') ->
  quiet (fun _ => True) st st'.
Proof.
  intros Hrun.
  destruct (process_batch_spec w total i batch processed_count st)
    as (st1 & Hq & [Hr|[[e' Hr]|(a & results & p'' & st2 & _ & _ & Hr)]]);
    rewrite Hr in Hrun; try discriminate.
  injection Hrun as -> ->.
  etrans; [apply (emit_quiet _ (EvBatchStart i total) I)|].
  eapply quiet_weaken; [|exact Hq]. done.
Qed.

(** An [Exception] raised by the first remote call of a lookup becomes an
    error result. *)
Lemma get_names_catches w client phone st e :
  is_Exception e = true ->
  import_contacts w (trace st ++ [EvLookup client (with_plus phone)]) client
    (with_plus phone) = Raise e ->
  exists msg, fst (get_names w client phone st) = Ok (Failed msg).
Proof.
  intros He Himp.
  unfold get_names, bind, emit, try_except, get_state, remote, raise. simpl.
  rewrite Himp. destruct (is_TypeError e); [by eexists|].
  rewrite He. by eexists.
Qed.

(** C2 (as the code has it). When an exception escapes the processing of a
    batch, the loop of [main] stops with it: nothing of that batch is written
    to the output file and the quota is not incremented for it, the output
    file and the quota store being as they were before the batch; no later
    batch is processed.  Only what is not an [Exception] escapes a lookup: an
    [Exception] raised by the remote call is recorded by [get_names] as an
    error result, and the batch goes on.  A batch that is processed to its
    end leaves the quota store as it was or with the quota of one account
    incremented by the length of the batch. *)
Theorem C2_escaping_exception (w : World) :
  (forall total i batch rest processed_count st e st',
     process_batch w total i batch processed_count st = (Raise e, st') ->
     main_loop w total i (batch :: rest) processed_count st = (Raise e, st')
     /\ output_csv st' = output_csv st
     /\ account_limits (am st') = account_limits (am st)
     /\ limits_json st' = limits_json st)
  /\ (forall client phone st e st',
        get_names w client phone st = (Raise e, st') -> is_Exception e = false)
  /\ (forall client phone st e,
        is_Exception e = true ->
        import_contacts w (trace st ++ [EvLookup client (with_plus phone)]) client
          (with_plus phone) = Raise e ->
        exists msg, fst (get_names w client phone st) = Ok (Failed msg))
  /\ (forall total i batch processed_count st p' st',
        process_batch w total i batch processed_count st = (Ok (Some p'), st') ->
        account_limits (am st') = account_limits (am st)
        \/ exists account,
             account_limits (am st')
             = incremented (account_limits (am st)) (phone_number account) (today w)
                 (Z.of_nat (length batch))).
Proof.
  split; [|split; [|split]].
  - intros total i batch rest processed_count st e st' Hrun.
    destruct (process_batch_raise _ _ _ _ _ _ _ _ Hrun) as [_ _ Hl Ho Hj _].
    split; [|done]. cbn [main_loop]. by rewrite (bind_raise _ _ _ _ _ Hrun).
  - apply get_names_raises.
  - apply get_names_catches.
  - intros total i batch processed_count st p' st' Hrun.
    destruct (process_batch_quota _ _ _ _ _ _ _ _ Hrun)
      as [(_ & ? & _)|(a & _ & _ & ? & _)]; [by left|].
    right. by exists a.
Qed.

Lemma C2_escaping_exception_witness :
  fst (main_loop (raising_at "+1555000103" (BaseError "cancelled")) 1 1
         [five_numbers] 0
         (start_state (raising_at "+1555000103" (BaseError "cancelled"))
            one_account None NoFile))
  = Raise (BaseError "cancelled")
  /\ is_Exception (BaseError "cancelled") = false
  /\ (exists msg,
        fst (get_names (raising_at "+1555000103" (OtherError "connection lost"))
               "+7000000001" "+1555000103"
               (start_state (raising_at "+1555000103" (OtherError "connection lost"))
                  one_account None NoFile))
        = Ok (Failed msg))
  /\ (account_limits
        (am (snd (process_batch (raising_at "+1555000103" (OtherError "connection lost"))
                    1 1 five_numbers 0
                    (start_state (raising_at "+1555000103" (OtherError "connection lost"))
                       one_account None NoFile))))
      = account_limits
          (am (start_state (raising_at "+1555000103" (OtherError "connection lost"))
                 one_account None NoFile))
      \/ exists account,
           account_limits
             (am (snd (process_batch
                         (raising_at "+1555000103" (OtherError "connection lost"))
                         1 1 five_numbers 0
                         (start_state
                            (raising_at "+1555000103" (OtherError "connection lost"))
                            one_account None NoFile))))
           = incremented
               (account_limits
                  (am (start_state
                         (raising_at "+1555000103" (OtherError "connection lost"))
                         one_account None NoFile)))
               (phone_number account)
               (today (raising_at "+1555000103" (OtherError "connection lost")))
               (Z.of_nat (length five_numbers))).
Proof.
  destruct (C2_escaping_exception (raising_at "+1555000103" (BaseError "cancelled")))
    as (Hloop & Hraise & _).
  destruct (C2_escaping_exception (raising_at "+1555000103" (OtherError "connection lost")))
    as (_ & _ & Hcatch & Hend).
  split; [|split; [|split]].
  - destruct (Hloop 1%nat 1%nat five_numbers [] 0%nat
                (start_state (raising_at "+1555000103" (BaseError "cancelled"))
                   one_account None NoFile)
                (BaseError "cancelled")
                (snd (process_batch (raising_at "+1555000103" (BaseError "cancelled"))
                        1 1 five_numbers 0
                        (start_state (raising_at "+1555000103" (BaseError "cancelled"))
                           one_account None NoFile)))) as (-> & _).
    + vm_compute. reflexivity.
    + reflexivity.
  - apply (Hraise "+7000000001" "+1555000103"
             (start_state (raising_at "+1555000103" (BaseError "cancelled"))
                one_account None NoFile) _
             (snd (get_names (raising_at "+1555000103" (BaseError "cancelled"))
                     "+7000000001" "+1555000103"
                     (start_state (raising_at "+1555000103" (BaseError "cancelled"))
                        one_account None NoFile)))).
    vm_compute. reflexivity.
  - apply (Hcatch _ _ _ (OtherError "connection lost")); reflexivity.
  - apply (Hend 1%nat 1%nat five_numbers 0%nat
             (start_state (raising_at "+1555000103" (OtherError "connection lost"))
                one_account None NoFile)
             5%nat).
    vm_compute. reflexivity.
Defined.

(** The third of five lookups is interrupted: no row is written and the
    quota stays at 0, not 2.  The third of five lookups raises an
    [Exception]: it does not escape, five rows follow the header and the
    quota is 5, not 2. *)
Lemma C2_counterexample :
  (fst (run (raising_at "+1555000103" (BaseError "cancelled")) one_account
          [five_numbers] None NoFile) = Raise (BaseError "cancelled")
   /\ length (filter (fun ev => is_lookup ev = true)
                (trace (snd (run (raising_at "+1555000103" (BaseError "cancelled"))
                               one_account [five_numbers] None NoFile)))) = 3%nat
   /\ content (output_csv
                 (snd (run (raising_at "+1555000103" (BaseError "cancelled")) one_account
                         [five_numbers] None NoFile))) = []
   /\ used_on
        (account_limits
           (am (snd (run (raising_at "+1555000103" (BaseError "cancelled")) one_account
                       [five_numbers] None NoFile))))
        "+7000000001" "2026-11-03" = 0
   /\ ~ partial_batch_committed (raising_at "+1555000103" (BaseError "cancelled"))
         "+7000000001" 2
         (start_state (raising_at "+1555000103" (BaseError "cancelled"))
            one_account None NoFile)
         (snd (run (raising_at "+1555000103" (BaseError "cancelled")) one_account
                 [five_numbers] None NoFile)))
  /\ (fst (run (raising_at "+1555000103" (OtherError "connection lost")) one_account
             [five_numbers] None NoFile) = Ok tt
      /\ length (content
                   (output_csv
                      (snd (run (raising_at "+1555000103" (OtherError "connection lost"))
                              one_account [five_numbers] None NoFile)))) = 6%nat
      /\ used_on
           (account_limits
              (am (snd (run (raising_at "+1555000103" (OtherError "connection lost"))
                          one_account [five_numbers] None NoFile))))
           "+7000000001" "2026-11-03" = 5
      /\ ~ partial_batch_committed
            (raising_at "+1555000103" (OtherError "connection lost"))
            "+7000000001" 2
            (start_state (raising_at "+1555000103" (OtherError "connection lost"))
               one_account None NoFile)
            (snd (run (raising_at "+1555000103" (OtherError "connection lost"))
                    one_account [five_numbers] None NoFile))).
Proof.
  split.
  - split; [|split; [|split; [|split]]]; try (vm_compute; reflexivity).
    intros [_ Hquota]. vm_compute in Hquota. discriminate.
  - split; [|split; [|split]]; try (vm_compute; reflexivity).
    intros [_ Hquota]. vm_compute in Hquota. discriminate.
Qed.

(** ** De-duplication *)

Lemma strip_whitespace_filter phone :
  list_ascii_of_string (strip_whitespace phone)
  = filter (fun c => py_isspace c = false) (list_ascii_of_string phone).
Proof.
  induction phone as [|c phone IH]; [done|]. simpl.
  destruct (py_isspace c) eqn:Hc.
  - rewrite filter_cons_False by (rewrite Hc; discriminate). done.
  - rewrite filter_cons_True by done. simpl. by rewrite IH.
Qed.

Lemma result_row_first_cell checked_by (results : list (string * user_data)) :
  map (fun r : row => r !! 0%nat) (map (result_row checked_by) results)
  = map (fun k => Some (CVal (PyStr k))) (map fst results).
Proof.
  induction results as [|[k [u s|e]] results IH]; [done| |]; simpl; by rewrite IH.
Qed.

(** C7. A number is normalized by removing every whitespace character; in a
    batch, the numbers looked up are the normalized numbers that are not
    blank, each exactly once, a number whose normalized form is already in
    the result set being skipped without a lookup; the result set has one
    entry, and the output one row, per number looked up.  The batch
    ["+1555000111", "+1555000111"] gives one lookup and one row; the same
    number in two batches is looked up and written twice. *)
Theorem C7_deduplication (w : World) :
  (forall phone,
     list_ascii_of_string (strip_whitespace phone)
     = filter (fun c => py_isspace c = false) (list_ascii_of_string phone))
  /\ (forall client phones pause_min pause_max st results st',
        validate_users w client phones pause_min pause_max st = (Ok results, st') ->
        NoDup (map fst results)
        /\ (forall k, k ∈ map fst results <->
              k ∈ map strip_whitespace phones /\ k <> "")
        /\ filter (fun ev => is_lookup ev = true) (events_since st st')
           = map (fun k => EvLookup client (with_plus k)) (map fst results)
        /\ forall checked_by,
             map (fun r : row => r !! 0%nat) (map (result_row checked_by) results)
             = map (fun k => Some (CVal (PyStr k))) (map fst results))
  /\ (forall results checked_by st,
        append_error w (trace st) = None ->
        exists hdr,
          content (output_csv (snd (parse_and_save_results w results checked_by st)))
          = (content (output_csv st) ++ hdr ++ map (result_row checked_by) results)%list
          /\ (hdr = [] \/ hdr = [HEADER]))
  /\ (filter (fun ev => is_lookup ev = true)
        (trace (snd (run calm one_account [["+1555000111"; "+1555000111"]] None NoFile)))
      = [EvLookup "+7000000001" "+1555000111"]
      /\ content (output_csv
                    (snd (run calm one_account [["+1555000111"; "+1555000111"]]
                            None NoFile)))
         = [HEADER;
            result_row "+7000000001"
              ("+1555000111", Profile sample_user "Last seen recently")])
  /\ (filter (fun ev => is_lookup ev = true)
        (trace (snd (run calm one_account [["+1555000111"]; ["+1555000111"]]
                       None NoFile)))
      = [EvLookup "+7000000001" "+1555000111"; EvLookup "+7000000001" "+1555000111"]
      /\ content (output_csv
                    (snd (run calm one_account [["+1555000111"]; ["+1555000111"]]
                            None NoFile)))
         = [HEADER;
            result_row "+7000000001"
              ("+1555000111", Profile sample_user "Last seen recently");
            result_row "+7000000001"
              ("+1555000111", Profile sample_user "Last seen recently")]).
Proof.
  split; [apply strip_whitespace_filter|].
  split; [|split; [|split; vm_compute; done]].
  2: { intros results checked_by st Hok.
       destruct (parse_and_save_results_spec w results checked_by st)
         as (f & -> & Hf & _).
       rewrite Hok in Hf. eexists. split; [exact Hf|].
       destruct (decide _); [|by left].
       destruct (header_write_ok w (trace st)); [by right | by left]. }
  intros client phones pause_min pause_max st results st' Hrun.
  destruct (validate_loop_keys _ _ _ _ _ _ _ _ _ _ _ Hrun (NoDup_nil_2))
    as (newkeys & evs & Hkeys & Hnd & Hmem & Htr & Hlk).
  simpl in Hkeys. split; [done|]. split; [|split].
  - intros k. rewrite Hkeys, Hmem. simpl. rewrite elem_of_nil. tauto.
  - unfold events_since. rewrite Htr, drop_app_length. by rewrite Hkeys.
  - intros checked_by. apply result_row_first_cell.
Qed.

Lemma C7_deduplication_witness :
  NoDup (map fst [("+1555000111", Profile sample_user "Last seen recently")])
  /\ filter (fun ev => is_lookup ev = true)
       (events_since (start_state calm one_account None NoFile)
          (snd (validate_users calm "+7000000001" ["+1555000111"; "+1555 000111"]
                  120 180 (start_state calm one_account None NoFile))))
     = [EvLookup "+7000000001" "+1555000111"]
  /\ exists hdr,
       content
         (output_csv
            (snd (parse_and_save_results calm
                    [("+1555000111", Profile sample_user "Last seen recently")]
                    "+7000000001" (start_state calm one_account None NoFile))))
       = (content (output_csv (start_state calm one_account None NoFile))
          ++ hdr
          ++ map (result_row "+7000000001")
               [("+1555000111", Profile sample_user "Last seen recently")])%list
       /\ (hdr = [] \/ hdr = [HEADER]).
Proof.
  destruct (C7_deduplication calm) as (_ & Hbatch & Hrows & _).
  destruct (Hbatch "+7000000001" ["+1555000111"; "+1555 000111"] 120 180
              (start_state calm one_account None NoFile)
              [("+1555000111", Profile sample_user "Last seen recently")]
              (snd (validate_users calm "+7000000001" ["+1555000111"; "+1555 000111"]
                      120 180 (start_state calm one_account None NoFile))))
    as (Hnd & _ & Hlk & _); [vm_compute; reflexivity|].
  split; [exact Hnd|]. split; [exact Hlk|].
  apply Hrows. reflexivity.
Defined.

(** ** Pacing *)

Lemma filter_lookup_interleave client pause_min pause_max (keys : list string) :
  filter (fun ev => is_lookup ev = true)
    (interleave (EvRequestPause pause_min pause_max)
       (map (fun k => EvLookup client (with_plus (strip_whitespace k))) keys))
  = map (fun k => EvLookup client (with_plus (strip_whitespace k))) keys.
Proof.
  induction keys as [|k keys IH]; [done|].
  destruct keys as [|k' keys]; [done|].
  cbn [map interleave] in *.
  rewrite filter_cons_True by reflexivity.
  rewrite filter_cons_False by (simpl; discriminate).
  by rewrite IH.
Qed.

(** The events of the loop of [validate_users], entry by entry. *)
Lemma validate_loop_events w client pause_min pause_max rest :
  forall pre result st results st',
    validate_loop w client pause_min pause_max (length (pre ++ rest))
      (S (length pre)) rest result st = (Ok results, st') ->
    (forall k, k ∈ map fst result <-> k ∈ map strip_whitespace pre /\ k <> "") ->
    trace st'
    = (trace st
       ++ flat_map (entry_events client pause_min pause_max (pre ++ rest))
            (seq (length pre) (length rest)))%list.
Proof.
  induction rest as [|phone rest IH]; intros pre result st results st' Hrun Hkeys.
  - injection Hrun as <- <-. simpl. by rewrite app_nil_r.
  - assert (Hentry : (pre ++ phone :: rest)%list !! length pre = Some phone)
      by (by rewrite list_lookup_middle).
    assert (Htake : take (length pre) (pre ++ phone :: rest)%list = pre)
      by (by rewrite take_app_length).
    assert (Hnext : forall result' s2,
              validate_loop w client pause_min pause_max
                (length (pre ++ phone :: rest)%list) (S (S (length pre))) rest result' s2
              = (Ok results, st') ->
              (forall k, k ∈ map fst result' <->
                 k ∈ map strip_whitespace (pre ++ [phone])%list /\ k <> "") ->
              trace st'
              = (trace s2
                 ++ flat_map (entry_events client pause_min pause_max
                                (pre ++ phone :: rest)%list)
                      (seq (S (length pre)) (length rest)))%list).
    { intros result' s2 Hrun' Hkeys'.
      specialize (IH (pre ++ [phone])%list result' s2 results st').
      replace ((pre ++ [phone]) ++ rest)%list with (pre ++ phone :: rest)%list in IH
        by (by rewrite <- app_assoc).
      replace (length (pre ++ [phone])%list) with (S (length pre)) in IH
        by (rewrite length_app; simpl; lia).
      by apply IH. }
    simpl in Hrun. cbn [seq flat_map length]. unfold entry_events at 1.
    rewrite Hentry, Htake.
    destruct (negb (strip_whitespace phone =? "")%string
              && negb (dict_has (strip_whitespace phone) result)) eqn:Hcond.
    + apply andb_true_iff in Hcond as [Hblank Hfresh].
      apply negb_true_iff in Hblank, Hfresh.
      apply String.eqb_neq in Hblank.
      assert (Hnotin : strip_whitespace phone ∉ map strip_whitespace pre).
      { intros Hin. assert (Hk : strip_whitespace phone ∈ map fst result)
          by (by apply Hkeys).
        apply dict_has_keys in Hk. congruence. }
      rewrite decide_True by done.
      pose proof (get_names_state w client (strip_whitespace phone) st) as Hst.
      unfold bind at 1 in Hrun.
      destruct (get_names w client (strip_whitespace phone) st) as [[data|e] s1];
        [|discriminate].
      simpl in Hst. subst s1. rewrite (dict_set_new _ _ _ Hfresh) in Hrun.
      unfold bind at 1 in Hrun.
      assert (Hkeys' : forall k,
                k ∈ map fst (result ++ [(strip_whitespace phone, data)])%list <->
                k ∈ map strip_whitespace (pre ++ [phone])%list /\ k <> "").
      { intros k. rewrite !map_app, !elem_of_app. simpl.
        rewrite !list_elem_of_singleton, Hkeys.
        split; [intros [?| ->]; tauto | tauto]. }
      destruct (S (length pre) <? length (pre ++ phone :: rest)%list)%nat eqn:Hlast;
        cbn [emit ret] in Hrun;
        rewrite (Hnext _ _ Hrun Hkeys'); cbn [trace]; by rewrite <- !app_assoc.
    + assert (Hskip : ~ (strip_whitespace phone <> ""
                         /\ strip_whitespace phone ∉ map strip_whitespace pre)).
      { intros [Hblank Hnotin].
        apply andb_false_iff in Hcond as [Hc|Hc]; apply negb_false_iff in Hc.
        - by apply String.eqb_eq in Hc.
        - apply dict_has_keys, Hkeys in Hc. tauto. }
      rewrite decide_False by done.
      assert (Hkeys' : forall k,
                k ∈ map fst result <->
                k ∈ map strip_whitespace (pre ++ [phone])%list /\ k <> "").
      { intros k. rewrite map_app, elem_of_app. simpl.
        rewrite list_elem_of_singleton, Hkeys.
        split; [tauto|]. intros [[?| ->] ?]; [tauto|].
        destruct (decide (strip_whitespace phone ∈ map strip_whitespace pre)); tauto. }
      by rewrite (Hnext _ _ Hrun Hkeys').
Qed.

Lemma run_trace w cfg batches out lim :
  exists evs discs,
    trace (snd (run w cfg batches out lim)) = (evs ++ discs)%list
    /\ batch_events (batch_pause (new_AccountManager w cfg lim)) (length batches) 1 evs
    /\ Forall is_disconnect discs.
Proof.
  destruct (main_trace w batches (start_state w cfg out lim)) as (evs & discs & Htr & H).
  exists evs, discs. split; [exact Htr | exact H].
Qed.

(** C8 (as the code has it).  Inside a batch a pause of
    [random.uniform(pause_min, pause_max)] seconds is made directly after
    the lookup of every entry that is not the last entry of the batch, and
    nowhere else; in a batch whose entries are not blank and differ after
    normalization, this is one pause between every two consecutive lookups
    and none after the last.  Between batches, every batch that is followed
    by another one is followed by one pause of the configured [batch_pause]
    seconds, directly before the next batch starts; there is none after the
    last batch. *)
Theorem C8_pacing (w : World) :
  (forall client phones pause_min pause_max st results st',
     validate_users w client phones pause_min pause_max st = (Ok results, st') ->
     events_since st st'
     = flat_map (entry_events client pause_min pause_max phones)
         (seq 0 (length phones)))
  /\ (forall client phones pause_min pause_max st results st',
     validate_users w client phones pause_min pause_max st = (Ok results, st') ->
     NoDup (map strip_whitespace phones) ->
     Forall (fun phone => strip_whitespace phone <> "") phones ->
     events_since st st'
     = interleave (EvRequestPause pause_min pause_max)
         (map (fun phone => EvLookup client (with_plus (strip_whitespace phone))) phones)
     /\ paused_before_all_but_first pause_min pause_max (events_since st st'))
  /\ (forall client phones pause_min pause_max st,
        lookups_paused pause_min pause_max
          (events_since st (snd (validate_users w client phones pause_min pause_max st))))
  /\ (forall cfg batches out lim,
        exists evs discs,
          trace (snd (run w cfg batches out lim)) = (evs ++ discs)%list
          /\ batch_events (batch_pause (new_AccountManager w cfg lim)) (length batches) 1 evs
          /\ Forall is_disconnect discs
          /\ (forall d, EvBatchPause d ∈ evs ->
                d = batch_pause (new_AccountManager w cfg lim))
          /\ length (filter (fun ev => is_batch_pause ev = true) evs)
             = pred (length (filter (fun ev => is_batch_start ev = true) evs))).
Proof.
  split; [|split; [|split]].
  - intros client phones pause_min pause_max st results st' Hrun.
    unfold events_since.
    rewrite (validate_loop_events w client pause_min pause_max phones [] [] st
               results st' Hrun).
    + by rewrite drop_app_length.
    + intros k. simpl. rewrite elem_of_nil. tauto.
  - intros client phones pause_min pause_max st results st' Hrun Hnd Hblank.
    assert (Hevs : events_since st st'
                   = interleave (EvRequestPause pause_min pause_max)
                       (map (fun phone =>
                               EvLookup client (with_plus (strip_whitespace phone)))
                          phones)).
    { unfold events_since.
      rewrite (validate_loop_interleave _ _ _ _ _ _ _ _ _ _ _ Hrun); try done.
      + by rewrite drop_app_length.
      + intros phone _ Hin. by apply elem_of_nil in Hin. }
    split; [done|]. unfold paused_before_all_but_first.
    by rewrite Hevs, filter_lookup_interleave.
  - intros client phones pause_min pause_max st.
    destruct (validate_loop_paused w client pause_min pause_max (length phones) phones
                1 [] st) as (evs & Htr & Hevs).
    unfold events_since, validate_users. by rewrite Htr, drop_app_length.
  - intros cfg batches out lim.
    destruct (run_trace w cfg batches out lim) as (evs & discs & Htr & Hev & Hdisc).
    exists evs, discs. repeat split; try done.
    + by eapply batch_events_durations.
    + by eapply batch_events_count.
Qed.

Lemma C8_pacing_witness :
  events_since (start_state calm one_account None NoFile)
    (snd (validate_users calm "+7000000001" ["+1555000101"; "+1555000102"] 120 180
            (start_state calm one_account None NoFile)))
  = [EvLookup "+7000000001" "+1555000101"; EvRequestPause 120 180;
     EvLookup "+7000000001" "+1555000102"]
  /\ events_since (start_state calm one_account None NoFile)
       (snd (validate_users calm "+7000000001" ["+1555000111"; "+1555000111"] 120 180
               (start_state calm one_account None NoFile)))
     = flat_map (entry_events "+7000000001" 120 180 ["+1555000111"; "+1555000111"])
         [0; 1]%nat.
Proof.
  destruct (C8_pacing calm) as (Hexact & Hbatch & _).
  split.
  - eapply proj1.
    apply (Hbatch "+7000000001" ["+1555000101"; "+1555000102"] 120 180
             (start_state calm one_account None NoFile)
             [("+1555000101", Profile sample_user "Last seen recently");
              ("+1555000102", Profile sample_user "Last seen recently")]).
    + vm_compute. reflexivity.
    + apply (bool_decide_unpack _). vm_compute. exact I.
    + repeat constructor; discriminate.
  - apply (Hexact "+7000000001" ["+1555000111"; "+1555000111"] 120 180
             (start_state calm one_account None NoFile)
             [("+1555000111", Profile sample_user "Last seen recently")]).
    vm_compute. reflexivity.
Defined.

(** A batch that ends with a duplicate: the one lookup is followed by a
    pause, although no lookup follows and it is the first lookup. *)
Lemma C8_counterexample :
  events_since (start_state calm one_account None NoFile)
    (snd (validate_users calm "+7000000001" ["+1555000111"; "+1555000111"] 120 180
            (start_state calm one_account None NoFile)))
  = [EvLookup "+7000000001" "+1555000111"; EvRequestPause 120 180]
  /\ ~ paused_before_all_but_first 120 180
        (events_since (start_state calm one_account None NoFile)
           (snd (validate_users calm "+7000000001" ["+1555000111"; "+1555000111"]
                   120 180 (start_state calm one_account None NoFile)))).
Proof.
  split; [vm_compute; reflexivity|].
  unfold paused_before_all_but_first. vm_compute. discriminate.
Qed.

(** ** The output file over two runs *)

Lemma filter_header_result_rows (rows : list row) :
  Forall is_result_row rows -> filter (fun r => r = HEADER) rows = [].
Proof.
  induction rows as [|r rows IH]; intros Hall; [done|].
  apply Forall_cons in Hall as [Hr Hall].
  rewrite filter_cons. destruct (decide (r = HEADER)) as [Heq|_]; [|by apply IH].
  by apply result_row_not_header in Hr.
Qed.

Lemma output_grows_header_count f f' :
  output_grows f f' ->
  (content f <> [] -> header_count f' = header_count f)
  /\ (content f = [] -> (header_count f' <= 1)%nat).
Proof.
  intros (hdr & rows & E & Hh & Hrows). unfold header_count. rewrite E.
  rewrite !filter_app, !length_app, (filter_header_result_rows rows Hrows).
  destruct Hh as [->|[-> Hempty]]; simpl.
  - split; [lia|]. intros ->. simpl. lia.
  - split; [done|]. intros _. rewrite Hempty. vm_compute. lia.
Qed.

Lemma write_header_if_needed_cases w st :
  (content (output_csv st) <> [] -> write_header_if_needed w st = (Ok tt, st))
  /\ (content (output_csv st) = [] -> header_write_ok w (trace st) = true ->
      write_header_if_needed w st = (Ok tt, set_output_csv (Some [HEADER]) st)).
Proof.
  split.
  - intros Hne.
    destruct (write_header_if_needed_spec w st) as (f & -> & [->|(_ & Hempty & _)]);
      [by rewrite set_output_csv_id | done].
  - intros Hempty Hok.
    unfold write_header_if_needed, bind, get_state, put_state.
    destruct (output_csv st) as [[|r rows]|]; simpl in *; try done; by rewrite Hok.
Qed.

(** C9. The header row is written only to a file that is missing or has no
    row, and rows are appended after what the file holds.  Over two runs on
    the same output file: each run leaves the rows that were there in front,
    a second run on a file that has rows appends result rows only, no result
    row is the header row, and the header row appears at most once in a file
    that started missing or empty, and as often as before otherwise. *)
Theorem C9_output_append (w1 w2 : World) (cfg1 cfg2 : yaml_config)
  (batches1 batches2 : list (list string)) (out0 : option (list row))
  (lim0 : limits_file) :
  let st1 := snd (run w1 cfg1 batches1 out0 lim0) in
  let st2 := snd (run w2 cfg2 batches2 (output_csv st1) (limits_json st1)) in
  (forall w st,
     (content (output_csv st) <> [] -> write_header_if_needed w st = (Ok tt, st))
     /\ (content (output_csv st) = [] -> header_write_ok w (trace st) = true ->
         write_header_if_needed w st = (Ok tt, set_output_csv (Some [HEADER]) st)))
  /\ output_grows out0 (output_csv st1)
  /\ output_grows (output_csv st1) (output_csv st2)
  /\ (content (output_csv st1) <> [] ->
      exists rows,
        content (output_csv st2) = (content (output_csv st1) ++ rows)%list
        /\ Forall is_result_row rows)
  /\ (forall r, is_result_row r -> r <> HEADER)
  /\ (content out0 = [] -> (header_count (output_csv st2) <= 1)%nat)
  /\ (content out0 <> [] -> header_count (output_csv st2) = header_count out0).
Proof.
  intros st1 st2.
  assert (H1 : output_grows out0 (output_csv st1)).
  { apply (committing_output _ _ (main_committing w1 batches1
                                    (start_state w1 cfg1 out0 lim0))). }
  assert (H2 : output_grows (output_csv st1) (output_csv st2)).
  { apply (committing_output _ _ (main_committing w2 batches2
             (start_state w2 cfg2 (output_csv st1) (limits_json st1)))). }
  split; [|split; [done|]; split; [done|]; split; [|split; [|split]]].
  - apply write_header_if_needed_cases.
  - intros Hne. destruct H2 as (hdr & rows & E & [->|[_ Hempty]] & Hrows); [|done].
    exists rows. done.
  - apply result_row_not_header.
  - intros Hempty.
    by apply (output_grows_header_count out0 (output_csv st2));
      [eapply output_grows_trans|].
  - intros Hne.
    by apply (output_grows_header_count out0 (output_csv st2));
      [eapply output_grows_trans|].
Qed.

Lemma C9_output_append_witness :
  content
    (output_csv
       (snd (run calm one_account [["+1555000102"]]
               (output_csv (snd (run calm one_account [["+1555000101"]] None NoFile)))
               (limits_json (snd (run calm one_account [["+1555000101"]] None NoFile))))))
  = [HEADER;
     result_row "+7000000001" ("+1555000101", Profile sample_user "Last seen recently");
     result_row "+7000000001" ("+1555000102", Profile sample_user "Last seen recently")]
  /\ (header_count
        (output_csv
           (snd (run calm one_account [["+1555000102"]]
                   (output_csv (snd (run calm one_account [["+1555000101"]] None NoFile)))
                   (limits_json
                      (snd (run calm one_account [["+1555000101"]] None NoFile))))))
      <= 1)%nat
  /\ (exists rows,
        content
          (output_csv
             (snd (run calm one_account [["+1555000102"]]
                     (output_csv (snd (run calm one_account [["+1555000101"]] None NoFile)))
                     (limits_json
                        (snd (run calm one_account [["+1555000101"]] None NoFile))))))
        = (content (output_csv (snd (run calm one_account [["+1555000101"]] None NoFile)))
           ++ rows)%list
        /\ Forall is_result_row rows)
  /\ header_count
       (output_csv
          (snd (run calm one_account [["+1555000102"]]
                  (output_csv
                     (snd (run calm one_account [["+1555000101"]] (Some [HEADER]) NoFile)))
                  (limits_json
                     (snd (run calm one_account [["+1555000101"]] (Some [HEADER])
                             NoFile))))))
     = header_count (Some [HEADER])
  /\ result_row "+7000000001" ("+1555000101", Profile sample_user "Last seen recently")
     <> HEADER
  /\ write_header_if_needed calm (start_state calm one_account (Some [HEADER]) NoFile)
     = (Ok tt, start_state calm one_account (Some [HEADER]) NoFile)
  /\ write_header_if_needed calm (start_state calm one_account None NoFile)
     = (Ok tt, set_output_csv (Some [HEADER]) (start_state calm one_account None NoFile)).
Proof.
  destruct (C9_output_append calm calm one_account one_account
              [["+1555000101"]] [["+1555000102"]] None NoFile)
    as (_ & _ & _ & Happ & Hrow & Hcount & _).
  destruct (C9_output_append calm calm one_account one_account
              [["+1555000101"]] [["+1555000102"]] (Some [HEADER]) NoFile)
    as (Hheader & _ & _ & _ & _ & _ & Hsame).
  split; [vm_compute; reflexivity|]. split; [|split; [|split; [|split; [|split]]]].
  - apply Hcount. reflexivity.
  - apply Happ. vm_compute. discriminate.
  - apply Hsame. discriminate.
  - apply Hrow. by eexists _, _.
  - destruct (Hheader calm (start_state calm one_account (Some [HEADER]) NoFile))
      as [Hkeep _].
    apply Hkeep. discriminate.
  - destruct (Hheader calm (start_state calm one_account None NoFile)) as [_ Hwrite].
    apply Hwrite; reflexivity.
Defined.

(** * Further properties *)

(** ** The daily limit *)

#[global] Instance within_limit_preorder w : PreOrder (within_limit w).
Proof.
  split.
  - intros st phone. lia.
  - intros s1 s2 s3 H12 H23 phone.
    specialize (H12 phone). specialize (H23 phone). lia.
Qed.

Lemma quiet_within_limit P w st st' : quiet P st st' -> within_limit w st st'.
Proof. intros Hq phone. rewrite (quiet_account_limits _ _ _ Hq). lia. Qed.

(** The account [get_next_account] returns has room for the batch. *)
Lemma get_next_account_eligible w batch_size st a :
  fst (get_next_account w batch_size st) = Ok (Some a) ->
  eligible w batch_size st a /\ a ∈ accounts (am st).
Proof.
  intros Hres.
  destruct (get_next_account_spec w batch_size st)
    as [[Hnone _]|(k & b & _ & Hb & Heb & _ & Hsel)].
  - rewrite Hnone in Hres. discriminate.
  - rewrite Hsel in Hres. simpl in Hres. simplify_eq. split; [done|].
    unfold candidate in Hb. by eapply list_elem_of_lookup_2.
Qed.

Lemma process_batch_within_limit w total i batch processed_count :
  stable (within_limit w) (process_batch w total i batch processed_count).
Proof.
  intros st.
  destruct (process_batch w total i batch processed_count st) as [[[p'|]|e] st'] eqn:Hrun;
    simpl.
  - destruct (process_batch_quota _ _ _ _ _ _ _ _ Hrun)
      as [(_ & Hl & _)|(a & Ha & _ & Hl & _)].
    + intros phone. rewrite Hl. lia.
    + apply get_next_account_eligible in Ha as [He _].
      unfold eligible in He. simpl in He.
      intros phone. rewrite Hl, used_on_incremented.
      destruct (decide (phone_number a = phone /\ today w = today w)) as [[<- _]|_];
        unfold ACCOUNT_DAILY_LIMIT in *; lia.
  - destruct (process_batch_spec w total i batch processed_count st)
      as (st1 & Hq & [Hr|[[e Hr]|(a & results & p'' & st2 & _ & _ & Hr)]]);
      rewrite Hr in Hrun; try discriminate.
    injection Hrun as <-.
    etrans; [|exact (quiet_within_limit _ w _ _ Hq)].
    apply (quiet_within_limit (fun _ => True)), (emit_quiet _ _ I).
  - apply (quiet_within_limit (fun _ => True)).
    by eapply process_batch_raise.
Qed.

Lemma main_loop_within_limit w total batches : forall i processed_count,
  stable (within_limit w) (main_loop w total i batches processed_count).
Proof.
  induction batches as [|batch rest IH]; intros i processed_count; simpl.
  - apply stable_ret, _.
  - apply stable_bind; [apply _ | apply process_batch_within_limit | intros [p'|]].
    + apply IH.
    + apply stable_ret, _.
Qed.

Lemma main_within_limit w batches : stable (within_limit w) (main w batches).
Proof.
  unfold main. destruct batches as [|batch rest]; [apply stable_ret, _|].
  apply stable_try_finally; [apply _ | |].
  - apply stable_try_except; [apply _ | |].
    + apply stable_bind; [apply _ | apply main_loop_within_limit | intros _].
      apply stable_ret, _.
    + intros e. destruct (is_Exception e); [apply stable_ret | apply stable_raise]; apply _.
  - apply (stable_weaken (quiet (fun _ => True))); [apply quiet_within_limit|].
    by apply disconnect_all_quiet.
Qed.

(** X1. Over a run no account's count for today goes down, and none goes
    above the daily limit of 50 unless it was above it before the run, in
    which case it stays as it was. *)
Theorem X1_daily_limit_kept (w : World) (batches : list (list string)) (st : state)
  (phone : string) :
  used_on (account_limits (am st)) phone (today w)
  <= used_on (account_limits (am (snd (main w batches st)))) phone (today w)
  /\ (used_on (account_limits (am st)) phone (today w) <= ACCOUNT_DAILY_LIMIT ->
      used_on (account_limits (am (snd (main w batches st)))) phone (today w)
      <= ACCOUNT_DAILY_LIMIT)
  /\ (ACCOUNT_DAILY_LIMIT < used_on (account_limits (am st)) phone (today w) ->
      used_on (account_limits (am (snd (main w batches st)))) phone (today w)
      = used_on (account_limits (am st)) phone (today w)).
Proof.
  destruct (main_within_limit w batches st phone) as [Hlo Hhi].
  split; [done|]. split; intros H; lia.
Qed.

Lemma X1_daily_limit_kept_witness :
  used_on
    (account_limits
       (am (snd (main calm [five_numbers; five_numbers]
                   (start_state calm one_account None (Stored (limits_all 45)))))))
    "+7000000001" (today calm) <= 50
  /\ used_on
       (account_limits
          (am (snd (main calm [five_numbers]
                      (start_state calm one_account None (Stored (limits_all 60)))))))
       "+7000000001" (today calm) = 60.
Proof.
  destruct (X1_daily_limit_kept calm [five_numbers; five_numbers]
              (start_state calm one_account None (Stored (limits_all 45)))
              "+7000000001") as (_ & Hle & _).
  destruct (X1_daily_limit_kept calm [five_numbers]
              (start_state calm one_account None (Stored (limits_all 60)))
              "+7000000001") as (_ & _ & Hkeep).
  split.
  - apply Hle. vm_compute. discriminate.
  - rewrite Hkeep; [reflexivity|]. vm_compute. reflexivity.
Defined.

(** ** Lookups and the quota charged for them *)

Lemma lookups_by_app phone evs1 evs2 :
  lookups_by phone (evs1 ++ evs2) = (lookups_by phone evs1 + lookups_by phone evs2)%nat.
Proof. unfold lookups_by. by rewrite filter_app, length_app. Qed.

Lemma lookups_by_none phone evs :
  Forall (fun ev => is_lookup ev = false) evs -> lookups_by phone evs = 0%nat.
Proof.
  unfold lookups_by. induction 1 as [|ev evs Hev _ IH]; [done|].
  rewrite filter_cons_False; [done|].
  destruct ev; simpl in *; congruence.
Qed.

Lemma lookups_by_filter_lookup phone evs :
  lookups_by phone (filter (fun ev => is_lookup ev = true) evs) = lookups_by phone evs.
Proof.
  unfold lookups_by. induction evs as [|ev evs IH]; [done|].
  destruct (is_lookup ev) eqn:Hev.
  - rewrite (filter_cons_True (fun ev => is_lookup ev = true)) by done.
    rewrite !filter_cons. destruct (decide _); simpl; by rewrite IH.
  - rewrite (filter_cons_False (fun ev => is_lookup ev = true))
      by (rewrite Hev; discriminate).
    rewrite filter_cons_False; [done|].
    destruct ev; simpl in *; congruence.
Qed.

Lemma lookups_by_lookups phone client (keys : list string) :
  lookups_by phone (map (fun k => EvLookup client (with_plus k)) keys)
  = if String.eqb client phone then length keys else 0%nat.
Proof.
  unfold lookups_by. induction keys as [|k keys IH]; simpl.
  - by destruct (String.eqb client phone).
  - rewrite filter_cons. simpl.
    destruct (String.eqb client phone) eqn:Heq.
    + rewrite decide_True by done. simpl. by rewrite IH.
    + rewrite decide_False by discriminate. by rewrite IH.
Qed.

(** The lookups of a batch are made through the client it was given, one
    for each entry of the result set, which has at most as many entries as
    the batch. *)
Lemma validate_users_lookups w client phones pause_min pause_max st results st' :
  validate_users w client phones pause_min pause_max st = (Ok results, st') ->
  exists evs,
    trace st' = (trace st ++ evs)%list
    /\ (forall phone,
          lookups_by phone evs
          = if String.eqb client phone then length results else 0%nat)
    /\ (length results <= length phones)%nat.
Proof.
  intros Hrun.
  destruct (validate_loop_keys _ _ _ _ _ _ _ _ _ _ _ Hrun (NoDup_nil_2))
    as (newkeys & evs & Hkeys & Hnd & Hmem & Htr & Hlk).
  simpl in Hkeys. exists evs. split; [done|]. split.
  - intros phone.
    rewrite <- lookups_by_filter_lookup, Hlk, lookups_by_lookups.
    by rewrite <- Hkeys, length_map.
  - rewrite <- (length_map fst results), Hkeys, <- (length_map strip_whitespace phones).
    apply submseteq_length, NoDup_submseteq; [by rewrite <- Hkeys|].
    intros k Hk. by apply Hmem in Hk as [Hk _].
Qed.

Lemma validate_loop_raises w client pause_min pause_max len phones :
  forall i result st e st',
    validate_loop w client pause_min pause_max len i phones result st = (Raise e, st') ->
    is_Exception e = false.
Proof.
  induction phones as [|phone rest IH]; intros i result st e st' Hrun; simpl in Hrun.
  - discriminate.
  - destruct (_ && _); [|by eapply IH].
    unfold bind at 1 in Hrun.
    destruct (get_names w client (strip_whitespace phone) st) as [[data|e0] s1] eqn:Hg.
    + unfold bind at 1 in Hrun.
      destruct (i <? len)%nat; simpl in Hrun; by eapply IH.
    + injection Hrun as <- <-. by eapply get_names_raises.
Qed.

Lemma login_account_returns w account st client st' :
  login_account w account st = (Ok client, st') -> client = phone_number account.
Proof.
  unfold login_account. unfold bind, emit, get_state, put_state, ret, raise; simpl.
  destruct (login_error _ _ _); [discriminate|].
  by intros [= <- _].
Qed.

Lemma get_client_returns w account st client st' :
  get_client w account st = (Ok client, st') -> client = phone_number account.
Proof.
  unfold get_client. unfold bind at 1. unfold get_state at 1.
  destruct (_ && _); [by intros [= <- _]|].
  unfold bind at 1.
  destruct (login_account w account st) as [[c|e] s1] eqn:Hlogin; [|discriminate].
  apply login_account_returns in Hlogin as ->.
  unfold bind, get_state, put_state, ret. by intros [= <- _].
Qed.

Lemma quiet_no_lookups st st' :
  quiet (fun ev => is_lookup ev = false) st st' ->
  exists evs,
    trace st' = (trace st ++ evs)%list
    /\ (forall phone, lookups_by phone evs = 0%nat)
    /\ account_limits (am st') = account_limits (am st).
Proof.
  intros [_ _ Hl _ _ (evs & Htr & Hall)].
  exists evs. split; [done|]. split; [|done].
  intros phone. by apply lookups_by_none.
Qed.

#[global] Instance charged_preorder w : PreOrder (charged w).
Proof.
  split.
  - intros st. exists []. rewrite app_nil_r. split; [done|]. intros phone.
    unfold lookups_by. simpl. lia.
  - intros s1 s2 s3 (evs1 & Ht1 & H1) (evs2 & Ht2 & H2).
    exists (evs1 ++ evs2)%list. split; [by rewrite Ht2, Ht1, app_assoc|].
    intros phone. rewrite lookups_by_app.
    specialize (H1 phone). specialize (H2 phone). lia.
Qed.

Lemma quiet_charged w st st' :
  quiet (fun ev => is_lookup ev = false) st st' -> charged w st st'.
Proof.
  intros Hq. destruct (quiet_no_lookups _ _ Hq) as (evs & Htr & Hnone & Hl).
  exists evs. split; [done|]. intros phone. rewrite Hnone, Hl. simpl. lia.
Qed.

(** A pass of the loop body that ends without an exception other than an
    [Exception] has charged its lookups. *)
Lemma process_batch_charged w total i batch processed_count st :
  contained (fst (process_batch w total i batch processed_count st)) ->
  charged w st (snd (process_batch w total i batch processed_count st)).
Proof.
  unfold process_batch.
  rewrite (bind_ok _ _ st tt (snd (emit (EvBatchStart i total) st))) by reflexivity.
  assert (H0 : charged w st (snd (emit (EvBatchStart i total) st))).
  { apply quiet_charged. by apply (emit_quiet _ (EvBatchStart i total)). }
  set (st0 := snd (emit (EvBatchStart i total) st)) in *.
  pose proof (get_next_account_quiet (fun ev => is_lookup ev = false) w
                (Z.of_nat (length batch)) st0) as Hq0.
  destruct (get_next_account w (Z.of_nat (length batch)) st0) as [[[a|]|e] sa] eqn:Hg;
    simpl in Hq0; apply (quiet_charged w) in Hq0.
  2: { rewrite (bind_ok _ _ _ _ _ Hg). intros _. simpl. by etrans. }
  2: { rewrite (bind_raise _ _ _ _ _ Hg). intros _. simpl. by etrans. }
  rewrite (bind_ok _ _ _ _ _ Hg).
  pose proof (get_client_quiet (fun ev => is_lookup ev = false) w a eq_refl sa) as Hq1.
  destruct (get_client w a sa) as [[c|e] sc] eqn:Hc; simpl in Hq1;
    apply (quiet_charged w) in Hq1.
  2: { rewrite (bind_raise _ _ _ _ _ Hc). intros _. simpl. by etrans; [|etrans]. }
  apply get_client_returns in Hc as Hname. subst c.
  rewrite (bind_ok _ _ _ _ _ Hc).
  rewrite (bind_ok _ _ sc sc sc) by reflexivity.
  destruct (pause_bounds (accounts (am sc)) a) as [pause_min pause_max].
  pose proof (validate_users_quiet (fun _ => True) w (phone_number a) batch
                pause_min pause_max (fun _ => I) I sc) as Hq2.
  destruct (validate_users w (phone_number a) batch pause_min pause_max sc)
    as [[results|e] sv] eqn:Hv; simpl in Hq2.
  2: { rewrite (bind_raise _ _ _ _ _ Hv). simpl. intros He.
       apply validate_loop_raises in Hv. congruence. }
  rewrite (bind_ok _ _ _ _ _ Hv). intros _.
  destruct (validate_users_lookups _ _ _ _ _ _ _ _ Hv) as (evs & Htr & Hlk & Hlen).
  pose proof (quiet_account_limits _ _ _ Hq2) as Hl.
  assert (Hcm : exists p' s2,
             commit_results w a batch results processed_count sv = (Ok p', s2)
             /\ charged w sc s2).
  { destruct results as [|item results].
    - exists processed_count, sv. split; [done|].
      exists evs. split; [done|]. intros phone. rewrite Hlk, Hl.
      destruct (String.eqb _ _); simpl; lia.
    - destruct (commit_results_spec w a batch (item :: results) processed_count sv)
        as (out & lim & Hcm & _); [done|].
      eexists _, _. split; [exact Hcm|].
      exists evs. split; [done|]. intros phone. simpl.
      rewrite Hlk, used_on_incremented, Hl.
      destruct (String.eqb (phone_number a) phone) eqn:Heq.
      + apply String.eqb_eq in Heq. rewrite decide_True by done. lia.
      + destruct (decide _); simpl; lia. }
  destruct Hcm as (p' & s2 & Hcm & H2).
  rewrite (bind_ok _ _ _ _ _ Hcm), batch_pause_step. simpl.
  etrans; [exact H0|]. etrans; [exact Hq0|]. etrans; [exact Hq1|]. etrans; [exact H2|].
  destruct (i <? total)%nat; [|reflexivity].
  apply quiet_charged. by apply (emit_quiet _ (EvBatchPause _)).
Qed.

Lemma main_loop_charged w total batches : forall i processed_count st,
  contained (fst (main_loop w total i batches processed_count st)) ->
  charged w st (snd (main_loop w total i batches processed_count st)).
Proof.
  induction batches as [|batch rest IH]; intros i processed_count st; simpl.
  - reflexivity.
  - unfold bind at 1 2.
    pose proof (process_batch_charged w total i batch processed_count st) as H1.
    destruct (process_batch w total i batch processed_count st) as [[[p'|]|e] s1];
      simpl in *.
    + intros Hr. etrans; [by apply H1|]. by apply IH.
    + intros _. by apply H1.
    + exact H1.
Qed.

Lemma disconnect_each_ok w phones : forall st,
  fst (disconnect_each w phones st) = Ok tt.
Proof.
  induction phones as [|phone phones IH]; intros st; simpl; [done|].
  unfold bind, get_state.
  destruct (is_connected w (trace st) phone); simpl; apply IH.
Qed.

Lemma disconnect_all_ok w st : fst (disconnect_all w st) = Ok tt.
Proof. unfold disconnect_all, bind, get_state. apply disconnect_each_ok. Qed.

(** The result of [main] and its state, from those of the loop. *)
Lemma main_cases w batch rest st r s1 :
  main_loop w (length (batch :: rest)) 1 (batch :: rest) 0 st = (r, s1) ->
  main w (batch :: rest) st
  = (match r with
     | Ok _ => Ok tt
     | Raise e => if is_Exception e then Ok tt else Raise e
     end,
     snd (disconnect_all w s1)).
Proof.
  intros Hloop. unfold main, try_finally, try_except.
  pose proof (disconnect_all_ok w s1) as Hd.
  destruct r as [p|e].
  - rewrite (bind_ok _ _ _ _ _ Hloop). unfold ret at 1. unfold bind.
    destruct (disconnect_all w s1) as [[[]|e] s2]; simpl in *; done.
  - rewrite (bind_raise _ _ _ _ _ Hloop).
    destruct (is_Exception e); unfold ret, raise, bind;
      destruct (disconnect_all w s1) as [[[]|e'] s2]; simpl in *; done.
Qed.

(** X2. In a run that ends normally, the number of lookups made through an
    account is at most the amount by which the account's count for today
    grew over the run: every lookup is charged. *)
Theorem X2_lookups_charged (w : World) (batches : list (list string)) (st : state)
  (phone : string) :
  fst (main w batches st) = Ok tt ->
  Z.of_nat (lookups_by phone (events_since st (snd (main w batches st))))
  <= used_on (account_limits (am (snd (main w batches st)))) phone (today w)
     - used_on (account_limits (am st)) phone (today w).
Proof.
  intros Hok.
  assert (Hch : charged w st (snd (main w batches st))).
  { destruct batches as [|batch rest]; [reflexivity|].
    pose proof (main_loop_charged w (length (batch :: rest)) (batch :: rest) 1%nat 0%nat st)
      as Hloop.
    destruct (main_loop w (length (batch :: rest)) 1 (batch :: rest) 0 st) as [r s1] eqn:Hrun.
    rewrite (main_cases _ _ _ _ _ _ Hrun) in Hok |- *. simpl in Hok, Hloop |- *.
    etrans.
    - apply Hloop. destruct r as [p|e]; [done|]. simpl. by destruct (is_Exception e).
    - apply quiet_charged. by apply disconnect_all_quiet. }
  destruct Hch as (evs & Htr & Hle).
  unfold events_since. rewrite Htr, drop_app_length. apply Hle.
Qed.

Lemma X2_lookups_charged_witness :
  Z.of_nat
    (lookups_by "+7000000001"
       (events_since (start_state calm one_account None NoFile)
          (snd (main calm [five_numbers] (start_state calm one_account None NoFile)))))
  <= used_on
       (account_limits
          (am (snd (main calm [five_numbers] (start_state calm one_account None NoFile)))))
       "+7000000001" (today calm)
     - used_on (account_limits (am (start_state calm one_account None NoFile)))
         "+7000000001" (today calm).
Proof.
  apply (X2_lookups_charged calm [five_numbers]
           (start_state calm one_account None NoFile) "+7000000001").
  vm_compute. reflexivity.
Defined.

(** ** The file of limits *)

Lemma load_dated today f : dated today (load_account_limits today f).
Proof.
  intros phone rec. destruct f as [| |data]; simpl; try by rewrite lookup_empty.
  rewrite lookup_fmap. destruct (data !! phone) as [rec0|]; [|done].
  simpl. intros [= <-].
  destruct (decide (is_Some (rec0 !! today))) as [H|_]; [done|].
  rewrite lookup_singleton_eq. by eexists.
Qed.

Lemma load_of_dated today limits :
  dated today limits -> load_account_limits today (Stored limits) = limits.
Proof.
  intros Hd. apply map_eq. intros phone. simpl. rewrite lookup_fmap.
  destruct (limits !! phone) as [rec|] eqn:Hrec; [|done].
  simpl. by rewrite decide_True by eauto.
Qed.

Lemma incremented_dated limits phone date count :
  dated date limits -> dated date (incremented limits phone date count).
Proof.
  intros Hd phone' rec. rewrite incremented_eq.
  destruct (decide (phone = phone')) as [<-|Hne].
  - rewrite lookup_insert_eq. intros [= <-]. rewrite lookup_insert_eq. by eexists.
  - rewrite lookup_insert_ne by done. apply Hd.
Qed.

(** Today's count of an account, read through a load. *)
Lemma used_on_load today data phone :
  used_on (load_account_limits today (Stored data)) phone today = used_on data phone today.
Proof.
  unfold used_on. simpl. rewrite lookup_fmap.
  destruct (data !! phone) as [rec|]; [|done]. simpl.
  destruct (decide (is_Some (rec !! today))) as [_|Hnone]; [done|].
  apply eq_None_not_Some in Hnone. by rewrite lookup_singleton_eq, Hnone.
Qed.

Lemma save_account_limits_eq w limits st :
  save_account_limits w limits st
  = (Ok tt,
     if limits_write_ok w (trace st) then set_limits_json (Stored limits) st else st).
Proof.
  unfold save_account_limits, bind, get_state, put_state, ret.
  by destruct (limits_write_ok w (trace st)).
Qed.

(** X3. What [save_account_limits] wrote, [load_account_limits] reads back on
    the same day: every account has the count for today it had in the dict
    that was saved, and if every record of that dict has an entry for today
    the dict read is the dict saved. *)
Theorem X3_save_load_round_trip (w : World) (limits : gmap string (gmap string Z))
  (st : state) :
  limits_write_ok w (trace st) = true ->
  let st' := snd (save_account_limits w limits st) in
  (forall phone,
     used_on (load_account_limits (today w) (limits_json st')) phone (today w)
     = used_on limits phone (today w))
  /\ (dated (today w) limits ->
      load_account_limits (today w) (limits_json st') = limits).
Proof.
  intros Hok st'. subst st'. rewrite save_account_limits_eq, Hok. simpl. split.
  - intros phone. apply used_on_load.
  - apply load_of_dated.
Qed.

Lemma X3_save_load_round_trip_witness :
  let st := start_state calm one_account None NoFile in
  let st' := snd (save_account_limits calm (limits_all 7) st) in
  (forall phone,
     used_on (load_account_limits (today calm) (limits_json st')) phone (today calm)
     = used_on (limits_all 7) phone (today calm))
  /\ (dated (today calm) (limits_all 7) ->
      load_account_limits (today calm) (limits_json st') = limits_all 7).
Proof.
  apply (X3_save_load_round_trip calm (limits_all 7)
           (start_state calm one_account None NoFile)).
  reflexivity.
Defined.

(** ** A restart on the same day *)

#[global] Instance keeps_synced_preorder w : PreOrder (keeps_synced w).
Proof.
  split; [intros st H; exact H | intros s1 s2 s3 H1 H2 H; apply H2, H1, H].
Qed.

Lemma quiet_keeps_synced P w st st' : quiet P st st' -> keeps_synced w st st'.
Proof.
  intros Hq. unfold keeps_synced, synced.
  by rewrite (quiet_limits_json _ _ _ Hq), (quiet_account_limits _ _ _ Hq).
Qed.

Lemma synced_dated w st : synced w st -> dated (today w) (account_limits (am st)).
Proof. intros <-. apply load_dated. Qed.

Lemma increment_account_limit_synced w phone count st :
  limits_write_ok w (trace st) = true ->
  keeps_synced w st (snd (increment_account_limit w phone count st)).
Proof.
  intros Hok Hs. unfold increment_account_limit.
  rewrite (bind_ok _ _ st st st) by reflexivity.
  unfold bind at 1, put_state at 1. rewrite save_account_limits_eq. simpl.
  rewrite Hok. unfold synced. simpl.
  apply load_of_dated, incremented_dated. by apply synced_dated.
Qed.

Lemma commit_results_synced w account batch results processed_count st :
  limits_write_ok w (trace st) = true ->
  keeps_synced w st (snd (commit_results w account batch results processed_count st)).
Proof.
  intros Hok. destruct results as [|item results]; [reflexivity|].
  unfold commit_results.
  destruct (parse_and_save_results_spec w (item :: results) (phone_number account) st)
    as (f & Hsave & _).
  rewrite (bind_ok _ _ _ _ _ Hsave).
  pose proof (increment_account_limit_synced w (phone_number account)
                (Z.of_nat (length batch)) (set_output_csv f st) Hok) as Hinc.
  unfold bind.
  destruct (increment_account_limit _ _ _ _) as [[[]|e] s2]; simpl in *; exact Hinc.
Qed.

Section Restart.
Context (w : World) (Hwrite : forall tr, limits_write_ok w tr = true).

Lemma process_batch_synced total i batch processed_count :
  stable (keeps_synced w) (process_batch w total i batch processed_count).
Proof using Hwrite.
  intros st.
  destruct (process_batch_spec w total i batch processed_count st)
    as (st1 & Hq & Hcases).
  assert (H01 : keeps_synced w st st1).
  { etrans; [|exact (quiet_keeps_synced _ w _ _ Hq)].
    apply (quiet_keeps_synced (fun _ => True)), (emit_quiet _ _ I). }
  destruct Hcases as [->|[[e ->]|(a & results & p' & st2 & _ & Hcm & ->)]]; simpl;
    try done.
  pose proof (commit_results_synced w a batch results processed_count st1 (Hwrite _))
    as H12.
  rewrite Hcm in H12. simpl in H12.
  etrans; [exact H01|]. etrans; [exact H12|].
  destruct (i <? total)%nat; [|reflexivity].
  apply (quiet_keeps_synced (fun _ => True)), (emit_quiet _ _ I).
Qed.

Lemma main_loop_synced total batches : forall i processed_count,
  stable (keeps_synced w) (main_loop w total i batches processed_count).
Proof using Hwrite.
  induction batches as [|batch rest IH]; intros i processed_count; simpl.
  - apply stable_ret, _.
  - apply stable_bind; [apply _ | apply process_batch_synced | intros [p'|]].
    + apply IH.
    + apply stable_ret, _.
Qed.

Lemma main_synced batches : stable (keeps_synced w) (main w batches).
Proof using Hwrite.
  unfold main. destruct batches as [|batch rest]; [apply stable_ret, _|].
  apply stable_try_finally; [apply _ | |].
  - apply stable_try_except; [apply _ | |].
    + apply stable_bind; [apply _ | apply main_loop_synced | intros _].
      apply stable_ret, _.
    + intros e. destruct (is_Exception e); [apply stable_ret | apply stable_raise]; apply _.
  - apply (stable_weaken (quiet (fun _ => True))); [apply quiet_keeps_synced|].
    by apply disconnect_all_quiet.
Qed.

End Restart.

(** X4. If every write of the file of limits succeeds, a manager built on the
    same day from the file a run leaves behind holds the very counts the
    manager of the run ended with, whatever configuration it is built with
    and however the run ended. *)
Theorem X4_restart_resumes_counts (w : World) (cfg cfg' : yaml_config)
  (batches : list (list string)) (out : option (list row)) (lim : limits_file) :
  (forall tr, limits_write_ok w tr = true) ->
  let st' := snd (run w cfg batches out lim) in
  account_limits (new_AccountManager w cfg' (limits_json st')) = account_limits (am st').
Proof.
  intros Hwrite st'. subst st'. unfold run.
  apply (main_synced w Hwrite batches (start_state w cfg out lim)).
  reflexivity.
Qed.

Lemma X4_restart_resumes_counts_witness :
  let st' := snd (run calm three_accounts [five_numbers; five_numbers] None NoFile) in
  account_limits (new_AccountManager calm one_account (limits_json st'))
  = account_limits (am st').
Proof.
  apply (X4_restart_resumes_counts calm three_accounts one_account
           [five_numbers; five_numbers] None NoFile).
  reflexivity.
Defined.

(** ** When the accounts are used up *)

Lemma process_batch_exhausted w total i batch processed_count st :
  (forall a, a ∈ accounts (am st) -> ~ eligible w (Z.of_nat (length batch)) st a) ->
  process_batch w total i batch processed_count st
  = (Ok None, snd (emit (EvBatchStart i total) st)).
Proof.
  intros Hnone. unfold process_batch.
  rewrite (bind_ok _ _ st tt (snd (emit (EvBatchStart i total) st))) by reflexivity.
  set (st0 := snd (emit (EvBatchStart i total) st)).
  destruct (get_next_account_spec w (Z.of_nat (length batch)) st0)
    as [[Hg _]|(k & a & _ & Ha & He & _)].
  - by rewrite (bind_ok _ _ _ _ _ Hg).
  - exfalso. apply (Hnone a); [|exact He].
    unfold candidate in Ha. by eapply list_elem_of_lookup_2.
Qed.

(** X5. A batch for which no account has quota left ends the loop: nothing
    but the start of that batch is recorded, the state is otherwise as it
    was, and the batches after it are not tried, whatever their sizes. *)
Theorem X5_exhaustion_ends_loop (w : World) (total i : nat) (batch : list string)
  (rest : list (list string)) (processed_count : nat) (st : state) :
  (forall a, a ∈ accounts (am st) -> ~ eligible w (Z.of_nat (length batch)) st a) ->
  main_loop w total i (batch :: rest) processed_count st
  = (Ok processed_count, snd (emit (EvBatchStart i total) st)).
Proof.
  intros Hnone.
  change (main_loop w total i (batch :: rest) processed_count st)
    with (bind (process_batch w total i batch processed_count)
            (fun r => match r with
                      | None => ret processed_count
                      | Some p' => main_loop w total (S i) rest p'
                      end) st).
  by rewrite (bind_ok _ _ _ _ _ (process_batch_exhausted _ _ _ _ _ _ Hnone)).
Qed.

Lemma X5_exhaustion_ends_loop_witness :
  main_loop calm 2 1 [five_numbers; ["+1555000106"]] 0
    (start_state calm one_account None (Stored (limits_all 48)))
  = (Ok 0%nat,
     snd (emit (EvBatchStart 1 2)
            (start_state calm one_account None (Stored (limits_all 48))))).
Proof.
  apply (X5_exhaustion_ends_loop calm 2 1 five_numbers [["+1555000106"]] 0
           (start_state calm one_account None (Stored (limits_all 48)))).
  intros a Ha. vm_compute in Ha.
  repeat (apply elem_of_cons in Ha as [->|Ha]; [vm_compute; intros H; apply H; reflexivity|]).
  by apply elem_of_nil in Ha.
Defined.

(** ** What can escape *)








(** ** Rotation over any number of accounts *)

Lemma selected_rotated st : selected st 0 = rotated 1 st.
Proof.
  unfold selected, rotated. do 2 f_equal.
  rewrite Nat.add_0_r. by rewrite Nat.Div0.add_mod_idemp_l.
Qed.

Lemma rotated_rotated m st :
  (0 < length (accounts (am st)))%nat -> rotated m (rotated 1 st) = rotated (S m) st.
Proof.
  intros Hn. destruct m as [|m]; [done|].
  unfold rotated. simpl. unfold set_am, set_current_account_index. simpl.
  do 2 f_equal. rewrite Nat.Div0.add_mod_idemp_l. f_equal. lia.
Qed.

Lemma next_accounts_rotation w batch_size m : forall st,
  (0 < length (accounts (am st)))%nat ->
  (forall a, a ∈ accounts (am st) -> eligible w batch_size st a) ->
  next_accounts w batch_size m st
  = (Ok (map (fun j => accounts (am st) !!
                         ((current_account_index (am st) + j)
                            mod length (accounts (am st)))%nat)
           (seq 0 m)),
     rotated m st).
Proof.
  induction m as [|m IH]; intros st Hn Hall; [done|].
  destruct (candidate_is_Some st 0 Hn) as [a Ha].
  assert (Hin : a ∈ accounts (am st)).
  { unfold candidate in Ha. by eapply list_elem_of_lookup_2. }
  pose proof (get_next_account_at_index w batch_size st a Ha (Hall a Hin)) as Hg.
  cbn [next_accounts]. rewrite (bind_ok _ _ _ _ _ Hg).
  rewrite selected_rotated.
  assert (Hn1 : (0 < length (accounts (am (rotated 1 st))))%nat) by done.
  assert (Hall1 : forall b, b ∈ accounts (am (rotated 1 st)) ->
                    eligible w batch_size (rotated 1 st) b) by exact Hall.
  rewrite (bind_ok _ _ _ _ _ (IH (rotated 1 st) Hn1 Hall1)).
  unfold ret. rewrite (rotated_rotated m st Hn). f_equal. f_equal.
  cbn [seq map]. f_equal.
  - unfold candidate in Ha. by rewrite Ha.
  - rewrite <- seq_shift, map_map. apply map_ext. intros j.
    cbn [rotated am set_am accounts current_account_index set_current_account_index].
    f_equal. rewrite Nat.Div0.add_mod_idemp_l. f_equal. lia.
Qed.

Lemma rotation_lookups {A} (l : list A) (c : nat) :
  map (fun j => l !! ((c + j) mod length l)%nat) (seq 0 (length l))
  = map Some (rotate c l).
Proof.
  apply list_eq. intros i. rewrite !list_lookup_fmap.
  destruct (decide (i < length l)%nat) as [Hi|Hi].
  - rewrite lookup_seq_lt by done. simpl.
    rewrite lookup_rotate_r by done. unfold rotate_nat_add.
    rewrite <- Nat2Z.inj_add, <- Nat2Z.inj_mod, Nat2Z.id.
    destruct (l !! ((c + i) mod length l)%nat) eqn:Hl; [done|].
    exfalso. apply lookup_ge_None in Hl.
    pose proof (Nat.mod_upper_bound (c + i) (length l) ltac:(lia)). lia.
  - rewrite lookup_seq_ge by lia. simpl.
    rewrite lookup_ge_None_2; [done|]. rewrite length_rotate. lia.
Qed.

(** X7. While every account has quota left for the batch size, successive
    calls of [get_next_account] go round the list of accounts in its order
    from the rotation index, for any number of accounts: call [j] (from 0)
    returns the account at position [(index + j) mod n], the index ends
    [m] places on after [m] calls, and [n] calls in a row return every
    account of the list once. *)
Theorem X7_rotation_any_number (w : World) (batch_size : Z) (m : nat) (st : state) :
  accounts (am st) <> [] ->
  (forall a, a ∈ accounts (am st) -> eligible w batch_size st a) ->
  next_accounts w batch_size m st
  = (Ok (map (fun j => accounts (am st) !!
                         ((current_account_index (am st) + j)
                            mod length (accounts (am st)))%nat)
           (seq 0 m)),
     rotated m st)
  /\ fst (next_accounts w batch_size (length (accounts (am st))) st)
     = Ok (map Some (rotate (current_account_index (am st)) (accounts (am st))))
  /\ rotate (current_account_index (am st)) (accounts (am st)) ≡ₚ accounts (am st).
Proof.
  intros Hne Hall.
  assert (Hn : (0 < length (accounts (am st)))%nat).
  { destruct (accounts (am st)); [done | simpl; lia]. }
  split; [by apply next_accounts_rotation|]. split.
  - rewrite next_accounts_rotation by done. simpl. by rewrite rotation_lookups.
  - unfold rotate. rewrite Permutation_app_comm. by rewrite take_drop.
Qed.

Lemma X7_rotation_any_number_witness :
  fst (next_accounts calm 10 5 (start_state calm three_accounts None NoFile))
  = Ok [Some acc_A; Some acc_B; Some acc_C; Some acc_A; Some acc_B]
  /\ current_account_index
       (am (snd (next_accounts calm 10 5 (start_state calm three_accounts None NoFile))))
     = 2%nat.
Proof.
  destruct (X7_rotation_any_number calm 10 5
              (start_state calm three_accounts None NoFile)) as [Hrun _].
  - discriminate.
  - intros a Ha. vm_compute in Ha.
    repeat (apply elem_of_cons in Ha as [->|Ha]; [vm_compute; discriminate|]).
    by apply elem_of_nil in Ha.
  - rewrite Hrun. split; reflexivity.
Defined.

(** ** The shape of the output file *)

Lemma result_row_length checked_by item :
  length (result_row checked_by item) = length HEADER.
Proof. by destruct item as [phone [u s|e]]. Qed.

Lemma output_grows_rectangular f f' :
  output_grows f f' -> rectangular f -> rectangular f'.
Proof.
  intros (hdr & rows & E & Hh & Hrows) Hf. unfold rectangular. rewrite E.
  apply Forall_app. split; [done|]. apply Forall_app. split.
  - destruct Hh as [->|[-> _]]; [done|]. by constructor.
  - eapply Forall_impl; [exact Hrows|].
    intros r (checked_by & item & ->). apply result_row_length.
Qed.

(** X8. Every row a run writes has as many cells as the header, 19: an
    output file that has 19 cells in every row before a run has 19 cells in
    every row after it, however the run ends and whichever writes fail. *)
Theorem X8_output_stays_rectangular (w : World) (batches : list (list string))
  (st : state) :
  rectangular (output_csv st) ->
  length HEADER = 19%nat /\ rectangular (output_csv (snd (main w batches st))).
Proof.
  intros Hf. split; [reflexivity|].
  eapply output_grows_rectangular; [|exact Hf].
  apply (committing_output _ _ (main_committing w batches st)).
Qed.

Lemma X8_output_stays_rectangular_witness :
  length HEADER = 19%nat
  /\ rectangular
       (output_csv
          (snd (main calm [five_numbers] (start_state calm one_account None NoFile)))).
Proof.
  apply (X8_output_stays_rectangular calm [five_numbers]
           (start_state calm one_account None NoFile)).
  constructor.
Defined.

(** ** A number with and without its plus sign *)

(** X9. The entries of a batch are compared without the plus sign that the
    lookup adds: a number written once without and once with a leading plus
    sign counts as two numbers, and the same number is looked up twice, with
    a pause in between, and gives two results. *)
Theorem X9_plus_sign_not_normalized (w : World) (client phone : string)
  (pause_min pause_max : Z) (st st' : state) (results : list (string * user_data)) :
  strip_whitespace phone = phone -> phone <> "" -> with_plus phone = "+" ++ phone ->
  validate_users w client [phone; "+" ++ phone] pause_min pause_max st = (Ok results, st') ->
  events_since st st'
  = [EvLookup client ("+" ++ phone); EvRequestPause pause_min pause_max;
     EvLookup client ("+" ++ phone)]
  /\ length results = 2%nat.
Proof.
  intros Hclean Hne Hplus Hrun.
  assert (Hdiff : phone <> "+" ++ phone).
  { intros Heq. apply (f_equal String.length) in Heq.
    change (String.length phone = S (String.length phone)) in Heq. lia. }
  assert (Htrace : trace st'
                   = (trace st
                      ++ [EvLookup client ("+" ++ phone); EvRequestPause pause_min pause_max;
                          EvLookup client ("+" ++ phone)])%list).
  { unfold validate_users in Hrun.
    apply validate_loop_interleave in Hrun.
    - rewrite Hrun. cbn [map interleave].
      change (strip_whitespace ("+" ++ phone)) with ("+" ++ strip_whitespace phone).
      rewrite Hclean, Hplus. reflexivity.
    - done.
    - cbn [map].
      change (strip_whitespace ("+" ++ phone)) with ("+" ++ strip_whitespace phone).
      rewrite Hclean. apply NoDup_cons. split; [|apply NoDup_singleton].
      intros Hin. by apply list_elem_of_singleton in Hin.
    - constructor; [by rewrite Hclean|]. constructor; [discriminate|constructor].
    - intros p _. apply not_elem_of_nil. }
  split.
  - unfold events_since. by rewrite Htrace, drop_app_length.
  - destruct (validate_loop_keys _ _ _ _ _ _ _ _ _ _ _ Hrun (NoDup_nil_2))
      as (newkeys & evs & Hkeys & _ & _ & Htr & Hlk).
    rewrite Htr in Htrace. apply app_inv_head in Htrace. subst evs.
    rewrite <- (length_map fst results), Hkeys. cbn [map app].
    apply (f_equal length) in Hlk. rewrite length_map in Hlk. by rewrite <- Hlk.
Qed.

Lemma X9_plus_sign_not_normalized_witness :
  events_since (start_state calm one_account None NoFile)
    (snd (validate_users calm "+7000000001" ["1555000101"; "+1555000101"] 120 180
            (start_state calm one_account None NoFile)))
  = [EvLookup "+7000000001" "+1555000101"; EvRequestPause 120 180;
     EvLookup "+7000000001" "+1555000101"]
  /\ length [("1555000101", Profile sample_user "Last seen recently");
             ("+1555000101", Profile sample_user "Last seen recently")] = 2%nat.
Proof.
  apply (X9_plus_sign_not_normalized calm "+7000000001" "1555000101" 120 180
           (start_state calm one_account None NoFile)
           (snd (validate_users calm "+7000000001" ["1555000101"; "+1555000101"] 120 180
                   (start_state calm one_account None NoFile)))
           [("1555000101", Profile sample_user "Last seen recently");
            ("+1555000101", Profile sample_user "Last seen recently")]).
  - reflexivity.
  - discriminate.
  - reflexivity.
  - vm_compute. reflexivity.
Defined.

(** ** One login for a session *)

Lemma logins_app evs1 evs2 : logins (evs1 ++ evs2) = (logins evs1 ++ logins evs2)%list.
Proof. apply omap_app. Qed.

#[global] Instance sessions_kept_preorder : PreOrder sessions_kept.
Proof.
  split.
  - intros st. split; [done|]. exists []. by rewrite app_nil_r.
  - intros s1 s2 s3 (Hc1 & evs1 & Ht1 & Hl1) (Hc2 & evs2 & Ht2 & Hl2).
    split; [congruence|]. exists (evs1 ++ evs2)%list.
    split; [by rewrite Ht2, Ht1, app_assoc|]. by rewrite logins_app, Hl1, Hl2.
Qed.

#[global] Instance logins_cached_preorder : PreOrder logins_cached.
Proof.
  split.
  - intros st. split; [done|]. exists []. rewrite app_nil_r.
    split; [done|]. split; [constructor|]. intros phone H. by apply elem_of_nil in H.
  - intros s1 s2 s3 (Hc1 & evs1 & Ht1 & Hn1 & Hl1) (Hc2 & evs2 & Ht2 & Hn2 & Hl2).
    split; [by etrans|]. exists (evs1 ++ evs2)%list.
    split; [by rewrite Ht2, Ht1, app_assoc|]. rewrite logins_app. split.
    + apply NoDup_app. split; [done|]. split; [|done].
      intros phone H1 H2. apply Hl1 in H1 as [_ H1]. apply Hl2 in H2 as [H2 _]. done.
    + intros phone [H|H]%elem_of_app.
      * apply Hl1 in H as [Ha Hb]. split; [done|]. by apply Hc2.
      * apply Hl2 in H as [Ha Hb]. split; [|done]. intros Hin. by apply Ha, Hc1.
Qed.

Lemma sessions_kept_cached st st' : sessions_kept st st' -> logins_cached st st'.
Proof.
  intros (Hc & evs & Ht & Hl). split; [by rewrite Hc|]. exists evs.
  split; [done|]. rewrite Hl. split; [constructor|].
  intros phone H. by apply elem_of_nil in H.
Qed.

Lemma logins_cached_fresh st st' : logins_cached st st' -> logins_fresh st st'.
Proof.
  intros (_ & evs & Ht & Hn & Hl). exists evs. split; [done|]. split; [done|].
  intros phone H. by apply Hl in H as [? _].
Qed.

Lemma logins_cached_then_fresh s1 s2 s3 :
  logins_cached s1 s2 -> logins_fresh s2 s3 -> logins_fresh s1 s3.
Proof.
  intros (Hc1 & evs1 & Ht1 & Hn1 & Hl1) (evs2 & Ht2 & Hn2 & Hl2).
  exists (evs1 ++ evs2)%list.
  split; [by rewrite Ht2, Ht1, app_assoc|]. rewrite logins_app. split.
  - apply NoDup_app. split; [done|]. split; [|done].
    intros phone H1 H2. apply Hl1 in H1 as [_ H1]. apply Hl2 in H2. done.
  - intros phone [H|H]%elem_of_app.
    + by apply Hl1 in H as [? _].
    + apply Hl2 in H. intros Hin. by apply H, Hc1.
Qed.

Lemma emit_sessions_kept ev : login_of ev = None -> stable sessions_kept (emit ev).
Proof.
  intros Hev st. split; [done|]. exists [ev]. split; [done|].
  unfold logins. simpl. by rewrite Hev.
Qed.

Lemma get_next_account_sessions_kept w batch_size :
  stable sessions_kept (get_next_account w batch_size).
Proof.
  intros st.
  destruct (get_next_account_spec w batch_size st)
    as [[-> _]|(k & a & _ & _ & _ & _ & ->)]; simpl; [reflexivity|].
  split; [done|]. exists []. by rewrite app_nil_r.
Qed.

Lemma get_names_sessions_kept w client phone :
  stable sessions_kept (get_names w client phone).
Proof. intros st. rewrite get_names_state. by apply emit_sessions_kept. Qed.

Lemma validate_loop_sessions_kept w client pause_min pause_max len phones :
  forall i result,
    stable sessions_kept (validate_loop w client pause_min pause_max len i phones result).
Proof.
  induction phones as [|phone rest IH]; intros i result; simpl.
  - apply stable_ret, _.
  - destruct (_ && _); [|apply IH].
    apply stable_bind; [apply _ | apply get_names_sessions_kept | intros data].
    apply stable_bind; [apply _ | | intros _; apply IH].
    destruct (i <? len)%nat; [by apply emit_sessions_kept | apply stable_ret, _].
Qed.

Lemma commit_results_sessions_kept w account batch results processed_count :
  stable sessions_kept (commit_results w account batch results processed_count).
Proof.
  intros st. destruct results as [|item results]; [reflexivity|].
  destruct (commit_results_spec w account batch (item :: results) processed_count st)
    as (out & lim & -> & _); [done|].
  simpl. split; [done|]. exists []. by rewrite app_nil_r.
Qed.

Lemma disconnect_each_sessions_kept w phones :
  stable sessions_kept (disconnect_each w phones).
Proof.
  induction phones as [|phone phones IH]; simpl.
  - apply stable_ret, _.
  - apply stable_bind; [apply _ | apply stable_get_state, _ | intros st].
    apply stable_bind; [apply _ | | intros _; apply IH].
    destruct (is_connected w (trace st) phone);
      [by apply emit_sessions_kept | apply stable_ret, _].
Qed.

Lemma disconnect_all_sessions_kept w : stable sessions_kept (disconnect_all w).
Proof.
  unfold disconnect_all.
  apply stable_bind; [apply _ | apply stable_get_state, _ | intros st].
  apply disconnect_each_sessions_kept.
Qed.

(** What [get_client] does: a cached session that is connected is returned
    as it is; otherwise the account logs in, and the session is cached if the
    login succeeds. *)
Lemma get_client_eq w account st :
  get_client w account st
  = if bool_decide (phone_number account ∈ clients (am st))
       && is_connected w (trace st) (phone_number account)
    then (Ok (phone_number account), st)
    else
      let st1 := snd (emit (EvLogin (phone_number account)) st) in
      match login_error w (trace st1) (phone_number account) with
      | Some e => (Raise e, st1)
      | None =>
          (Ok (phone_number account),
           set_am (set_clients ({[ phone_number account ]} ∪ clients (am st1)) (am st1)) st1)
      end.
Proof.
  unfold get_client. unfold bind at 1. unfold get_state at 1.
  destruct (_ && _); [done|].
  unfold login_account, bind, emit, get_state, put_state, ret, raise. simpl.
  by destruct (login_error w _ (phone_number account)).
Qed.

Section Connected.
Context (w : World) (Hconn : forall tr phone, is_connected w tr phone = true).

(** With the connections up, [get_client] logs in only an account without a
    cached session, and caches the session of a login that succeeds. *)
Lemma get_client_logins account st :
  match fst (get_client w account st) with
  | Ok _ => logins_cached st (snd (get_client w account st))
  | Raise _ => logins_fresh st (snd (get_client w account st))
  end.
Proof using Hconn.
  rewrite get_client_eq, Hconn, andb_true_r.
  destruct (bool_decide (phone_number account ∈ clients (am st))) eqn:Hin.
  - simpl. reflexivity.
  - apply bool_decide_eq_false in Hin. cbv zeta.
    destruct (login_error _ _ _); simpl.
    + exists [EvLogin (phone_number account)]. split; [done|].
      split; [apply NoDup_singleton|].
      intros phone H. apply list_elem_of_singleton in H. by subst.
    + split; [apply union_subseteq_r|].
      exists [EvLogin (phone_number account)]. split; [done|].
      split; [apply NoDup_singleton|].
      intros phone H. apply list_elem_of_singleton in H. subst. split; [done|].
      apply elem_of_union_l. by apply elem_of_singleton.
Qed.

Lemma process_batch_logins total i batch processed_count st :
  match fst (process_batch w total i batch processed_count st) with
  | Ok _ => logins_cached st (snd (process_batch w total i batch processed_count st))
  | Raise _ => logins_fresh st (snd (process_batch w total i batch processed_count st))
  end.
Proof using Hconn.
  unfold process_batch.
  rewrite (bind_ok _ _ st tt (snd (emit (EvBatchStart i total) st))) by reflexivity.
  assert (H0 : logins_cached st (snd (emit (EvBatchStart i total) st))).
  { by apply sessions_kept_cached, (emit_sessions_kept (EvBatchStart i total)). }
  set (st0 := snd (emit (EvBatchStart i total) st)) in *.
  pose proof (get_next_account_sessions_kept w (Z.of_nat (length batch)) st0) as Hq0.
  apply sessions_kept_cached in Hq0.
  destruct (get_next_account w (Z.of_nat (length batch)) st0) as [[[a|]|e] sa] eqn:Hg;
    simpl in Hq0.
  2: { rewrite (bind_ok _ _ _ _ _ Hg). simpl. by etrans. }
  2: { rewrite (bind_raise _ _ _ _ _ Hg). simpl.
       apply logins_cached_fresh. by etrans. }
  rewrite (bind_ok _ _ _ _ _ Hg).
  pose proof (get_client_logins a sa) as Hq1.
  destruct (get_client w a sa) as [[c|e] sc] eqn:Hc; simpl in Hq1.
  2: { rewrite (bind_raise _ _ _ _ _ Hc). simpl.
       eapply logins_cached_then_fresh; [|exact Hq1]. by etrans. }
  rewrite (bind_ok _ _ _ _ _ Hc).
  rewrite (bind_ok _ _ sc sc sc) by reflexivity.
  destruct (pause_bounds (accounts (am sc)) a) as [pause_min pause_max].
  pose proof (validate_loop_sessions_kept w c pause_min pause_max (length batch) batch
                1 [] sc) as Hq2.
  apply sessions_kept_cached in Hq2.
  fold (validate_users w c batch pause_min pause_max) in Hq2.
  assert (H02 : logins_cached st (snd (validate_users w c batch pause_min pause_max sc))).
  { etrans; [exact H0|]. etrans; [exact Hq0|]. etrans; [exact Hq1|]. exact Hq2. }
  destruct (validate_users w c batch pause_min pause_max sc) as [[results|e] sv] eqn:Hv;
    simpl in H02.
  2: { rewrite (bind_raise _ _ _ _ _ Hv). simpl. by apply logins_cached_fresh. }
  rewrite (bind_ok _ _ _ _ _ Hv).
  pose proof (commit_results_sessions_kept w a batch results processed_count sv) as Hq3.
  apply sessions_kept_cached in Hq3.
  destruct (commit_results_ok w a batch results processed_count sv) as (p' & s2 & Hcm).
  rewrite Hcm in Hq3. simpl in Hq3.
  rewrite (bind_ok _ _ _ _ _ Hcm), batch_pause_step. simpl.
  etrans; [exact H02|]. etrans; [exact Hq3|].
  destruct (i <? total)%nat; [|reflexivity].
  by apply sessions_kept_cached, (emit_sessions_kept (EvBatchPause _)).
Qed.

Lemma main_loop_logins total batches : forall i processed_count st,
  match fst (main_loop w total i batches processed_count st) with
  | Ok _ => logins_cached st (snd (main_loop w total i batches processed_count st))
  | Raise _ => logins_fresh st (snd (main_loop w total i batches processed_count st))
  end.
Proof using Hconn.
  induction batches as [|batch rest IH]; intros i processed_count st; simpl.
  - reflexivity.
  - unfold bind.
    pose proof (process_batch_logins total i batch processed_count st) as H1.
    destruct (process_batch w total i batch processed_count st) as [[[p'|]|e] s1];
      simpl in *.
    + specialize (IH (S i) p' s1).
      destruct (main_loop w total (S i) rest p' s1) as [[p''|e] s2]; simpl in *.
      * by etrans.
      * eapply logins_cached_then_fresh; [exact H1 | exact IH].
    + exact H1.
    + exact H1.
Qed.

Lemma main_logins batches st : logins_fresh st (snd (main w batches st)).
Proof using Hconn.
  destruct batches as [|batch rest].
  - apply logins_cached_fresh. reflexivity.
  - pose proof (main_loop_logins (length (batch :: rest)) (batch :: rest) 1%nat 0%nat st)
      as Hloop.
    destruct (main_loop w (length (batch :: rest)) 1 (batch :: rest) 0 st) as [r s1] eqn:Hrun.
    rewrite (main_cases _ _ _ _ _ _ Hrun). cbn [fst snd] in *.
    pose proof (sessions_kept_cached _ _ (disconnect_all_sessions_kept w s1)) as Hd.
    destruct r as [p|e].
    + apply logins_cached_fresh. by etrans.
    + destruct Hloop as (evs1 & Ht1 & Hn1 & Hl1).
      destruct (disconnect_all_sessions_kept w s1) as (_ & evs2 & Ht2 & Hl2).
      exists (evs1 ++ evs2)%list. split; [by rewrite Ht2, Ht1, app_assoc|].
      rewrite logins_app, Hl2, app_nil_r. split; [exact Hn1 | exact Hl1].
Qed.

End Connected.

(** X10. As long as the connections stay up, a run logs in only accounts
    that had no cached session when it started, and each of them at most
    once: the session of an account is reused by the later batches. *)
Theorem X10_one_login_per_account (w : World) (batches : list (list string)) (st : state) :
  (forall tr phone, is_connected w tr phone = true) ->
  NoDup (logins (events_since st (snd (main w batches st))))
  /\ forall phone,
       phone ∈ logins (events_since st (snd (main w batches st))) ->
       phone ∉ clients (am st).
Proof.
  intros Hconn.
  destruct (main_logins w Hconn batches st) as (evs & Ht & Hn & Hl).
  unfold events_since. by rewrite Ht, drop_app_length.
Qed.

Lemma X10_one_login_per_account_witness :
  NoDup (logins (events_since (start_state calm one_account None NoFile)
                   (snd (main calm [five_numbers; five_numbers]
                           (start_state calm one_account None NoFile)))))
  /\ logins (events_since (start_state calm one_account None NoFile)
               (snd (main calm [five_numbers; five_numbers]
                       (start_state calm one_account None NoFile))))
     = ["+7000000001"].
Proof.
  destruct (X10_one_login_per_account calm [five_numbers; five_numbers]
              (start_state calm one_account None NoFile)) as [Hn _].
  - reflexivity.
  - split; [exact Hn|]. vm_compute. reflexivity.
Defined.

(** ** Reading the input file *)

Lemma read_rows_concat batch_size rows : forall current_batch batches,
  concat (read_rows batch_size rows current_batch batches)
  = (concat batches ++ current_batch
     ++ flat_map
          (fun row =>
             match row with
             | cell :: _ => if String.eqb (py_strip cell) "" then [] else [py_strip cell]
             | [] => []
             end)
          rows)%list.
Proof.
  induction rows as [|row rest IH]; intros current_batch batches.
  - simpl. destruct current_batch as [|x xs].
    + by rewrite !app_nil_r.
    + by rewrite concat_app, app_nil_r; simpl; rewrite app_nil_r.
  - cbn [read_rows flat_map]. destruct row as [|cell cells]; [apply IH|].
    destruct (String.eqb (py_strip cell) ""); simpl; [apply IH|].
    destruct (_ <=? _)%Z.
    + rewrite IH, concat_app. simpl. by rewrite app_nil_r, <- !app_assoc.
    + rewrite IH. by rewrite <- !app_assoc.
Qed.

Lemma read_rows_nonempty batch_size rows : forall current_batch batches,
  Forall (fun b : list string => b <> []) batches ->
  Forall (fun b : list string => b <> [])
    (read_rows batch_size rows current_batch batches).
Proof.
  induction rows as [|row rest IH]; intros current_batch batches Hb.
  - simpl. destruct current_batch as [|x xs]; [done|].
    apply Forall_app. split; [done|]. by constructor.
  - cbn [read_rows]. destruct row as [|cell cells]; [by apply IH|].
    destruct (negb _); [|by apply IH].
    cbv zeta. destruct (_ <=? _)%Z; [|by apply IH].
    apply IH, Forall_app. split; [done|]. constructor; [|done].
    by destruct current_batch.
Qed.

(** X11. The batches [read_phone_numbers] returns are a cut of the numbers
    of the file in their order: joined together they are the first cell of
    the first row if it is a number, then the first cell of every later row
    where it is not blank, each stripped of the whitespace around it (and
    nothing at all if the first line is blank); no batch is empty. *)
Theorem X11_batches_are_the_numbers (rows : list (list string)) (batch_size : Z) :
  exists batches,
    read_phone_numbers (CsvRows rows) batch_size = Ok batches
    /\ concat batches = numbers_of rows
    /\ Forall (fun b : list string => b <> []) batches.
Proof.
  destruct rows as [|[|cell cells] rest]; simpl.
  - exists []. by repeat split.
  - exists []. by repeat split.
  - eexists. split; [reflexivity|]. split.
    + by rewrite read_rows_concat.
    + by apply read_rows_nonempty.
Qed.

Lemma read_rows_sizes batch_size rows : forall current_batch batches,
  Z.of_nat (length current_batch) < batch_size ->
  exists full tail,
    read_rows batch_size rows current_batch batches = (batches ++ full ++ tail)%list
    /\ Forall (fun b : list string => Z.of_nat (length b) = batch_size) full
    /\ (tail = []
        \/ exists b, tail = [b] /\ b <> [] /\ Z.of_nat (length b) < batch_size).
Proof.
  induction rows as [|row rest IH]; intros current_batch batches Hlt.
  - simpl. destruct current_batch as [|x xs].
    + exists [], []. rewrite !app_nil_r. split; [done|]. split; [done|]. by left.
    + exists [], [x :: xs]. split; [done|]. split; [done|]. right. by eexists.
  - cbn [read_rows]. destruct row as [|cell cells]; [by apply IH|].
    destruct (negb _); [|by apply IH].
    cbv zeta. destruct (Z.leb_spec batch_size
                          (Z.of_nat (length (current_batch ++ [py_strip cell])%list)))
      as [Hge|Hlt'].
    + rewrite length_app in Hge. simpl in Hge.
      destruct (IH [] (batches ++ [(current_batch ++ [py_strip cell])%list])%list)
        as (full & tail & -> & Hfull & Htail); [simpl; lia|].
      exists ((current_batch ++ [py_strip cell])%list :: full), tail.
      split; [by rewrite <- !app_assoc|]. split; [|done].
      constructor; [|done]. rewrite length_app. simpl. lia.
    + by apply IH.
Qed.

(** X12. For a batch size of 2 or more every batch but the last has exactly
    [batch_size] numbers, and the last has at least one and at most
    [batch_size]. *)
Theorem X12_batch_sizes (rows : list (list string)) (batch_size : Z)
  (batches : list (list string)) :
  2 <= batch_size ->
  read_phone_numbers (CsvRows rows) batch_size = Ok batches ->
  exists full tail,
    batches = (full ++ tail)%list
    /\ Forall (fun b : list string => Z.of_nat (length b) = batch_size) full
    /\ (tail = []
        \/ exists b, tail = [b] /\ b <> [] /\ Z.of_nat (length b) < batch_size).
Proof.
  intros Hsize Hread.
  destruct rows as [|[|cell cells] rest]; simpl in Hread.
  - injection Hread as <-. exists [], []. split; [done|]. split; [done|]. by left.
  - injection Hread as <-. exists [], []. split; [done|]. split; [done|]. by left.
  - injection Hread as <-.
    apply (read_rows_sizes batch_size rest _ []).
    destruct (py_isdigit _); simpl; lia.
Qed.

Lemma X12_batch_sizes_witness :
  exists full tail,
    [["+1555000101"; "+1555000102"]; ["+1555000103"]] = (full ++ tail)%list
    /\ Forall (fun b : list string => Z.of_nat (length b) = 2) full
    /\ (tail = []
        \/ exists b, tail = [b] /\ b <> [] /\ Z.of_nat (length b) < 2).
Proof.
  apply (X12_batch_sizes
           [["phone"]; [" +1555000101 "; "x"]; []; ["+1555000102"]; ["  "]; ["+1555000103"]]
           2 [["+1555000101"; "+1555000102"]; ["+1555000103"]]).
  - lia.
  - vm_compute. reflexivity.
Defined.

Lemma read_rows_batches batch_size rows : forall current_batch batches,
  read_rows batch_size rows current_batch batches
  = (batches ++ read_rows batch_size rows current_batch [])%list.
Proof.
  induction rows as [|row rest IH]; intros current_batch batches.
  - simpl. destruct current_batch; [by rewrite app_nil_r | done].
  - cbn [read_rows]. destruct row as [|cell cells]; [apply IH|].
    destruct (negb _); [|apply IH].
    cbv zeta. destruct (_ <=? _)%Z; [|apply IH].
    rewrite (IH [] (batches ++ [_])%list), (IH [] ([] ++ [_])%list).
    by rewrite <- app_assoc.
Qed.

(** X13. With a batch size of 1 or less and a first row that is a number,
    the first batch has two numbers as soon as a later row has one: the
    size of the batch is compared with [batch_size] only after a number of
    the loop was added, and the number of the first row is added before
    the loop. *)
Theorem X13_first_batch_of_two (cell cell' : string) (cells cells' : list string)
  (rest : list (list string)) (batch_size : Z) :
  batch_size <= 1 ->
  py_isdigit (remove_plus (py_strip cell)) = true ->
  py_strip cell' <> "" ->
  read_phone_numbers (CsvRows ((cell :: cells) :: (cell' :: cells') :: rest)) batch_size
  = Ok ([py_strip cell; py_strip cell'] :: read_rows batch_size rest [] []).
Proof.
  intros Hsize Hdigit Hcell. simpl. rewrite Hdigit.
  apply String.eqb_neq in Hcell. rewrite Hcell. simpl.
  destruct (Z.leb_spec batch_size (Z.of_nat 2)) as [_|Hgt]; [|lia].
  by rewrite (read_rows_batches _ _ [] [_]).
Qed.

Lemma X13_first_batch_of_two_witness :
  read_phone_numbers
    (CsvRows [["+1555000101"]; ["+1555000102"]; ["+1555000103"]]) 1
  = Ok [["+1555000101"; "+1555000102"]; ["+1555000103"]].
Proof.
  apply (X13_first_batch_of_two "+1555000101" "+1555000102" [] [] [["+1555000103"]] 1).
  - lia.
  - reflexivity.
  - discriminate.
Defined.

(** ** The window of batches *)

Lemma py_slice_all {A} (l : list A) : py_slice l 0 None = l.
Proof.
  unfold py_slice. simpl. rewrite Z.min_l by lia. simpl.
  rewrite Z.sub_0_r, Nat2Z.id. apply firstn_all.
Qed.

(** X14. The window [batches[batch_start:batch_end]] of [main]: with the
    defaults it is the whole list, and for every integer [k], negative or
    beyond the end as well, the window that ends at [k] followed by the
    window that starts at [k] is the whole list, so that two runs split at
    [k] process every batch once. *)
Theorem X14_windows_split (batches : list (list string)) (k : Z) :
  py_slice batches 0 None = batches
  /\ (py_slice batches 0 (Some k) ++ py_slice batches k None)%list = batches.
Proof.
  split; [apply py_slice_all|].
  unfold py_slice. simpl. rewrite (Z.min_l 0) by lia. simpl.
  set (n := Z.of_nat (length batches)).
  set (c := if (k <? 0)%Z then Z.max (k + n) 0 else Z.min k n).
  assert (Hc : 0 <= c <= n) by (subst c n; destruct (Z.ltb_spec k 0); lia).
  rewrite Z.sub_0_r.
  rewrite (take_ge (drop (Z.to_nat c) batches)).
  - apply take_drop.
  - rewrite length_drop. subst n. lia.
Qed.

(** ** Closing the sessions *)





(** ** The pauses of an account *)



(** ** What a lookup reports *)

(** X17. A lookup reports a profile exactly when the import of the contact
    returned one user and the answer to the deletion of that contact holds
    at least one user; the profile reported is that of the first user of
    that answer.  In every other case that does not escape, the lookup
    reports an error. *)
Theorem X17_profile_reported (w : World) (client phone : string) (st : state)
  (user : user) (status : string) :
  fst (get_names w client phone st) = Ok (Profile user status)
  <-> exists u others,
        import_contacts w (trace st ++ [EvLookup client (with_plus phone)]) client
          (with_plus phone) = Ok [u]
        /\ delete_contacts w (trace st ++ [EvLookup client (with_plus phone)]) client u
           = Ok (user :: others)
        /\ status = get_human_readable_user_status (u_status user).
Proof.
  unfold get_names, bind, emit, try_except, get_state, remote, py_index, ret, raise.
  simpl.
  destruct (import_contacts w _ client (with_plus phone)) as [[|u [|u' us]]|e] eqn:Hi;
    simpl.
  - split; [discriminate|]. by intros (? & ? & [=] & _).
  - destruct (delete_contacts w _ client u) as [[|x xs]|e] eqn:Hd; simpl.
    + split; [discriminate|]. intros (u0 & others & [= <-] & Hd' & _). congruence.
    + split.
      * intros [= <- <-]. by exists u, xs.
      * intros (u0 & others & [= <-] & Hd' & ->). rewrite Hd in Hd'. by simplify_eq.
    + split.
      * destruct (is_TypeError e); [discriminate|]. by destruct (is_Exception e).
      * intros (u0 & others & [= <-] & Hd' & _). congruence.
  - split; [discriminate|]. by intros (? & ? & [=] & _).
  - split.
    + destruct (is_TypeError e); [discriminate|]. by destruct (is_Exception e).
    + by intros (? & ? & [=] & _).
Qed.

Lemma X17_profile_reported_witness :
  fst (get_names calm "+7000000001" "1555000101" (start_state calm one_account None NoFile))
  = Ok (Profile sample_user (get_human_readable_user_status (u_status sample_user))).
Proof.
  apply (X17_profile_reported calm "+7000000001" "1555000101"
           (start_state calm one_account None NoFile) sample_user
           (get_human_readable_user_status (u_status sample_user))).
  exists (PyInt 7), []. split; [reflexivity|]. split; reflexivity.
Defined.

(** ** Only the numbers of the file *)

#[global] Instance traced_preorder P : PreOrder (traced P).
Proof.
  split.
  - intros st. split; [done|]. exists []. by rewrite app_nil_r.
  - intros s1 s2 s3 (Ha1 & evs1 & Ht1 & Hp1) (Ha2 & evs2 & Ht2 & Hp2).
    split; [congruence|]. exists (evs1 ++ evs2)%list.
    split; [by rewrite Ht2, Ht1, app_assoc|]. by apply Forall_app.
Qed.

Lemma quiet_traced P st st' : quiet P st st' -> traced P st st'.
Proof. intros [Ha _ _ _ _ Ht]. by split. Qed.

Lemma validate_loop_allowed (P : event -> Prop) w client pause_min pause_max len phones :
  (forall phone, phone ∈ phones ->
     P (EvLookup client (with_plus (strip_whitespace phone)))) ->
  P (EvRequestPause pause_min pause_max) ->
  forall i result,
    stable (quiet P) (validate_loop w client pause_min pause_max len i phones result).
Proof.
  intros Hlookup Hpause.
  induction phones as [|phone rest IH]; intros i result; simpl.
  - apply stable_ret, _.
  - assert (IH' : forall i result,
              stable (quiet P)
                (validate_loop w client pause_min pause_max len i rest result)).
    { apply IH. intros p Hp. apply Hlookup. by right. }
    destruct (_ && _); [|apply IH'].
    apply stable_bind; [apply _ | | intros data].
    + apply get_names_quiet, Hlookup. by left.
    + apply stable_bind; [apply _ | | intros _; apply IH'].
      destruct (i <? len)%nat; [by apply emit_quiet | apply stable_ret, _].
Qed.

Lemma commit_results_traced P w account batch results processed_count :
  stable (traced P) (commit_results w account batch results processed_count).
Proof.
  intros st. destruct results as [|item results]; [reflexivity|].
  destruct (commit_results_spec w account batch (item :: results) processed_count st)
    as (out & lim & -> & _); [done|].
  simpl. split; [done|]. exists []. by rewrite app_nil_r.
Qed.

Section Allowed.
Context (w : World) (accs : list account) (numbers : list string).

Lemma process_batch_allowed total i batch processed_count st :
  accounts (am st) = accs ->
  (forall number, number ∈ batch -> number ∈ numbers) ->
  traced (lookup_allowed accs numbers) st
    (snd (process_batch w total i batch processed_count st)).
Proof.
  intros Haccs Hbatch. unfold process_batch.
  rewrite (bind_ok _ _ st tt (snd (emit (EvBatchStart i total) st))) by reflexivity.
  assert (H0 : traced (lookup_allowed accs numbers) st
                 (snd (emit (EvBatchStart i total) st))).
  { apply quiet_traced. by apply (emit_quiet _ (EvBatchStart i total)). }
  set (st0 := snd (emit (EvBatchStart i total) st)) in *.
  pose proof (get_next_account_quiet (lookup_allowed accs numbers) w
                (Z.of_nat (length batch)) st0) as Hq0.
  apply quiet_traced in Hq0.
  pose proof (get_next_account_eligible w (Z.of_nat (length batch)) st0) as Hin.
  destruct (get_next_account w (Z.of_nat (length batch)) st0) as [[[a|]|e] sa] eqn:Hg;
    simpl in Hq0.
  2: { rewrite (bind_ok _ _ _ _ _ Hg). simpl. by etrans. }
  2: { rewrite (bind_raise _ _ _ _ _ Hg). simpl. by etrans. }
  destruct (Hin a eq_refl) as [_ Ha]. change (accounts (am st0)) with (accounts (am st)) in Ha.
  rewrite Haccs in Ha.
  rewrite (bind_ok _ _ _ _ _ Hg).
  pose proof (get_client_quiet (lookup_allowed accs numbers) w a I sa) as Hq1.
  apply quiet_traced in Hq1.
  destruct (get_client w a sa) as [[c|e] sc] eqn:Hc; simpl in Hq1.
  2: { rewrite (bind_raise _ _ _ _ _ Hc). simpl. by etrans; [|etrans]. }
  apply get_client_returns in Hc as Hname. subst c.
  rewrite (bind_ok _ _ _ _ _ Hc).
  rewrite (bind_ok _ _ sc sc sc) by reflexivity.
  destruct (pause_bounds (accounts (am sc)) a) as [pause_min pause_max].
  pose proof (validate_loop_allowed (lookup_allowed accs numbers) w (phone_number a)
                pause_min pause_max (length batch) batch) as Hq2.
  specialize (Hq2 ltac:(intros number Hn; split;
                          [by apply list_elem_of_fmap_2 | exists number; auto])
                I 1%nat [] sc).
  apply quiet_traced in Hq2.
  fold (validate_users w (phone_number a) batch pause_min pause_max) in Hq2.
  assert (H02 : traced (lookup_allowed accs numbers) st
                  (snd (validate_users w (phone_number a) batch pause_min pause_max sc))).
  { etrans; [exact H0|]. etrans; [exact Hq0|]. etrans; [exact Hq1|]. exact Hq2. }
  destruct (validate_users w (phone_number a) batch pause_min pause_max sc)
    as [[results|e] sv] eqn:Hv; simpl in H02.
  2: { by rewrite (bind_raise _ _ _ _ _ Hv). }
  rewrite (bind_ok _ _ _ _ _ Hv).
  pose proof (commit_results_traced (lookup_allowed accs numbers) w a batch results
                processed_count sv) as Hq3.
  destruct (commit_results_ok w a batch results processed_count sv) as (p' & s2 & Hcm).
  rewrite Hcm in Hq3. simpl in Hq3.
  rewrite (bind_ok _ _ _ _ _ Hcm), batch_pause_step. simpl.
  etrans; [exact H02|]. etrans; [exact Hq3|].
  destruct (i <? total)%nat; [|reflexivity].
  apply quiet_traced. by apply (emit_quiet _ (EvBatchPause _)).
Qed.

Lemma main_loop_allowed total batches : forall i processed_count st,
  accounts (am st) = accs ->
  (forall batch number, batch ∈ batches -> number ∈ batch -> number ∈ numbers) ->
  traced (lookup_allowed accs numbers) st
    (snd (main_loop w total i batches processed_count st)).
Proof.
  induction batches as [|batch rest IH]; intros i processed_count st Haccs Hall; simpl.
  - reflexivity.
  - unfold bind.
    pose proof (process_batch_allowed total i batch processed_count st Haccs
                  (fun number => Hall batch number ltac:(left))) as H1.
    destruct (process_batch w total i batch processed_count st) as [[[p'|]|e] s1];
      simpl in *; try exact H1.
    etrans; [exact H1|]. apply IH.
    + destruct H1 as [Ha _]. congruence.
    + intros b number Hb. apply Hall. by right.
Qed.

Lemma main_allowed batches st :
  accounts (am st) = accs ->
  (forall batch number, batch ∈ batches -> number ∈ batch -> number ∈ numbers) ->
  traced (lookup_allowed accs numbers) st (snd (main w batches st)).
Proof.
  intros Haccs Hall. destruct batches as [|batch rest]; [reflexivity|].
  pose proof (main_loop_allowed (length (batch :: rest)) (batch :: rest) 1%nat 0%nat st
                Haccs Hall) as Hloop.
  destruct (main_loop w (length (batch :: rest)) 1 (batch :: rest) 0 st) as [r s1] eqn:Hrun.
  rewrite (main_cases _ _ _ _ _ _ Hrun). cbn [fst snd] in *.
  etrans; [exact Hloop|].
  apply quiet_traced. by apply disconnect_all_quiet.
Qed.

End Allowed.

Lemma py_slice_elem {A} (l : list A) start stop x : x ∈ py_slice l start stop -> x ∈ l.
Proof.
  unfold py_slice. intros Hx.
  apply subseteq_take in Hx. by apply subseteq_drop in Hx.
Qed.

Lemma elem_of_concat_2 {A} (x : A) (l : list A) (ls : list (list A)) :
  x ∈ l -> l ∈ ls -> x ∈ concat ls.
Proof.
  intros Hx. induction 1 as [l ls|l l' ls _ IH]; simpl; apply elem_of_app; auto.
Qed.

Lemma read_phone_numbers_concat rows batch_size batches :
  read_phone_numbers (CsvRows rows) batch_size = Ok batches ->
  concat batches = numbers_of rows.
Proof.
  destruct rows as [|[|cell cells] rest]; simpl; intros [= <-]; [done..|].
  by rewrite read_rows_concat.
Qed.

(** X18. A run looks up nothing but numbers of the input file, and only
    through accounts of the configuration: whatever window of the batches
    is processed, every lookup of the run is made through the phone number
    of a configured account, and is of a number that [read_phone_numbers]
    took from the file, without its whitespace and with a plus sign in
    front. *)
Theorem X18_only_numbers_of_the_file (w : World) (rows : list (list string))
  (batch_size batch_start : Z) (batch_end : option Z) (batches : list (list string))
  (st : state) :
  batches_to_process (CsvRows rows) batch_size batch_start batch_end = Ok batches ->
  Forall (lookup_allowed (accounts (am st)) (numbers_of rows))
    (events_since st (snd (main w batches st))).
Proof.
  unfold batches_to_process. intros Hread.
  destruct (read_phone_numbers (CsvRows rows) batch_size) as [all|e] eqn:Hall;
    [|discriminate].
  injection Hread as <-. apply read_phone_numbers_concat in Hall as Hcat.
  destruct (main_allowed w (accounts (am st)) (numbers_of rows)
              (py_slice all batch_start batch_end) st eq_refl)
    as (_ & evs & Htr & Hevs).
  - intros batch number Hb Hn. rewrite <- Hcat.
    apply (elem_of_concat_2 _ batch); [done|]. by eapply py_slice_elem.
  - unfold events_since. by rewrite Htr, drop_app_length.
Qed.

Lemma X18_only_numbers_of_the_file_witness :
  Forall
    (lookup_allowed (accounts (am (start_state calm one_account None NoFile)))
       (numbers_of [["phone"]; ["+1555000101"]; ["+1555000102"]; ["+1555000103"]]))
    (events_since (start_state calm one_account None NoFile)
       (snd (main calm [["+1555000103"]] (start_state calm one_account None NoFile)))).
Proof.
  apply (X18_only_numbers_of_the_file calm
           [["phone"]; ["+1555000101"]; ["+1555000102"]; ["+1555000103"]]
           2 (-1) None [["+1555000103"]]
           (start_state calm one_account None NoFile)).
  vm_compute. reflexivity.
Defined.
